(** * UK mountain tours analytics: the synthetic-data engine and its frames

    A shallow embedding of the parts of the pipeline that carry logic:
    the key-to-unit hash ([src/synth/generate_routes.py],
    [src/ml/features_v2.py]), the closed-day resolver and the booking
    simulation ([src/synth/generate_bookings.py]), the bank-holiday
    dimension ([src/transform/clean_bank_holidays.py]), the route-day
    aggregate ([src/transform/build_model_tables.py]), the 2026 scoring
    frame ([src/ml/features.py]) and the forecast post-processing
    ([src/ml/predict_2026.py]).

    Conventions.
    - Python [int] is [Z]; a Python [float] the code computes is modelled
      by the exact rational it denotes ([Q]), and decimal rounding is
      round-half-to-even on that exact value; the array a fitted model
      returns is a list of [Float] cells, which may be NaN or infinite.
    - A [str] is a Rocq [string] holding its UTF-8 bytes; the
      case-insensitive search of a bank-holiday title folds the ASCII
      letters.
    - A pandas table is the list of its rows, each row a record; a cell
      that may be missing (NaN) is an [option].
    - The seeded numpy generator is an explicit state threaded through the
      sampling calls; a raised exception is [None]. *)

From Stdlib Require Import ZArith QArith Qround Qminmax Qabs Lqa Lia.
From Stdlib Require Import Ascii String List DecimalString.
From stdpp Require Import gmap strings list sorting.

Local Open Scope Z_scope.

(** ** Numeric helpers: [np.clip] and [round] *)

Module Num.

(** [np.clip(x, lo, hi)] is [minimum(maximum(x, lo), hi)]. *)
Definition clip (x lo hi : Q) : Q := Qmin (Qmax x lo) hi.

(** [np.clip(x, lo, None)]. *)
Definition clip_lo (x lo : Q) : Q := Qmax x lo.

(** Round-half-to-even of a rational to an integer, as Python's [round]
    and numpy's [rint] do on the value they are given. *)
Definition round_half_even (q : Q) : Z :=
  let f := Qfloor q in
  let r := (q - inject_Z f)%Q in
  match (r ?= 1 # 2)%Q with
  | Lt => f
  | Gt => f + 1
  | Eq => if Z.even f then f else f + 1
  end.

(** [round(x, ndigits)]: the multiple of [10^-ndigits] nearest to [x]. *)
Definition round_nd (x : Q) (ndigits : nat) : Q :=
  let scale := inject_Z (10 ^ Z.of_nat ndigits) in
  (inject_Z (round_half_even (x * scale)) / scale)%Q.

End Num.

(** ** The key-to-unit hash *)

(** [x.encode("utf-8")]: the key already is its UTF-8 byte string; each
    byte is an integer in [0, 255]. *)
Definition encode_utf8 (x : string) : list Z :=
  map (fun c => Z.of_N (N_of_ascii c)) (list_ascii_of_string x).

(** [src/synth/generate_routes.py], [_stable_hash_to_unit]: three
    in-place updates per byte. *)
Definition _stable_hash_to_unit (x : string) : Q :=
  let h :=
    fold_left
      (fun h ch =>
         let h := Z.lxor h ch in
         let h := h * 16777619 in
         let h := Z.land h 0xFFFFFFFF in
         h)
      (encode_utf8 x) 2166136261 in
  (inject_Z (h mod 10000000) / 10000000)%Q.

(** [src/ml/features_v2.py], [_stable_unit]: xor, then multiply-and-mask
    in one assignment. *)
Definition _stable_unit (seed : string) : Q :=
  let h :=
    fold_left
      (fun h b =>
         let h := Z.lxor h b in
         Z.land (h * 16777619) 0xFFFFFFFF)
      (encode_utf8 seed) 2166136261 in
  (inject_Z (h mod 10000000) / 10000000)%Q.

(** The reference definition, following the specification's words: the
    32-bit FNV-1a rolling hash (offset basis 2166136261, prime 16777619,
    xor the byte then multiply, arithmetic modulo [2^32]). *)
Module FNVSpec.

Definition offset_basis : Z := 2166136261.
Definition fnv_prime : Z := 16777619.

Fixpoint fnv1a32_from (h : Z) (bytes : list Z) : Z :=
  match bytes with
  | [] => h
  | b :: rest => fnv1a32_from ((Z.lxor h b * fnv_prime) mod 2 ^ 32) rest
  end.

Definition fnv1a32 (bytes : list Z) : Z := fnv1a32_from offset_basis bytes.

Definition hash_to_unit (bytes : list Z) : Q :=
  Qmake (fnv1a32 bytes mod 10000000) 10000000.

End FNVSpec.

(** ** Calendar dates *)

(** A calendar day, as [datetime.date]. *)
Record date := mkDate { year : Z; month : Z; day : Z }.

#[global] Instance date_eq_dec : EqDecision date.
Proof. solve_decision. Defined.

#[global] Instance date_countable : Countable date.
Proof.
  refine (inj_countable' (fun d => (year d, month d, day d))
            (fun t => mkDate t.1.1 t.1.2 t.2) _).
  by intros [].
Defined.

(** [int(strftime("%Y%m%d"))]. *)
Definition date_key_of (d : date) : Z := year d * 10000 + month d * 100 + day d.

(** Chronological order of two days. *)
Definition date_leb (a b : date) : bool :=
  (year a <? year b)
  || ((year a =? year b)
      && ((month a <? month b) || ((month a =? month b) && (day a <=? day b)))).

(** ** Text helpers *)

(** ASCII lower-casing of one byte; bytes outside [A-Z] are kept. *)
Definition lower_byte (c : ascii) : ascii :=
  let n := nat_of_ascii c in
  if ((65 <=? n) && (n <=? 90))%nat then ascii_of_nat (n + 32) else c.

Definition byte_eq_nocase (a b : ascii) : bool :=
  Ascii.eqb (lower_byte a) (lower_byte b).

(** Does [kw] match at the start of [s], ignoring case? *)
Fixpoint prefix_nocase (kw s : string) : bool :=
  match kw with
  | EmptyString => true
  | String a kw' =>
      match s with
      | EmptyString => false
      | String b s' => byte_eq_nocase a b && prefix_nocase kw' s'
      end
  end.

(** [Series.str.contains(kw, case=False)] on one title. The keywords hold
    no regular-expression metacharacter, so the pattern search is a
    substring search. Case is folded on the ASCII letters only: the
    regular-expression engine also lets a few other letters stand for an
    ASCII one (the long s for [s], the dotted and dotless i for [i]), so
    a title that matches here matches in the code, and the titles the
    code matches beyond these are titles with such a letter. *)
Fixpoint str_contains_nocase (kw s : string) : bool :=
  prefix_nocase kw s
  || match s with
     | EmptyString => false
     | String _ s' => str_contains_nocase kw s'
     end.

(** [{...}.get(k, default)] on a dict literal. *)
Fixpoint dict_get {V : Type} (d : list (string * V)) (k : string) (default : V) : V :=
  match d with
  | [] => default
  | (k', v) :: d' => if String.eqb k' k then v else dict_get d' k default
  end.

(** ** Dimension tables *)

(** A row of [dim_route.csv]. *)
Record Route := {
  rt_route_id : Z;
  rt_route_name : string;
  rt_region : string;
  rt_difficulty : string;
  rt_distance_km : Q;
  rt_duration_hours : Q;
}.

(** A row of [dim_date.csv] ([build_dim_date]). *)
Record DimDate := {
  dd_date : date;
  dd_date_key : Z;
  dd_year : Z;
  dd_quarter : Z;
  dd_month : Z;
  dd_iso_week : Z;
  dd_day_name : string;
  dd_is_weekend : bool;
  dd_season : string;
  dd_is_bank_holiday_any : bool;
  dd_is_bank_holiday_england_wales : bool;
  dd_is_bank_holiday_scotland : bool;
  dd_is_bank_holiday_northern_ireland : bool;
}.

(** A row of [dim_bank_holiday.csv]; [bh_title] is the title after
    [astype(str)]. *)
Record BankHoliday := {
  bh_id : Z;
  bh_date : date;
  bh_division : string;
  bh_title : string;
}.

(** A row of [dim_guide.csv]. *)
Record Guide := { gd_guide_id : Z; gd_name : string }.

(** A row of [dim_region_division.csv]. *)
Record RegionDivision := { rd_region : string; rd_division : string }.

(** ** The closed-day resolver *)

(** The tuple [CLOSED_HOLIDAY_KEYWORDS]; the typographic apostrophe of the
    fifth entry is U+2019, bytes E2 80 99. *)
Definition CLOSED_HOLIDAY_KEYWORDS : list string :=
  [ "Christmas Day"; "Boxing Day"; "New Year"; "New Year's Day";
    ("New Year" ++ String "226" (String "128" (String "153" "s Day")));
    "Good Friday"; "Easter Monday" ]%string.

(** The boolean mask built by the loop over the keywords. *)
Definition closed_mask (title : string) : bool :=
  fold_left (fun mask kw => mask || str_contains_nocase kw title)
            CLOSED_HOLIDAY_KEYWORDS false.

(** [_build_closed_dates_by_division]: one entry per division that has a
    closing event, holding the set of that division's closing dates. *)
Definition _build_closed_dates_by_division (bh : list BankHoliday)
  : gmap string (gset date) :=
  let closed := filter (fun r => closed_mask (bh_title r) = true) bh in
  foldl
    (fun out division =>
       let grp := filter (fun r => bh_division r = division) closed in
       <[division := list_to_set (map bh_date grp)]> out)
    ∅ (remove_dups (map bh_division closed)).

(** The closed-day set in the specification's words: the dates of the
    division's bank holidays whose title contains, ignoring case, one of
    the listed keywords. *)
Definition SPEC_KEYWORDS : list string :=
  [ "Christmas Day"; "Boxing Day"; "New Year"; "Good Friday"; "Easter Monday" ]%string.

Definition closing_title (title : string) : Prop :=
  exists kw, kw ∈ SPEC_KEYWORDS /\ str_contains_nocase kw title = true.

Definition closed_day (bh : list BankHoliday) (division : string) (d : date) : Prop :=
  exists ev, ev ∈ bh /\ bh_division ev = division /\ bh_date ev = d
             /\ closing_title (bh_title ev).

(** ** The seeded generator *)

(** The sampling calls the engine makes on [np.random.Generator]. Each
    takes the generator state and returns the draw with the next state.
    [rng_index n] is the position picked by [choice(a)] in an array of
    [n] elements and [rng_index_p probs] the one picked by
    [choice(a, p=probs)]. *)
Class Generator (G : Type) := {
  rng_poisson : Q -> G -> Z * G;
  rng_random : G -> Q * G;
  rng_uniform : Q -> Q -> G -> Q * G;
  rng_normal : Q -> Q -> G -> Q * G;
  rng_index : nat -> G -> nat * G;
  rng_index_p : list Q -> G -> nat * G;
}.

(** A generator that replays a tape of draws: it stands for one possible
    run of the numpy generator and lets the engine be evaluated. *)
Module Tape.

Definition pop (t : list Q) : Q * list Q :=
  match t with
  | [] => (0%Q, [])
  | q :: t' => (q, t')
  end.

#[global] Instance tape_generator : Generator (list Q) := {
  rng_poisson := fun _ t => let '(q, t') := pop t in (Qfloor q, t');
  rng_random := fun t => pop t;
  rng_uniform := fun lo hi t => let '(q, t') := pop t in ((lo + (hi - lo) * q)%Q, t');
  rng_normal := fun loc scale t => let '(q, t') := pop t in ((loc + scale * q)%Q, t');
  rng_index := fun _ t => let '(q, t') := pop t in (Z.to_nat (Qfloor q), t');
  rng_index_p := fun _ t => let '(q, t') := pop t in (Z.to_nat (Qfloor q), t');
}.

End Tape.

(** ** The booking fact *)

(** One dict appended to [rows] by [generate_fact_bookings]. *)
Record Booking := {
  booking_id : Z;
  booking_date : date;
  date_key : Z;
  route_id : Z;
  region : string;
  guide_id : Z;
  party_size : Z;
  difficulty : string;
  duration_hours : Q;
  discount_flag : Z;
  discount_pct : Q;
  price_per_person_ex_vat : Q;
  sales_ex_vat : Q;
  vat_amount : Q;
  sales_inc_vat : Q;
  staff_cost : Q;
  margin_amount : Q;
  margin_pct : Q;
  season : string;
  is_weekend : Z;
  is_bank_holiday : Z;
  holiday_division : string;
}.

(** [src/config.py] *)
Definition VAT_RATE : Q := 0.20.

Definition REGION_UPLIFT : list (string * Q) :=
  [ ("lake_district", 1.35); ("wales", 1.15); ("peak_district", 1.00);
    ("scotland", 0.90) ]%Q%string.

Definition SEASON_UPLIFT : list (string * Q) :=
  [ ("winter", 1.30); ("spring", 1.00); ("summer", 0.85); ("autumn", 1.10) ]%Q%string.

Definition DIFFICULTY_UPLIFT : list (string * Q) :=
  [ ("easy", 1.20); ("moderate", 1.00); ("hard", 0.90); ("severe", 0.75) ]%Q%string.

Definition WEEKEND_UPLIFT : Q := 1.20.
Definition BANK_HOLIDAY_OPEN_UPLIFT : Q := 1.40.

(** [_expected_bookings_per_route_day] *)
Definition _expected_bookings_per_route_day
    (region season difficulty : string) (is_weekend is_bank_holiday_open : bool) : Q :=
  let base := 0.55%Q in
  let mu := base in
  let mu := (mu * dict_get REGION_UPLIFT region 1.0)%Q in
  let mu := (mu * dict_get SEASON_UPLIFT season 1.0)%Q in
  let mu := (mu * dict_get DIFFICULTY_UPLIFT difficulty 1.0)%Q in
  let mu := if is_weekend then (mu * WEEKEND_UPLIFT)%Q else mu in
  let mu := if is_bank_holiday_open then (mu * BANK_HOLIDAY_OPEN_UPLIFT)%Q else mu in
  Num.clip mu 0.05 3.0.

(** [load_inputs]: the engine keeps the days of 2024 and 2025. *)
Definition _load_inputs_dates (dates : list DimDate) : list DimDate :=
  filter (fun d => date_leb (mkDate 2024 1 1) (dd_date d) = true
                   /\ date_leb (dd_date d) (mkDate 2025 12 31) = true) dates.

(** [dict(zip(region_div["region"], region_div["division"]))]: a later row
    overwrites an earlier one with the same region. *)
Definition region_to_div_of (region_div : list RegionDivision) : gmap string string :=
  foldl (fun m r => <[rd_region r := rd_division r]> m) ∅ region_div.

Section Engine.

Context {G : Type} `{Generator G}.

(** Sampling code: a state transformer over the generator that may raise. *)
Definition M (A : Type) : Type := G -> option (A * G).

Definition ret {A} (a : A) : M A := fun g => Some (a, g).

Definition bind {A B} (m : M A) (k : A -> M B) : M B :=
  fun g => match m g with
           | Some (a, g') => k a g'
           | None => None
           end.

Definition lift {A} (draw : G -> A * G) : M A := fun g => Some (draw g).

(** [raise ValueError]. *)
Definition raise {A} : M A := fun _ => None.

Notation "x <- m ;; k" := (bind m (fun x => k))
  (at level 100, m at next level, right associativity).

(** A [for] loop that threads an accumulator. *)
Fixpoint foldM {S A} (body : S -> A -> M S) (s : S) (l : list A) : M S :=
  match l with
  | [] => ret s
  | a :: l' => s' <- body s a ;; foldM body s' l'
  end.

(** [for _ in range(n)]. *)
Fixpoint repeatM {S} (n : nat) (body : S -> M S) (s : S) : M S :=
  match n with
  | O => ret s
  | S n' => s' <- body s ;; repeatM n' body s'
  end.

(** [rng.choice(a)] for a list: numpy raises [ValueError] ("a cannot be
    empty unless no samples are taken") on an empty [a]; otherwise it
    returns the element at the position it draws, which lies inside the
    array. *)
Definition rng_choice {A} (a : list A) : M A :=
  match a with
  | [] => raise
  | x :: _ =>
      i <- lift (rng_index (length a)) ;;
      ret (nth (i mod length a)%nat a x)
  end.

(** [_party_size] *)
Definition _party_size (difficulty : string) : M Z :=
  let probs :=
    if String.eqb difficulty "easy" then [0.10; 0.25; 0.25; 0.20; 0.12; 0.08]%Q
    else if String.eqb difficulty "moderate" then [0.15; 0.28; 0.25; 0.17; 0.10; 0.05]%Q
    else if String.eqb difficulty "hard" then [0.22; 0.33; 0.23; 0.13; 0.07; 0.02]%Q
    else [0.30; 0.38; 0.20; 0.08; 0.03; 0.01]%Q in
  i <- lift (rng_index_p probs) ;;
  ret (nth (i mod 6)%nat [1; 2; 3; 4; 5; 6] 1).

(** [_discount_flag_and_pct] *)
Definition _discount_flag_and_pct (party_size : Z) (season : string) (is_weekend : bool)
  : M (bool * Q) :=
  let base_prob := 0.10%Q in
  let base_prob := if 4 <=? party_size then (base_prob + 0.10)%Q else base_prob in
  let base_prob := if String.eqb season "summer" then (base_prob + 0.05)%Q else base_prob in
  let base_prob := if negb is_weekend then (base_prob + 0.03)%Q else base_prob in
  u <- lift rng_random ;;
  let flag := match (u ?= Qmin base_prob 0.35)%Q with Lt => true | _ => false end in
  if negb flag then ret (false, 0.0%Q)
  else
    pct <- lift (rng_uniform 0.05 0.20) ;;
    ret (true, pct).

(** [_price_per_person_ex_vat] *)
Definition _price_per_person_ex_vat (duration_hours : Q) (difficulty : string) : M Q :=
  let base := (75.0 + duration_hours * 8.0)%Q in
  let diff_mult :=
    dict_get [ ("easy", 0.95); ("moderate", 1.00); ("hard", 1.10); ("severe", 1.20) ]%Q%string
             difficulty 1.00%Q in
  noise <- lift (rng_normal 1.0 0.06) ;;
  let val := (base * diff_mult * noise)%Q in
  ret (Num.clip val 60.0 190.0).

(** [_margin_pct] *)
Definition _margin_pct (discount_flag : bool) (party_size : Z) : M Q :=
  m <- lift (rng_uniform 0.30 0.50) ;;
  m <- (if discount_flag
        then (cut <- lift (rng_uniform 0.03 0.08) ;; ret (m - cut)%Q)
        else ret m) ;;
  let m := (m + Qmin (inject_Z (Z.max (party_size - 2) 0) * 0.008) 0.03)%Q in
  ret (Num.clip m 0.30 0.50).

(** The body of [for _ in range(n)]: draw one booking, append its row and
    advance [booking_id]. *)
Definition booking_body (guide_ids : list Z) (rt : Route) (division : string)
    (d : DimDate) (is_bh : bool) (st : list Booking * Z) : M (list Booking * Z) :=
  let '(rows, booking_id) := st in
  let dt := dd_date d in
  let season := dd_season d in
  let is_weekend := dd_is_weekend d in
  let difficulty := rt_difficulty rt in
  let duration_hours := rt_duration_hours rt in
  party <- _party_size difficulty ;;
  disc <- _discount_flag_and_pct party season is_weekend ;;
  let discount_flag := fst disc in
  let discount_pct := snd disc in
  ppp <- _price_per_person_ex_vat duration_hours difficulty ;;
  let list_value_ex_vat := (ppp * inject_Z party)%Q in
  let discount_value :=
    if discount_flag then (list_value_ex_vat * discount_pct)%Q else 0.0%Q in
  let sales_ex_vat := Qmax (list_value_ex_vat - discount_value) 0.0 in
  margin_pct <- _margin_pct discount_flag party ;;
  let margin_amount := (sales_ex_vat * margin_pct)%Q in
  let total_cost := Qmax (sales_ex_vat - margin_amount) 0.0 in
  z <- lift (rng_normal 0.62 0.06) ;;
  let staff_share := Num.clip z 0.50 0.75 in
  let staff_cost := (total_cost * staff_share)%Q in
  let vat_amount := (sales_ex_vat * VAT_RATE)%Q in
  let sales_inc_vat := (sales_ex_vat + vat_amount)%Q in
  guide_id <- rng_choice guide_ids ;;
  ret (rows ++ [ {| booking_id := booking_id;
                    booking_date := dt;
                    date_key := date_key_of dt;
                    route_id := rt_route_id rt;
                    region := rt_region rt;
                    guide_id := guide_id;
                    party_size := party;
                    difficulty := difficulty;
                    duration_hours := Num.round_nd duration_hours 2;
                    discount_flag := Z.b2z discount_flag;
                    discount_pct := Num.round_nd discount_pct 4;
                    price_per_person_ex_vat := Num.round_nd ppp 2;
                    sales_ex_vat := Num.round_nd sales_ex_vat 2;
                    vat_amount := Num.round_nd vat_amount 2;
                    sales_inc_vat := Num.round_nd sales_inc_vat 2;
                    staff_cost := Num.round_nd staff_cost 2;
                    margin_amount := Num.round_nd margin_amount 2;
                    margin_pct := Num.round_nd margin_pct 4;
                    season := season;
                    is_weekend := Z.b2z is_weekend;
                    is_bank_holiday := Z.b2z is_bh;
                    holiday_division := division |} ],
       booking_id + 1).

(** The body of [for _, d in dates.iterrows()]. *)
Definition route_day_body (guide_ids : list Z) (rt : Route) (division : string)
    (closed_dates : gset date) (st : list Booking * Z) (d : DimDate)
  : M (list Booking * Z) :=
  let dt := dd_date d in
  let is_bh :=
    if String.eqb division "scotland" then dd_is_bank_holiday_scotland d
    else if String.eqb division "northern-ireland" then dd_is_bank_holiday_northern_ireland d
    else dd_is_bank_holiday_england_wales d in
  if decide (dt ∈ closed_dates) then ret st
  else
    let mu := _expected_bookings_per_route_day
                (rt_region rt) (dd_season d) (rt_difficulty rt) (dd_is_weekend d) is_bh in
    n <- lift (rng_poisson mu) ;;
    if n <=? 0 then ret st
    else repeatM (Z.to_nat n) (booking_body guide_ids rt division d is_bh) st.

(** The division a route's bookings are governed by. *)
Definition route_division (region_to_div : gmap string string) (rt : Route) : string :=
  default "england-and-wales"%string (region_to_div !! rt_region rt).

(** The body of [for _, rt in routes.iterrows()]. *)
Definition route_body (guide_ids : list Z) (dates : list DimDate)
    (region_to_div : gmap string string) (closed_dates_by_div : gmap string (gset date))
    (st : list Booking * Z) (rt : Route) : M (list Booking * Z) :=
  let division := route_division region_to_div rt in
  let closed_dates := default ∅ (closed_dates_by_div !! division) in
  foldM (route_day_body guide_ids rt division closed_dates) st dates.

(** [generate_fact_bookings], from the loaded tables and the state of
    [default_rng(RANDOM_SEED)] to the rows of the fact table; [None] when
    an exception escapes. *)
Definition generate_fact_bookings
    (routes : list Route) (guides : list Guide) (dates : list DimDate)
    (bh : list BankHoliday) (region_div : list RegionDivision) (rng : G)
  : option (list Booking) :=
  let dates := _load_inputs_dates dates in
  let region_to_div := region_to_div_of region_div in
  let closed_dates_by_div := _build_closed_dates_by_division bh in
  let guide_ids := map gd_guide_id guides in
  match foldM (route_body guide_ids dates region_to_div closed_dates_by_div)
              ([], 1) routes rng with
  | Some ((rows, _), _) => Some rows
  | None => None
  end.

End Engine.

Arguments M : clear implicits.

(** ** The Poisson counts of a run without guides *)

Section EmptyRoster.

Context {G : Type} `{Generator G}.

(** The Poisson mean [route_day_body] computes for a route on a day. *)
Definition route_day_mean (rt : Route) (division : string) (d : DimDate) : Q :=
  let is_bh :=
    if String.eqb division "scotland" then dd_is_bank_holiday_scotland d
    else if String.eqb division "northern-ireland" then dd_is_bank_holiday_northern_ireland d
    else dd_is_bank_holiday_england_wales d in
  _expected_bookings_per_route_day
    (rt_region rt) (dd_season d) (rt_difficulty rt) (dd_is_weekend d) is_bh.

(** The Poisson counts drawn, in order, on the way through the
    route-days when the roster is empty: a closed day draws nothing; on
    an open day the count is drawn from the current generator state; after
    a count that is not positive no other draw is made and the walk goes
    on to the next route-day; a positive count is the last one drawn. *)
Fixpoint counts_drawn (division : Route -> string) (closed_dates : Route -> gset date)
    (days : list (Route * DimDate)) (g : G) : list Z :=
  match days with
  | [] => []
  | (rt, d) :: days' =>
      if decide (dd_date d ∈ closed_dates rt)
      then counts_drawn division closed_dates days' g
      else
        let draw := rng_poisson (route_day_mean rt (division rt) d) g in
        fst draw :: (if fst draw <=? 0
                     then counts_drawn division closed_dates days' (snd draw)
                     else [])
  end.

(** The Poisson counts a run of the engine draws when the guide table is
    empty: the routes in table order, and for each route the days of
    2024 and 2025 in calendar-table order. *)
Definition poisson_counts
    (routes : list Route) (dates : list DimDate)
    (bh : list BankHoliday) (region_div : list RegionDivision) (rng : G) : list Z :=
  let dates := _load_inputs_dates dates in
  let division := route_division (region_to_div_of region_div) in
  let closed_dates :=
    fun rt => default ∅ (_build_closed_dates_by_division bh !! division rt) in
  counts_drawn division closed_dates
    (flat_map (fun rt => map (fun d => (rt, d)) dates) routes) rng.

End EmptyRoster.

(** What the engine stores in the row of a booking drawn for route [rt],
    governed by [division], on day [d]: the facts about
    [booking_body]'s dict that the properties below rest on. *)
Definition emitted (rt : Route) (division : string) (d : DimDate) (b : Booking) : Prop :=
  booking_date b = dd_date d
  /\ route_id b = rt_route_id rt
  /\ region b = rt_region rt
  /\ holiday_division b = division
  /\ (discount_flag b = 0 \/ discount_flag b = 1)
  /\ (exists m, margin_pct b = Num.round_nd (Num.clip m 0.30 0.50) 4)
  /\ (exists s, sales_ex_vat b = Num.round_nd s 2
                /\ vat_amount b = Num.round_nd (s * VAT_RATE) 2
                /\ sales_inc_vat b = Num.round_nd (s + s * VAT_RATE) 2).

(** ** Table operations *)

(** [left.merge(right, how="left")] on one key: every left row is kept;
    it is paired with each right row of equal key, or with nothing when
    there is none. *)
Definition merge_left {A B K : Type} `{EqDecision K}
    (kl : A -> K) (kr : B -> K) (left : list A) (right : list B)
  : list (A * option B) :=
  flat_map
    (fun a =>
       match filter (fun b => kr b = kl a) right with
       | [] => [(a, None)]
       | matches => map (fun b => (a, Some b)) matches
       end)
    left.

(** The pairs of a merge on a constant [key] column: every left row with
    every right row. *)
Definition merge_cross {A B : Type} (left : list A) (right : list B) : list (A * B) :=
  flat_map (fun a => map (fun b => (a, b)) right) left.

(** Sorting with a boolean comparison. *)
Definition sort_by {A : Type} (leb : A -> A -> bool) (l : list A) : list A :=
  merge_sort (fun x y => Is_true (leb x y)) l.

(** A division of two numeric columns: a zero (or missing) denominator
    yields a non-finite or missing cell, written [None]; nothing is
    raised. *)
Definition series_div (a b : Q) : option Q :=
  if Qeq_bool b 0 then None else Some (a / b)%Q.

Definition sumZ (l : list Z) : Z := foldr Z.add 0 l.
Definition sumQ (l : list Q) : Q := foldr Qplus 0%Q l.

(** ** The route-day aggregate *)

(** The group key of [groupby(["date_key", "route_id", "region"])]. *)
Definition GroupKey : Type := Z * Z * string.

Definition group_key (b : Booking) : GroupKey := (date_key b, route_id b, region b).

Definition group_key_leb (a b : GroupKey) : bool :=
  let '(da, ra, ga) := a in
  let '(db, rb, gb) := b in
  (da <? db) || ((da =? db) && ((ra <? rb) || ((ra =? rb) && String.leb ga gb))).

(** One row of [grp]. *)
Record RouteDayAgg := {
  ra_date_key : Z;
  ra_route_id : Z;
  ra_region : string;
  bookings_count : Z;
  party_size_total : Z;
  party_size_avg : option Q;
  ra_sales_ex_vat : Q;
  ra_vat_amount : Q;
  ra_sales_inc_vat : Q;
  ra_staff_cost : Q;
  ra_margin_amount : Q;
  discount_bookings : Z;
  discount_rate : option Q;
  margin_pct_weighted : option Q;
}.

(** The named aggregations over one group, then the two derived ratios. *)
Definition aggregate_group (k : GroupKey) (g : list Booking) : RouteDayAgg :=
  let count := Z.of_nat (length (map booking_id g)) in
  let sales := sumQ (map sales_ex_vat g) in
  let margin := sumQ (map margin_amount g) in
  let discounts := sumZ (map discount_flag g) in
  {| ra_date_key := k.1.1;
     ra_route_id := k.1.2;
     ra_region := k.2;
     bookings_count := count;
     party_size_total := sumZ (map party_size g);
     party_size_avg := series_div (inject_Z (sumZ (map party_size g))) (inject_Z count);
     ra_sales_ex_vat := sales;
     ra_vat_amount := sumQ (map vat_amount g);
     ra_sales_inc_vat := sumQ (map sales_inc_vat g);
     ra_staff_cost := sumQ (map staff_cost g);
     ra_margin_amount := margin;
     discount_bookings := discounts;
     discount_rate := series_div (inject_Z discounts) (inject_Z count);
     margin_pct_weighted := series_div margin sales |}.

(** [fact.groupby([...], as_index=False).agg(...)]: one row per key that
    occurs in the fact table, in key order. *)
Definition groupby_agg (fact : list Booking) : list RouteDayAgg :=
  let keys := sort_by group_key_leb (remove_dups (map group_key fact)) in
  map (fun k => aggregate_group k (filter (fun b => group_key b = k) fact)) keys.

(** One row of the route-day model table: the aggregate with the joined
    calendar and route attributes. *)
Record RouteDay := {
  rday_agg : RouteDayAgg;
  rday_date : option DimDate;
  rday_route : option Route;
}.

Definition route_day_leb (a b : RouteDay) : bool :=
  let x := rday_agg a in
  let y := rday_agg b in
  (ra_date_key x <? ra_date_key y)
  || ((ra_date_key x =? ra_date_key y) && (ra_route_id x <=? ra_route_id y)).

(** [build_route_day] *)
Definition build_route_day
    (fact : list Booking) (dim_date : list DimDate) (dim_route : list Route)
  : list RouteDay :=
  let grp := groupby_agg fact in
  let model := merge_left ra_date_key dd_date_key grp dim_date in
  let model := merge_left (fun m => ra_route_id (fst m)) rt_route_id model dim_route in
  let model :=
    map (fun m => {| rday_agg := fst (fst m);
                     rday_date := snd (fst m);
                     rday_route := snd m |}) model in
  sort_by route_day_leb model.

(** ** The 2026 scoring frame *)

(** One row of [base] once the division and the two flags are added. The
    route cells are missing ([None], NaN in the table) on the rows the
    outer merge makes for a calendar day when there is no route. *)
Record ScoreRow := {
  sr_date : DimDate;
  sr_route : option Route;
  sr_division : string;
  sr_is_bank_holiday_division : Z;
  sr_is_closed_day : Z;
}.

(** One row of the encoded frame: the kept columns and the value of each
    indicator column. *)
Record EncodedRow := {
  er_row : ScoreRow;
  er_dummies : list (string * bool);
}.

(** A table: its column labels and its rows. *)
Record Frame := {
  fr_columns : list string;
  fr_rows : list EncodedRow;
}.

(** Distinct values of a categorical column, sorted. *)
Definition categories (values : list string) : list string :=
  sort_by String.leb (remove_dups values).

(** The value of a categorical column in a row; [None] is a missing
    cell. *)
Definition cat_value (c : string) (r : ScoreRow) : option string :=
  if String.eqb c "region" then rt_region <$> sr_route r
  else if String.eqb c "difficulty" then rt_difficulty <$> sr_route r
  else if String.eqb c "season" then Some (dd_season (sr_date r))
  else Some (dd_day_name (sr_date r)).

(** The indicator columns [pd.get_dummies] makes for column [c]: one per
    value that occurs; a missing cell makes no column. *)
Definition dummy_columns (c : string) (rows : list ScoreRow) : list (string * string) :=
  map (fun v => ((c ++ "_" ++ v)%string, v)) (categories (omap (cat_value c) rows)).

(** The columns of [base] after the selection through [keep]. *)
Definition keep : list string :=
  [ "date_key"; "date"; "year"; "quarter"; "month"; "iso_week"; "day_name";
    "is_weekend"; "season"; "route_id"; "region"; "difficulty"; "distance_km";
    "duration_hours"; "is_bank_holiday_england_wales"; "is_bank_holiday_scotland";
    "is_bank_holiday_northern_ireland"; "is_bank_holiday_any";
    "is_bank_holiday_division"; "is_closed_day"; "division" ]%string.

Definition mem_string (c : string) (l : list string) : bool :=
  existsb (String.eqb c) l.

(** [_encode_categoricals]: the columns that are not encoded keep their
    place and the indicator columns follow, column by column. Returns the
    encoded table and [feature_cols]. *)
Definition _encode_categoricals (columns : list string) (rows : list ScoreRow)
  : Frame * list string :=
  let cat_cols := [ "region"; "difficulty"; "season"; "day_name" ]%string in
  let existing := List.filter (fun c => mem_string c columns) cat_cols in
  let dummies := flat_map (fun c => map (fun d => (c, d)) (dummy_columns c rows)) existing in
  let columns2 :=
    List.filter (fun c => negb (mem_string c existing)) columns ++ map (fun d => fst (snd d)) dummies in
  let df2 :=
    {| fr_columns := columns2;
       fr_rows :=
         map (fun r =>
                {| er_row := r;
                   er_dummies :=
                     map (fun d => (fst (snd d),
                                    bool_decide (cat_value (fst d) r = Some (snd (snd d)))))
                         dummies |})
             rows |} in
  let feature_cols := List.filter (fun c => negb (String.eqb c "bookings_count")) columns2 in
  (df2, feature_cols).

(** [DataFrame.drop(columns=..., errors="ignore")]. *)
Definition drop_columns (cols : list string) (f : Frame) : Frame :=
  {| fr_columns := List.filter (fun c => negb (mem_string c cols)) (fr_columns f);
     fr_rows := fr_rows f |}.

(** The days of 2026. *)
Definition dates_2026 (dim_date : list DimDate) : list DimDate :=
  filter (fun d => date_leb (mkDate 2026 1 1) (dd_date d) = true
                   /\ date_leb (dd_date d) (mkDate 2026 12 31) = true) dim_date.

(** [div_bh] *)
Definition div_bh (division : string) (d : DimDate) : Z :=
  if String.eqb division "scotland" then Z.b2z (dd_is_bank_holiday_scotland d)
  else if String.eqb division "northern-ireland"
       then Z.b2z (dd_is_bank_holiday_northern_ireland d)
  else Z.b2z (dd_is_bank_holiday_england_wales d).

(** [left.merge(right, on="key", how="outer")] on a constant [key] column:
    every left row paired with every right row; when one side has no row,
    the rows of the other side with the missing side's cells empty. *)
Definition merge_outer {A B : Type} (left : list A) (right : list B)
  : list (option A * option B) :=
  match left, right with
  | [], _ => map (fun b => (None, Some b)) right
  | _, [] => map (fun a => (Some a, None)) left
  | _, _ => map (fun p => (Some (fst p), Some (snd p))) (merge_cross left right)
  end.

(** One row of [base] through [fillna] and the two [apply] calls: the
    division, [div_bh] and the closed-day flag. On a row without calendar
    cells [div_bh] applies [int] to a NaN flag: [ValueError]. *)
Definition score_row (closed_by_div : gmap string (gset date))
    (p : option DimDate * option Route * option RegionDivision) : option ScoreRow :=
  let division :=
    match snd p with
    | Some r => rd_division r
    | None => "england-and-wales"%string
    end in
  match fst (fst p) with
  | None => None
  | Some d =>
      Some {| sr_date := d;
              sr_route := snd (fst p);
              sr_division := division;
              sr_is_bank_holiday_division := div_bh division d;
              sr_is_closed_day :=
                Z.b2z (bool_decide (dd_date d ∈ default ∅ (closed_by_div !! division))) |}
  end.

(** The rows of [base] before encoding. The two [apply] calls raise
    [ValueError] ([None]) when there is no day of 2026: on a row without
    calendar cells [div_bh] applies [int] to a NaN flag, and on a frame
    without rows [apply] returns the frame, which is not stored as one
    column. *)
Definition scoring_base
    (dim_date : list DimDate) (dim_route : list Route)
    (region_div : list RegionDivision) (bh : list BankHoliday) : option (list ScoreRow) :=
  let d26 := dates_2026 dim_date in
  let base := merge_outer d26 dim_route in
  let base :=
    merge_left (fun p => rt_region <$> snd p) (fun r => Some (rd_region r)) base region_div in
  let closed_by_div := _build_closed_dates_by_division bh in
  match base with
  | [] => None
  | _ => mapM (score_row closed_by_div) base
  end.

(** [build_scoring_frame_2026]: the encoded frame and its feature
    columns. *)
Definition build_scoring_frame_2026
    (dim_date : list DimDate) (dim_route : list Route)
    (region_div : list RegionDivision) (bh : list BankHoliday)
  : option (Frame * list string) :=
  match scoring_base dim_date dim_route region_div bh with
  | None => None
  | Some base =>
      let enc := _encode_categoricals keep base in
      let encoded := drop_columns [ "date"; "division" ]%string (fst enc) in
      let feature_cols :=
        List.filter (fun c => negb (String.eqb c "bookings_count")) (fr_columns encoded) in
      Some (encoded, feature_cols)
  end.





(** ** The forecast *)

(** A cell of a float array: a finite value, an infinity or NaN. *)
Inductive Float := Finite (q : Q) | PosInf | NegInf | NaN.

(** [np.clip(x, lo, None)] on one cell: the larger of [x] and [lo]; NaN
    stays NaN. *)
Definition np_clip_lo (x : Float) (lo : Q) : Float :=
  match x with
  | Finite q => Finite (Num.clip_lo q lo)
  | PosInf => PosInf
  | NegInf => Finite lo
  | NaN => NaN
  end.

(** [ndarray.round(ndigits)] on one cell. *)
Definition np_round (x : Float) (ndigits : nat) : Float :=
  match x with
  | Finite q => Finite (Num.round_nd q ndigits)
  | _ => x
  end.

(** [0 <= x] on a float: false of NaN. *)
Definition float_nonneg (x : Float) : Prop :=
  match x with
  | Finite q => (0 <= q)%Q
  | PosInf => True
  | NegInf | NaN => False
  end.

(** One row of [fact_forecast_2026.csv]. *)
Record Forecast := {
  fc_row : EncodedRow;
  predicted_bookings_count : Float;
  prediction_version : string;
  fc_year : Z;
}.

(** [zip] of two columns of one table: the lengths must agree. *)
Fixpoint zip_exact {A B} (l : list A) (m : list B) : option (list (A * B)) :=
  match l, m with
  | [], [] => Some []
  | a :: l', b :: m' => option_map (cons (a, b)) (zip_exact l' m')
  | _, _ => None
  end.

(** [predict], from the scoring frame and the array returned by
    [model.predict(X)]; [None] when the array cannot be stored as a
    column of the frame. *)
Definition predict (df26 : Frame) (raw : list Float) : option (list Forecast) :=
  let preds := map (fun p => np_clip_lo p 0) raw in
  let preds := map (fun p => np_round p 3) preds in
  match zip_exact (fr_rows df26) preds with
  | None => None
  | Some out =>
      let has_closed := mem_string "is_closed_day" (fr_columns df26) in
      Some
        (map (fun rp =>
                let r := fst rp in
                let p :=
                  if has_closed && (sr_is_closed_day (er_row r) =? 1)
                  then Finite 0.0 else snd rp in
                {| fc_row := r;
                   predicted_bookings_count := p;
                   prediction_version := "baseline_xgb_v1";
                   fc_year := 2026 |})
             out)
  end.

(** ** The bank-holiday dimension *)

(** One event of the raw GOV.UK JSON; [ev_date] is the result of
    [pd.to_datetime(..., errors="coerce")], [None] for a missing or
    unreadable date. *)
Record RawEvent := {
  ev_date : option date;
  ev_title : option string;
  ev_notes : option string;
  ev_bunting : option bool;
}.

(** One row of [dim_bank_holiday.csv] as [build_dim_bank_holiday] writes
    it. *)
Record DimBankHoliday := {
  bank_holiday_id : Z;
  dbh_date : date;
  dbh_division : string;
  dbh_title : option string;
  dbh_notes : option string;
  dbh_bunting : option bool;
}.

#[global] Instance DimBankHoliday_eq_dec : EqDecision DimBankHoliday.
Proof. solve_decision. Defined.

(** [astype(str)] on a cell of an object column: a missing cell becomes
    the text [None]. *)
Definition astype_str (s : option string) : string :=
  match s with
  | Some s => s
  | None => "None"%string
  end.

(** The last [width] decimal digits of [n], most significant first. *)
Fixpoint digits (width : nat) (n : Z) : string :=
  match width with
  | O => EmptyString
  | S w => (digits w (n / 10) ++ String (ascii_of_nat (48 + Z.to_nat (n mod 10))) EmptyString)%string
  end.

(** [strftime("%Y-%m-%d")]. *)
Definition strftime_ymd (d : date) : string :=
  (digits 4 (year d) ++ "-" ++ digits 2 (month d) ++ "-" ++ digits 2 (day d))%string.

(** The string that is hashed into the surrogate key. *)
Definition bank_holiday_key (division : string) (d : date) (title : option string) : string :=
  (division ++ "|" ++ strftime_ymd d ++ "|" ++ astype_str title)%string.

Definition option_string_leb (a b : option string) : bool :=
  match a, b with
  | Some x, Some y => String.leb x y
  | _, None => true
  | None, Some _ => false
  end.

(** [DataFrame.drop_duplicates()]: of equal rows the first is kept. *)
Definition drop_duplicates {A : Type} `{EqDecision A} (l : list A) : list A :=
  reverse (remove_dups (reverse l)).

Section Interpreter.

(** The built-in [hash] of the interpreter process that runs the
    pipeline. For [str] it is keyed by a secret drawn when the
    interpreter starts (unless [PYTHONHASHSEED] pins it), so it is an
    input of the run, not a constant of the program. *)
Variable py_hash : string -> Z.

(** [abs(hash(s)) % (10**12)] *)
Definition surrogate_key (s : string) : Z := Z.abs (py_hash s) mod 10 ^ 12.

(** [build_dim_bank_holiday], from the parsed JSON object (division key
    and its [events] list, in document order) to the rows written. The
    object is taken to hold at least one event: without any, the frame
    has no [date] column to convert. *)
Definition build_dim_bank_holiday (data : list (string * list RawEvent))
  : list DimBankHoliday :=
  let rows := flat_map (fun kv => map (fun ev => (fst kv, ev)) (snd kv)) data in
  let rows :=
    omap (fun r => match ev_date (snd r) with
                   | Some d => Some (d, r)
                   | None => None
                   end) rows in
  let rows :=
    sort_by
      (fun a b =>
         let da := fst a in
         let db := fst b in
         let va := fst (snd a) in
         let vb := fst (snd b) in
         negb (date_leb db da)
         || (bool_decide (da = db)
             && (String.ltb va vb
                 || (String.eqb va vb
                     && option_string_leb (ev_title (snd (snd a))) (ev_title (snd (snd b)))))))
      rows in
  let df :=
    map (fun r =>
           let d := fst r in
           let division := fst (snd r) in
           let ev := snd (snd r) in
           {| bank_holiday_id := surrogate_key (bank_holiday_key division d (ev_title ev));
              dbh_date := d;
              dbh_division := division;
              dbh_title := ev_title ev;
              dbh_notes := ev_notes ev;
              dbh_bunting := ev_bunting ev |})
        rows in
  drop_duplicates df.

End Interpreter.

(** ** Sample tables *)

(** [build_dim_region_division]: the rows the pipeline writes to
    [dim_region_division.csv]. *)
Definition build_dim_region_division : list RegionDivision :=
  [ {| rd_region := "lake_district"; rd_division := "england-and-wales" |};
    {| rd_region := "peak_district"; rd_division := "england-and-wales" |};
    {| rd_region := "wales"; rd_division := "england-and-wales" |};
    {| rd_region := "scotland"; rd_division := "scotland" |} ].

(** A small warehouse used to run the definitions: the route of the
    specification's scenario, Christmas 2024 and the two days after it,
    New Year's Day 2026 and the day after it. *)
Module Sample.

Definition scafell : Route :=
  {| rt_route_id := 1; rt_route_name := "Scafell Pike"; rt_region := "lake_district";
     rt_difficulty := "moderate"; rt_distance_km := 12; rt_duration_hours := 6 |}.

Definition nevis : Route :=
  {| rt_route_id := 2; rt_route_name := "Ben Nevis"; rt_region := "scotland";
     rt_difficulty := "hard"; rt_distance_km := 17; rt_duration_hours := 8 |}.

Definition dim_route : list Route := [ scafell; nevis ].

Definition dim_guide : list Guide :=
  [ {| gd_guide_id := 5; gd_name := "Alex" |}; {| gd_guide_id := 9; gd_name := "Sam" |} ].

Definition day (y m d w : Z) (name : string) (season : string) (ew sc ni : bool) : DimDate :=
  {| dd_date := mkDate y m d; dd_date_key := date_key_of (mkDate y m d);
     dd_year := y; dd_quarter := (m - 1) / 3 + 1; dd_month := m; dd_iso_week := w;
     dd_day_name := name;
     dd_is_weekend := String.eqb name "Saturday" || String.eqb name "Sunday";
     dd_season := season;
     dd_is_bank_holiday_any := ew || sc || ni;
     dd_is_bank_holiday_england_wales := ew;
     dd_is_bank_holiday_scotland := sc;
     dd_is_bank_holiday_northern_ireland := ni |}.

Definition dim_date : list DimDate :=
  [ day 2024 12 25 52 "Wednesday" "winter" true true true;
    day 2024 12 27 52 "Friday" "winter" false false false;
    day 2024 12 28 52 "Saturday" "winter" false false false;
    day 2026 1 1 1 "Thursday" "winter" true true true;
    day 2026 1 2 1 "Friday" "winter" false true false ].

Definition dim_bank_holiday : list BankHoliday :=
  [ {| bh_id := 1; bh_date := mkDate 2024 12 25; bh_division := "england-and-wales";
       bh_title := "Christmas Day" |};
    {| bh_id := 2; bh_date := mkDate 2024 12 25; bh_division := "scotland";
       bh_title := "Christmas Day" |};
    {| bh_id := 3; bh_date := mkDate 2026 1 1; bh_division := "england-and-wales";
       bh_title := ("New Year" ++ String "226" (String "128" (String "153" "s Day")))%string |};
    {| bh_id := 4; bh_date := mkDate 2026 1 1; bh_division := "scotland";
       bh_title := "New Year's Day" |};
    {| bh_id := 5; bh_date := mkDate 2026 1 2; bh_division := "scotland";
       bh_title := "2nd January" |} ].

(** One run of the generator: the draws it hands out, in order. *)
Definition tape : list Q :=
  [ 2; 1; 0.5; 0.1; 0.3; 0.5; 0.2; 0; 3; 0.01; 0.9; 0.2; 0.9; 0.7; -1; 1; 0;
    1; 4; 0.9; -2; 0.99; 1.5; 0 ]%Q.

Definition fact_bookings : list Booking :=
  Eval vm_compute in
    default [] (generate_fact_bookings dim_route dim_guide dim_date dim_bank_holiday
                  build_dim_region_division tape).

End Sample.

(** ** More on the stored rows *)

(** The remaining facts about the dict [booking_body] appends for route
    [rt] on day [d] with booking id [id]. *)
Definition row_facts (guide_ids : list Z) (rt : Route) (d : DimDate) (id : Z)
    (b : Booking) : Prop :=
  booking_id b = id
  /\ guide_id b ∈ guide_ids
  /\ 1 <= party_size b <= 6
  /\ date_key b = date_key_of (dd_date d)
  /\ ((60 <= price_per_person_ex_vat b)%Q /\ (price_per_person_ex_vat b <= 190)%Q)
  /\ ((0 <= sales_ex_vat b)%Q /\ (0 <= vat_amount b)%Q /\ (0 <= sales_inc_vat b)%Q)
  /\ ((0 <= margin_amount b)%Q /\ (margin_amount b <= sales_ex_vat b)%Q)
  /\ ((0 <= staff_cost b)%Q /\ (staff_cost b <= sales_ex_vat b)%Q)
  /\ (discount_flag b = 0 -> (discount_pct b == 0)%Q).

(** What every stored row satisfies, beyond [emitted]. *)
Definition stored_row (routes : list Route) (guides : list Guide) (dates : list DimDate)
    (b : Booking) : Prop :=
  exists rt d,
    rt ∈ routes /\ d ∈ _load_inputs_dates dates
    /\ route_id b = rt_route_id rt /\ region b = rt_region rt
    /\ booking_date b = dd_date d
    /\ row_facts (map gd_guide_id guides) rt d (booking_id b) b.

(** ** The warehouse validator *)

(** Why [validate] stops a run ([_fail]). *)
Inductive Failure :=
| EmptyDimRoute | EmptyDimGuide | EmptyDimDate | EmptyFactBookings
| DuplicateBookingId
| InvalidRouteId | InvalidGuideId | InvalidDateKey
| NonPositivePartySize | NegativeSalesExVat | NegativeSalesIncVat
| MarginOutOfRange.

(** What [validate] only reports ([_warn]). *)
Inductive Warning := VatDrift | IncVatDrift.

Definition Qltb (x y : Q) : bool := negb (Qle_bool y x).

(** [Series.max()] of a column. *)
Definition series_max (l : list Q) : option Q :=
  match l with
  | [] => None
  | x :: l' => Some (fold_left Qmax l' x)
  end.

(** [series.max() > bound]. *)
Definition max_exceeds (l : list Q) (bound : Q) : bool :=
  match series_max l with
  | Some m => Qltb bound m
  | None => false
  end.

(** [validate]: the first failing check stops it; otherwise it returns
    the warnings it printed, in order. The fact columns it requires are
    fields of [Booking]. Amounts are compared as the exact decimals the
    cells denote. *)
Definition validate (routes : list Route) (guides : list Guide) (dates : list DimDate)
    (fact : list Booking) : Failure + list Warning :=
  if bool_decide (routes = []) then inl EmptyDimRoute
  else if bool_decide (guides = []) then inl EmptyDimGuide
  else if bool_decide (dates = []) then inl EmptyDimDate
  else if bool_decide (fact = []) then inl EmptyFactBookings
  else if negb (bool_decide (NoDup (map booking_id fact))) then inl DuplicateBookingId
  else
    let route_ids : gset Z := list_to_set (map rt_route_id routes) in
    let guide_ids : gset Z := list_to_set (map gd_guide_id guides) in
    let date_keys : gset Z := list_to_set (map dd_date_key dates) in
    let bad_route := filter (fun b => route_id b ∉ route_ids) fact in
    let bad_guide := filter (fun b => guide_id b ∉ guide_ids) fact in
    let bad_date := filter (fun b => date_key b ∉ date_keys) fact in
    if (0 <? Z.of_nat (length bad_route)) then inl InvalidRouteId
    else if (0 <? Z.of_nat (length bad_guide)) then inl InvalidGuideId
    else if (0 <? Z.of_nat (length bad_date)) then inl InvalidDateKey
    else if existsb (fun b => party_size b <=? 0) fact then inl NonPositivePartySize
    else if existsb (fun b => Qltb (sales_ex_vat b) 0) fact then inl NegativeSalesExVat
    else if existsb (fun b => Qltb (sales_inc_vat b) 0) fact then inl NegativeSalesIncVat
    else if existsb (fun b => Qltb (margin_pct b) 0.30) fact
            || existsb (fun b => Qltb 0.50 (margin_pct b)) fact
         then inl MarginOutOfRange
    else
      let vat_diff :=
        map (fun b => Qabs (vat_amount b - sales_ex_vat b * VAT_RATE)) fact in
      let w1 := if max_exceeds vat_diff 0.03 then [VatDrift] else [] in
      let inc_diff :=
        map (fun b => Qabs (sales_inc_vat b - (sales_ex_vat b + vat_amount b))) fact in
      let w2 := if max_exceeds inc_diff 0.03 then [IncVatDrift] else [] in
      inr (w1 ++ w2).

(** What a run that [validate] lets through is known to satisfy. *)
Definition warehouse_ok (routes : list Route) (guides : list Guide) (dates : list DimDate)
    (fact : list Booking) : Prop :=
  routes <> [] /\ guides <> [] /\ dates <> [] /\ fact <> []
  /\ NoDup (map booking_id fact)
  /\ Forall
       (fun b =>
          route_id b ∈ map rt_route_id routes
          /\ guide_id b ∈ map gd_guide_id guides
          /\ date_key b ∈ map dd_date_key dates
          /\ 0 < party_size b
          /\ (0 <= sales_ex_vat b)%Q /\ (0 <= sales_inc_vat b)%Q
          /\ (0.30 <= margin_pct b)%Q /\ (margin_pct b <= 0.50)%Q)
       fact.

Definition vat_within_tolerance (fact : list Booking) : Prop :=
  Forall
    (fun b =>
       (Qabs (vat_amount b - sales_ex_vat b * VAT_RATE) <= 0.03)%Q
       /\ (Qabs (sales_inc_vat b - (sales_ex_vat b + vat_amount b)) <= 0.03)%Q)
    fact.

(** [str.lower()] on the ASCII letters of a title. *)
Fixpoint str_lower (s : string) : string :=
  match s with
  | EmptyString => EmptyString
  | String c s' => String (lower_byte c) (str_lower s')
  end.

(** ** Route coordinates *)

(** One entry of [REGION_BOUNDS] ([src/config.py]). *)
Record Bounds := { lat_min : Q; lat_max : Q; lon_min : Q; lon_max : Q }.

Definition REGION_BOUNDS : list (string * Bounds) :=
  [ ("lake_district",
     {| lat_min := 54.35; lat_max := 54.70; lon_min := -3.35; lon_max := -2.80 |});
    ("wales",
     {| lat_min := 51.55; lat_max := 53.35; lon_min := -4.40; lon_max := -2.70 |});
    ("scotland",
     {| lat_min := 56.60; lat_max := 58.60; lon_min := -6.30; lon_max := -3.10 |});
    ("peak_district",
     {| lat_min := 53.20; lat_max := 54.15; lon_min := -2.55; lon_max := -1.55 |}) ]%Q%string.

(** [d[k]] on a dict literal; [None] is the [KeyError]. *)
Fixpoint dict_lookup {V : Type} (d : list (string * V)) (k : string) : option V :=
  match d with
  | [] => None
  | (k', v) :: d' => if String.eqb k' k then Some v else dict_lookup d' k
  end.

(** A byte of the form 10xxxxxx continues a UTF-8 character. *)
Definition is_continuation (c : ascii) : bool :=
  let n := nat_of_ascii c in ((128 <=? n) && (n <? 192))%nat.

(** The characters of a UTF-8 string, last character first. *)
Fixpoint chars_reversed (acc : list string) (s : string) : list string :=
  match s with
  | EmptyString => acc
  | String c s' =>
      match acc with
      | ch :: acc' =>
          if is_continuation c
          then chars_reversed ((ch ++ String c EmptyString)%string :: acc') s'
          else chars_reversed (String c EmptyString :: acc) s'
      | [] => chars_reversed [String c EmptyString] s'
      end
  end.

(** [key[::-1]]: the characters of the key in reverse order. *)
Definition str_reverse (s : string) : string :=
  fold_right String.append EmptyString (chars_reversed [] s).

(** [_make_lat_lon]; [None] is the [KeyError] raised for a region without
    a bounding box. *)
Definition _make_lat_lon (region key : string) : option (Q * Q) :=
  match dict_lookup REGION_BOUNDS region with
  | None => None
  | Some bounds =>
      let u := _stable_hash_to_unit key in
      let v := _stable_hash_to_unit (str_reverse key) in
      let lat := (lat_min bounds + u * (lat_max bounds - lat_min bounds))%Q in
      let lon := (lon_min bounds + v * (lon_max bounds - lon_min bounds))%Q in
      Some (Num.round_nd lat 5, Num.round_nd lon 5)
  end.

(** ** The synthetic weather of the v2 feature layer *)

(** [str(n)] of an integer, as it appears in an f-string. *)
Definition str_of_int (n : Z) : string := NilZero.string_of_int (Z.to_int n).

(** The eight weather cells of a row; [None] is a missing cell (NaN). *)
Record Weather := {
  temp_mean : option Q;
  temp_min : option Q;
  temp_max : option Q;
  precip_sum : option Q;
  snowfall_sum : option Q;
  windspeed_mean : option Q;
  windgusts_max : option Q;
  severity_index : option Q;
}.

(** [_seasonal_temp_baseline] *)
Definition _seasonal_temp_baseline (season : string) : Q :=
  dict_get [ ("winter", 2.5); ("spring", 8.0); ("summer", 13.0); ("autumn", 7.5) ]%Q%string
           season 8.0%Q.

(** [fill_row] of [_add_weather_features]: a row that has a [temp_mean]
    is returned as it is; otherwise all eight cells are synthesised from
    the season and the stable hash of the route and date keys. *)
Definition fill_row (season : string) (route_id date_key : Z) (r : Weather) : Weather :=
  match temp_mean r with
  | Some _ => r
  | None =>
      let base_t := _seasonal_temp_baseline season in
      let stem := (str_of_int route_id ++ "-" ++ str_of_int date_key)%string in
      let u := _stable_unit (stem ++ "-u") in
      let v := _stable_unit (stem ++ "-v") in
      let w := _stable_unit (stem ++ "-w") in
      let temp_mean := (base_t + (u - 0.5) * 6.0)%Q in
      let temp_min := (temp_mean - (1.5 + v * 3.0))%Q in
      let temp_max := (temp_mean + (1.0 + w * 3.0))%Q in
      let season_sev :=
        dict_get [ ("winter", 1.25); ("spring", 1.0); ("summer", 0.85); ("autumn", 1.1) ]%Q%string
                 season 1.0%Q in
      let precip_sum := Qmax 0.0 ((v * 8.0 - 2.0) * season_sev) in
      let snowfall_sum :=
        Qmax 0.0 ((u * 4.0 - 2.5) * (if String.eqb season "winter" then 1.4 else 0.3)) in
      let windspeed_mean := (6.0 + (w * 10.0) * season_sev)%Q in
      let windgusts_max := (windspeed_mean + 6.0 + (u * 14.0) * season_sev)%Q in
      let severity :=
        Num.clip (precip_sum * 4.0 + snowfall_sum * 8.0 + windgusts_max * 1.2) 0 120 in
      {| temp_mean := Some (Num.round_nd temp_mean 2);
         temp_min := Some (Num.round_nd temp_min 2);
         temp_max := Some (Num.round_nd temp_max 2);
         precip_sum := Some (Num.round_nd precip_sum 2);
         snowfall_sum := Some (Num.round_nd snowfall_sum 2);
         windspeed_mean := Some (Num.round_nd windspeed_mean 2);
         windgusts_max := Some (Num.round_nd windgusts_max 2);
         severity_index := Some (Num.round_nd severity 2) |}
  end.

(** ** The training frame *)

(** One row of the training frame before the categorical encoding. *)
Record TrainRow := {
  tr_day : RouteDay;
  tr_date : DimDate;
  tr_division : string;
  tr_is_bank_holiday_division : Z;
  tr_is_closed_day : Z;
}.

(** [build_training_frame] up to the call of [_encode_categoricals], from
    the rows of the route-day table: the division is merged in by region,
    then the two flags are computed row by row. A row whose calendar
    columns are missing stops the function: [div_bh] applies [int] to a
    NaN flag, which raises [ValueError] ([None]). The table is taken to
    have at least one row: on a table without rows [DataFrame.apply]
    returns no column. *)
Definition training_rows (route_day : list RouteDay)
    (region_div : list RegionDivision) (bh : list BankHoliday) : option (list TrainRow) :=
  let df := merge_left (fun r => ra_region (rday_agg r)) rd_region route_day region_div in
  let closed_by_div := _build_closed_dates_by_division bh in
  mapM
    (fun p =>
       let r := fst p in
       let division :=
         match snd p with
         | Some rd => rd_division rd
         | None => "england-and-wales"%string
         end in
       match rday_date r with
       | None => None
       | Some d =>
           Some {| tr_day := r;
                   tr_date := d;
                   tr_division := division;
                   tr_is_bank_holiday_division := div_bh division d;
                   tr_is_closed_day :=
                     Z.b2z (bool_decide
                              (dd_date d ∈ default ∅ (closed_by_div !! division))) |}
       end)
    df.

(** * Properties *)

(** ** The key-to-unit hash *)

Section HashFacts.

Lemma mask32_is_mod (x : Z) : Z.land x 0xFFFFFFFF = x mod 2 ^ 32.
Proof. change 0xFFFFFFFF with (Z.ones 32). apply Z.land_ones. lia. Qed.

(** The loop of [_stable_hash_to_unit] computes the FNV-1a state, from
    any starting state. *)
Lemma hash_loop_fnv (bytes : list Z) (h : Z) :
  fold_left
    (fun h ch => let h := Z.lxor h ch in let h := h * 16777619 in
                 let h := Z.land h 0xFFFFFFFF in h) bytes h
  = FNVSpec.fnv1a32_from h bytes.
Proof.
  revert h. induction bytes as [|b bytes IH]; intros h; simpl; [reflexivity|].
  rewrite IH. f_equal. apply mask32_is_mod.
Qed.

(** A quotient of a residue by its modulus lies in the unit interval. *)
Lemma unit_quotient_bounds (h : Z) :
  (0 <= inject_Z (h mod 10000000) / 10000000)%Q
  /\ (inject_Z (h mod 10000000) / 10000000 < 1)%Q.
Proof.
  pose proof (Z.mod_pos_bound h 10000000 ltac:(lia)) as [Hlo Hhi].
  unfold Qdiv, Qmult, Qinv, Qle, Qlt, inject_Z; simpl. lia.
Qed.

Lemma unit_quotient_make (n : Z) :
  (inject_Z n / 10000000 == Qmake n 10000000)%Q.
Proof. unfold Qdiv, Qmult, Qinv, Qeq, inject_Z; simpl. lia. Qed.

End HashFacts.

(** C2: for every key, [_stable_hash_to_unit] returns a value of [0, 1)
    equal to the reference FNV-1a hash of the key's UTF-8 bytes, reduced
    modulo 10,000,000 and divided by 10,000,000; two keys with the same
    bytes get the same value. *)
Theorem C2_stable_hash_to_unit_is_fnv1a (x : string) :
  ((0 <= _stable_hash_to_unit x)%Q /\ (_stable_hash_to_unit x < 1)%Q)
  /\ (_stable_hash_to_unit x == FNVSpec.hash_to_unit (encode_utf8 x))%Q
  /\ (forall y : string,
        encode_utf8 y = encode_utf8 x -> _stable_hash_to_unit y = _stable_hash_to_unit x).
Proof.
  split; [|split].
  - unfold _stable_hash_to_unit. apply unit_quotient_bounds.
  - unfold _stable_hash_to_unit, FNVSpec.hash_to_unit, FNVSpec.fnv1a32.
    rewrite hash_loop_fnv. apply unit_quotient_make.
  - intros y Hy. unfold _stable_hash_to_unit. rewrite Hy. reflexivity.
Qed.

(** C9: the hash of the route builder and the hash of the v2 feature
    layer agree on every string. *)
Theorem C9_stable_unit_agrees (s : string) :
  _stable_hash_to_unit s = _stable_unit s.
Proof.
  unfold _stable_hash_to_unit, _stable_unit.
  generalize 2166136261. generalize (encode_utf8 s) as bytes.
  induction bytes as [|b bytes IH]; intros h; simpl; [reflexivity|].
  apply IH.
Qed.

(** ** Rounding and clipping *)

Section NumFacts.

Lemma round_half_even_close (q : Q) :
  (- (1 # 2) <= inject_Z (Num.round_half_even q) - q <= 1 # 2)%Q.
Proof.
  pose proof (Qfloor_le q) as Hlo. pose proof (Qlt_floor q) as Hhi.
  rewrite inject_Z_plus in Hhi. change (inject_Z 1) with 1%Q in Hhi.
  unfold Num.round_half_even. cbv zeta.
  destruct (Qcompare _ _) eqn:Hc.
  - apply Qeq_alt in Hc.
    destruct (Z.even _); [|rewrite inject_Z_plus; change (inject_Z 1) with 1%Q]; lra.
  - apply Qlt_alt in Hc. lra.
  - apply Qgt_alt in Hc. rewrite inject_Z_plus; change (inject_Z 1) with 1%Q. lra.
Qed.

(** Rounding never leaves an interval whose ends are integers. *)
Lemma round_half_even_between (a b : Z) (q : Q) :
  (inject_Z a <= q)%Q -> (q <= inject_Z b)%Q ->
  a <= Num.round_half_even q <= b.
Proof.
  intros Ha Hb.
  pose proof (Qfloor_resp_le _ _ Ha) as Hfa. rewrite Qfloor_Z in Hfa.
  pose proof (Qfloor_resp_le _ _ Hb) as Hfb. rewrite Qfloor_Z in Hfb.
  pose proof (Qfloor_le q) as Hlo.
  unfold Num.round_half_even. cbv zeta.
  destruct (Z.eq_dec (Qfloor q) b) as [E|E].
  - assert (Hq : (q - inject_Z (Qfloor q) == 0)%Q) by (subst b; lra).
    assert (Hc : (q - inject_Z (Qfloor q) ?= 1 # 2)%Q = Lt)
      by (apply (proj1 (Qlt_alt _ _)); lra).
    rewrite Hc. lia.
  - destruct (Qcompare _ _); [destruct (Z.even _)|..]; lia.
Qed.

Lemma round_nd_2_close (x : Q) :
  (- (1 # 200) <= Num.round_nd x 2 - x <= 1 # 200)%Q.
Proof.
  unfold Num.round_nd. cbv zeta.
  change (inject_Z (10 ^ Z.of_nat 2)) with 100%Q.
  pose proof (round_half_even_close (x * 100)) as H.
  unfold Qdiv. change (/ 100)%Q with (1 # 100)%Q. lra.
Qed.

Lemma round_nd_3_nonneg (x : Q) : (0 <= x)%Q -> (0 <= Num.round_nd x 3)%Q.
Proof.
  intros Hx. unfold Num.round_nd. cbv zeta.
  change (inject_Z (10 ^ Z.of_nat 3)) with 1000%Q.
  assert (Hk : 0 <= Num.round_half_even (x * 1000)).
  { pose proof (Qfloor_resp_le 0 (x * 1000) ltac:(lra)) as Hf.
    change (Qfloor 0) with 0 in Hf.
    unfold Num.round_half_even. cbv zeta.
    destruct (Qcompare _ _); [destruct (Z.even _)|..]; lia. }
  rewrite Zle_Qle in Hk. change (inject_Z 0) with 0%Q in Hk.
  unfold Qdiv. change (/ 1000)%Q with (1 # 1000)%Q. lra.
Qed.

Lemma round_nd_4_margin (x : Q) :
  (0.30 <= x <= 0.50)%Q -> (0.30 <= Num.round_nd x 4 <= 0.50)%Q.
Proof.
  intros [Hlo Hhi]. unfold Num.round_nd. cbv zeta.
  change (inject_Z (10 ^ Z.of_nat 4)) with 10000%Q.
  destruct (round_half_even_between 3000 5000 (x * 10000)) as [Ha Hb].
  - change (inject_Z 3000) with 3000%Q. lra.
  - change (inject_Z 5000) with 5000%Q. lra.
  - rewrite Zle_Qle in Ha, Hb.
    change (inject_Z 3000) with 3000%Q in Ha. change (inject_Z 5000) with 5000%Q in Hb.
    unfold Qdiv. change (/ 10000)%Q with (1 # 10000)%Q. lra.
Qed.

Lemma clip_bounds (x lo hi : Q) : (lo <= hi)%Q -> (lo <= Num.clip x lo hi <= hi)%Q.
Proof.
  intros H. unfold Num.clip. split.
  - apply Q.min_glb; [apply Q.le_max_r | exact H].
  - apply Q.le_min_r.
Qed.

End NumFacts.

(** ** The closed-day resolver *)

Section ClosedDayFacts.

Lemma prefix_nocase_app (k1 k2 s : string) :
  prefix_nocase (k1 ++ k2) s = true -> prefix_nocase k1 s = true.
Proof.
  revert s. induction k1 as [|a k1 IH]; intros s; simpl; [reflexivity|].
  destruct s as [|b s]; [discriminate|].
  rewrite !andb_true_iff. intros [Hab Hk]. split; [exact Hab | apply IH, Hk].
Qed.

Lemma str_contains_nocase_app (k1 k2 s : string) :
  str_contains_nocase (k1 ++ k2) s = true -> str_contains_nocase k1 s = true.
Proof.
  induction s as [|b s IH]; simpl; rewrite !orb_true_iff.
  - intros [H|H]; [left; eapply prefix_nocase_app, H | discriminate].
  - intros [H|H]; [left; eapply prefix_nocase_app, H | right; apply IH, H].
Qed.

Lemma closed_mask_spec (title : string) :
  closed_mask title = true <-> closing_title title.
Proof.
  unfold closed_mask, closing_title, CLOSED_HOLIDAY_KEYWORDS, SPEC_KEYWORDS. simpl.
  rewrite !orb_true_iff. split.
  - intros H.
    repeat match type of H with _ \/ _ => destruct H as [H|H] end;
      try discriminate;
      try (eexists; split; [|exact H]; set_solver).
    + exists "New Year"%string. split; [set_solver|].
      apply (str_contains_nocase_app "New Year" "'s Day"), H.
    + exists "New Year"%string. split; [set_solver|].
      eapply (str_contains_nocase_app "New Year"), H.
  - intros (kw & Hkw & H).
    repeat match type of Hkw with
           | _ ∈ _ :: _ => apply elem_of_cons in Hkw; destruct Hkw as [->|Hkw]
           end; [tauto..|].
    by apply elem_of_nil in Hkw.
Qed.

Lemma foldl_insert_lookup {V} (f : string -> V) (ks : list string) (m0 : gmap string V) (k : string) :
  foldl (fun out k' => <[k' := f k']> out) m0 ks !! k
  = if decide (k ∈ ks) then Some (f k) else m0 !! k.
Proof.
  revert m0. induction ks as [|k' ks IH]; intros m0; cbn [foldl].
  - destruct (decide _) as [Hin|Hnin]; [by apply elem_of_nil in Hin | done].
  - rewrite IH. destruct (decide (k ∈ ks)) as [Hin|Hnin].
    + rewrite decide_True; [done | by right].
    + destruct (decide (k = k')) as [->|Hne].
      * rewrite decide_True; [|by left]. by rewrite lookup_insert_eq.
      * rewrite decide_False; [by rewrite lookup_insert_ne|].
        rewrite elem_of_cons. intros [?|?]; done.
Qed.

Lemma closed_dates_lookup (bh : list BankHoliday) (division : string) (d : date) :
  d ∈ default ∅ (_build_closed_dates_by_division bh !! division)
  <-> closed_day bh division d.
Proof.
  unfold _build_closed_dates_by_division. cbv zeta.
  set (closed := filter _ bh).
  rewrite (foldl_insert_lookup
             (fun division => list_to_set
                (map bh_date (filter (fun r => bh_division r = division) closed)))).
  assert (Hclosed : forall r, r ∈ closed <-> r ∈ bh /\ closing_title (bh_title r)).
  { intros r. unfold closed. rewrite list_elem_of_filter, closed_mask_spec. tauto. }
  destruct (decide _) as [Hin|Hnin]; simpl.
  - rewrite elem_of_list_to_set, list_elem_of_In, in_map_iff. split.
    + intros (r & Hd & Hr). apply list_elem_of_In, list_elem_of_filter in Hr.
      destruct Hr as [Hdiv Hr]. apply Hclosed in Hr. exists r. tauto.
    + intros (r & Hr & Hdiv & Hd & Ht). exists r. split; [done|].
      apply list_elem_of_In, list_elem_of_filter. split; [done|]. apply Hclosed. tauto.
  - rewrite lookup_empty. simpl. split; [set_solver|].
    intros (r & Hr & Hdiv & Hd & Ht). exfalso. apply Hnin.
    apply elem_of_remove_dups, list_elem_of_In, in_map_iff. exists r. split; [done|].
    apply list_elem_of_In, Hclosed. tauto.
Qed.

End ClosedDayFacts.

(** ** The booking simulation *)

Section EngineFacts.

Context {G : Type} `{Generator G}.

Lemma bind_Some {A B} (m : M G A) (k : A -> M G B) (g : G) (r : B * G) :
  bind m k g = Some r <-> exists a g1, m g = Some (a, g1) /\ k a g1 = Some r.
Proof.
  unfold bind. destruct (m g) as [[a g1]|]; split.
  - intros Hk. exists a, g1. auto.
  - intros (a' & g' & [= <- <-] & Hk). exact Hk.
  - discriminate.
  - intros (a' & g' & [=] & _).
Qed.

Lemma foldM_inv {S A} (I : S -> Prop) (body : S -> A -> M G S) (l : list A) :
  (forall s a g s' g', a ∈ l -> I s -> body s a g = Some (s', g') -> I s') ->
  forall s g s' g', I s -> foldM body s l g = Some (s', g') -> I s'.
Proof.
  induction l as [|a l IH]; intros Hbody s g s' g' Hs Hrun; simpl in Hrun.
  - injection Hrun as <- _. exact Hs.
  - apply bind_Some in Hrun as (s1 & g1 & Hstep & Hrest).
    eapply IH; [| |exact Hrest].
    + intros ? ? ? ? ? Hin. apply Hbody. by right.
    + eapply Hbody; [by left | exact Hs | exact Hstep].
Qed.

Lemma repeatM_inv {S} (I : S -> Prop) (body : S -> M G S) (n : nat) :
  (forall s g s' g', I s -> body s g = Some (s', g') -> I s') ->
  forall s g s' g', I s -> repeatM n body s g = Some (s', g') -> I s'.
Proof.
  intros Hbody. induction n as [|n IH]; intros s g s' g' Hs Hrun; simpl in Hrun.
  - injection Hrun as <- _. exact Hs.
  - apply bind_Some in Hrun as (s1 & g1 & Hstep & Hrest).
    eapply IH; [|exact Hrest]. eapply Hbody; eauto.
Qed.

Lemma rng_choice_nonempty {A} (a : list A) (g : G) (r : A * G) :
  rng_choice a g = Some r -> a <> [].
Proof. destruct a; [discriminate | discriminate || (intros _; discriminate)]. Qed.

Lemma _margin_pct_clipped (discount_flag : bool) (party_size : Z) (g : G) (m : Q) (g' : G) :
  _margin_pct discount_flag party_size g = Some (m, g') ->
  exists m0, m = Num.clip m0 0.30 0.50.
Proof.
  unfold _margin_pct. intros Hrun.
  apply bind_Some in Hrun as (m1 & g1 & _ & Hrun).
  apply bind_Some in Hrun as (m2 & g2 & _ & Hrun).
  injection Hrun as <- _. eauto.
Qed.

Lemma booking_body_inv (guide_ids : list Z) (rt : Route) (division : string)
    (d : DimDate) (is_bh : bool) (rows : list Booking) (id : Z) (g : G)
    (st' : list Booking * Z) (g' : G) :
  booking_body guide_ids rt division d is_bh (rows, id) g = Some (st', g') ->
  exists b, st' = (rows ++ [b], id + 1) /\ emitted rt division d b /\ guide_ids <> [].
Proof.
  unfold booking_body. intros Hrun.
  apply bind_Some in Hrun as (party & g1 & _ & Hrun).
  apply bind_Some in Hrun as (disc & g2 & _ & Hrun).
  apply bind_Some in Hrun as (ppp & g3 & _ & Hrun).
  apply bind_Some in Hrun as (margin & g4 & Hmargin & Hrun).
  apply bind_Some in Hrun as (z & g5 & _ & Hrun).
  apply bind_Some in Hrun as (gid & g6 & Hguide & Hrun).
  injection Hrun as <- _.
  eexists. split; [reflexivity|]. split; [|eapply rng_choice_nonempty, Hguide].
  apply _margin_pct_clipped in Hmargin as [m0 ->].
  unfold emitted; simpl. repeat split; eauto.
  destruct (fst disc); simpl; auto.
Qed.

(** Every row of a completed run was drawn for a route of the route
    table on a day of the calendar that is open in the route's division,
    with a guide roster that is not empty. *)
Lemma generated_rows
    (routes : list Route) (guides : list Guide) (dates : list DimDate)
    (bh : list BankHoliday) (region_div : list RegionDivision) (rng : G)
    (rows : list Booking) :
  generate_fact_bookings routes guides dates bh region_div rng = Some rows ->
  Forall
    (fun b =>
       exists rt d,
         rt ∈ routes /\ d ∈ dates
         /\ emitted rt (route_division (region_to_div_of region_div) rt) d b
         /\ (dd_date d ∉ default ∅ (_build_closed_dates_by_division bh
                                      !! route_division (region_to_div_of region_div) rt))
         /\ guides <> [])
    rows.
Proof.
  unfold generate_fact_bookings. cbv zeta.
  set (P := fun b : Booking => exists rt d, _).
  destruct (foldM _ _ _ _) as [[[rows' n] g']|] eqn:Hrun; [|discriminate].
  intros [= <-].
  change (Forall P (fst (rows', n))).
  eapply (foldM_inv (fun st => Forall P (fst st))); [| |exact Hrun]; [|by constructor].
  clear Hrun rows' n g'. intros st rt g st' g' Hrt Hst Hroute.
  unfold route_body in Hroute. cbv zeta in Hroute.
  eapply (foldM_inv (fun st => Forall P (fst st))); [|exact Hst|exact Hroute].
  clear Hroute Hst st st' g g'. intros st d g st' g' Hd Hst Hday.
  apply list_elem_of_filter in Hd as [_ Hd].
  unfold route_day_body in Hday. cbv zeta in Hday.
  destruct (decide _) as [Hclosed|Hopen]; [by injection Hday as <- _|].
  apply bind_Some in Hday as (n & g1 & _ & Hday).
  destruct (n <=? 0); [by injection Hday as <- _|].
  eapply (repeatM_inv (fun st => Forall P (fst st))); [|exact Hst|exact Hday].
  clear Hday Hst st st' g g' g1. intros [rows0 id] g st' g' Hst Hbook.
  apply booking_body_inv in Hbook as (b & -> & Hb & Hguides). simpl in *.
  apply Forall_app. split; [exact Hst|]. constructor; [|constructor].
  exists rt, d. do 4 (split; [done|]).
  intros ->. by apply Hguides.
Qed.

(** Without guides the draw of a booking stops at [rng.choice]. *)
Lemma booking_body_no_guides (rt : Route) (division : string) (d : DimDate)
    (is_bh : bool) (st : list Booking * Z) (g : G) :
  booking_body [] rt division d is_bh st g = None.
Proof.
  destruct st as [rows id]. unfold booking_body.
  unfold _party_size, _discount_flag_and_pct, _price_per_person_ex_vat, _margin_pct,
    rng_choice, raise, bind, lift, ret.
  repeat match goal with
         | |- context [rng_index_p ?p ?g] => destruct (rng_index_p p g)
         | |- context [rng_random ?g] => destruct (rng_random g)
         | |- context [rng_uniform ?a ?b ?g] => destruct (rng_uniform a b g)
         | |- context [rng_normal ?a ?b ?g] => destruct (rng_normal a b g)
         | |- context [negb (match ?c with _ => _ end)] => destruct c; cbn [negb]
         | |- context [if fst (?a, ?b) then _ else _] => cbn [fst]
         | |- context [match (if ?c then _ else _) with _ => _ end] => destruct c
         end; reflexivity.
Qed.

(** With an empty roster, one route-day either is skipped (closed day, or
    a count that is not positive) or stops the run. *)
Lemma route_day_body_no_guides (rt : Route) (division : string)
    (closed_dates : gset date) (st : list Booking * Z) (d : DimDate) (g : G) :
  let is_bh :=
    if String.eqb division "scotland" then dd_is_bank_holiday_scotland d
    else if String.eqb division "northern-ireland" then dd_is_bank_holiday_northern_ireland d
    else dd_is_bank_holiday_england_wales d in
  let mu := _expected_bookings_per_route_day
              (rt_region rt) (dd_season d) (rt_difficulty rt) (dd_is_weekend d) is_bh in
  route_day_body [] rt division closed_dates st d g
  = if decide (dd_date d ∈ closed_dates) then Some (st, g)
    else if fst (rng_poisson mu g) <=? 0 then Some (st, snd (rng_poisson mu g))
    else None.
Proof.
  cbv zeta. unfold route_day_body. cbv zeta.
  destruct (decide _); [reflexivity|].
  unfold bind, lift. destruct (rng_poisson _ g) as [k g1]. cbn [fst snd].
  destruct (k <=? 0) eqn:Hk; [reflexivity|].
  apply Z.leb_gt in Hk. destruct (Z.to_nat k) as [|m] eqn:Hm; [lia|].
  simpl. unfold bind. by rewrite booking_body_no_guides.
Qed.

Lemma foldM_app {S A} (body : S -> A -> M G S) (l1 l2 : list A) (s : S) (g : G) :
  foldM body s (l1 ++ l2) g = bind (foldM body s l1) (fun s' => foldM body s' l2) g.
Proof.
  unfold bind. revert s g. induction l1 as [|a l1 IH]; intros s g; [reflexivity|].
  cbn [app foldM]. unfold bind.
  destruct (body s a g) as [[s1 g1]|]; [apply IH | reflexivity].
Qed.

(** Two nested loops are one loop over the pairs. *)
Lemma foldM_flat_map {S A B} (body : A -> S -> B -> M G S) (inner : list B) (l : list A)
    (s : S) (g : G) :
  foldM (fun s a => foldM (body a) s inner) s l g
  = foldM (fun s p => body (fst p) s (snd p)) s
          (flat_map (fun a => map (fun b => (a, b)) inner) l) g.
Proof.
  revert s g. induction l as [|a l IH]; intros s g; [reflexivity|].
  cbn [flat_map foldM]. rewrite foldM_app. unfold bind.
  assert (Hin : forall s g,
            foldM (body a) s inner g
            = foldM (fun s p => body (fst p) s (snd p)) s (map (fun b => (a, b)) inner) g).
  { clear. induction inner as [|b inner IH]; intros s g; [reflexivity|].
    cbn [map foldM fst snd]. unfold bind.
    destruct (body a s b g) as [[s1 g1]|]; [apply IH | reflexivity]. }
  rewrite Hin. destruct (foldM _ s (map _ inner) g) as [[s1 g1]|]; [apply IH | reflexivity].
Qed.

(** Without guides the walk through the route-days goes to its end
    exactly when no count drawn on the way is positive, and it leaves the
    table as it is. *)
Lemma days_no_guides (division : Route -> string) (closed_dates : Route -> gset date)
    (days : list (Route * DimDate)) (st : list Booking * Z) (g : G) :
  let walk :=
    foldM (fun st p =>
             route_day_body [] (fst p) (division (fst p)) (closed_dates (fst p)) st (snd p))
          st days g in
  (Forall (fun n => n <= 0) (counts_drawn division closed_dates days g) ->
   exists g', walk = Some (st, g'))
  /\ (~ Forall (fun n => n <= 0) (counts_drawn division closed_dates days g) ->
      walk = None).
Proof.
  cbv zeta. revert g. induction days as [|[rt d] days IH]; intros g.
  - split; [by eexists | intros Hn; destruct Hn; constructor].
  - cbn [foldM counts_drawn fst snd]. unfold bind at 1 2.
    pose proof (route_day_body_no_guides rt (division rt) (closed_dates rt) st d g) as Hday.
    cbv zeta in Hday. rewrite Hday. clear Hday.
    fold (route_day_mean rt (division rt) d).
    destruct (decide _) as [Hclosed|Hopen]; [apply IH|].
    destruct (rng_poisson _ g) as [n g1]. cbn [fst snd].
    destruct (n <=? 0) eqn:Hn.
    + apply Z.leb_le in Hn. destruct (IH g1) as [IH1 IH2]. split.
      * intros Hall. apply Forall_cons in Hall as [_ Hall]. by apply IH1.
      * intros Hnot. apply IH2. intros Hall. apply Hnot. by constructor.
    + apply Z.leb_gt in Hn. split; [|reflexivity].
      intros Hall. apply Forall_cons in Hall as [Hle _]. lia.
Qed.

(** A run without guides, in terms of the counts it draws. *)
Lemma run_no_guides
    (routes : list Route) (dates : list DimDate)
    (bh : list BankHoliday) (region_div : list RegionDivision) (rng : G) :
  generate_fact_bookings routes [] dates bh region_div rng
  = if decide (Forall (fun n => n <= 0) (poisson_counts routes dates bh region_div rng))
    then Some [] else None.
Proof.
  unfold generate_fact_bookings, poisson_counts. cbv zeta. cbn [map].
  unfold route_body. cbv zeta.
  rewrite (foldM_flat_map
             (fun rt st d =>
                route_day_body [] rt (route_division (region_to_div_of region_div) rt)
                  (default ∅ (_build_closed_dates_by_division bh
                              !! route_division (region_to_div_of region_div) rt)) st d)).
  destruct (days_no_guides (route_division (region_to_div_of region_div))
              (fun rt => default ∅ (_build_closed_dates_by_division bh
                                    !! route_division (region_to_div_of region_div) rt))
              (flat_map (fun rt => map (fun d => (rt, d)) (_load_inputs_dates dates)) routes)
              ([], 1) rng) as [Hquiet Hloud].
  cbv zeta in Hquiet, Hloud.
  destruct (decide _) as [Hall|Hnot].
  - destruct (Hquiet Hall) as [g' ->]. reflexivity.
  - by rewrite (Hloud Hnot).
Qed.

End EngineFacts.

Section EngineProperties.

Context {G : Type} `{Generator G}.

(** C1: no emitted booking falls on a closed day of its route's division.
    For every run that completes, each row carries the division its
    route's region resolves to (through the region-to-division table,
    england-and-wales when unmapped), and its booking date is not in that
    division's closed-day set. *)
Theorem C1_no_booking_on_closed_day
    (routes : list Route) (guides : list Guide) (dates : list DimDate)
    (bh : list BankHoliday) (region_div : list RegionDivision) (rng : G)
    (rows : list Booking) :
  generate_fact_bookings routes guides dates bh region_div rng = Some rows ->
  Forall
    (fun b =>
       let division :=
         default "england-and-wales"%string (region_to_div_of region_div !! region b) in
       holiday_division b = division
       /\ ~ closed_day bh division (booking_date b))
    rows.
Proof.
  intros Hrun. apply generated_rows in Hrun.
  eapply Forall_impl; [exact Hrun|]. clear Hrun.
  intros b (rt & d & _ & _ & Hb & Hopen & _). cbv zeta.
  destruct Hb as (Hdate & _ & Hregion & Hdiv & _).
  rewrite Hregion, Hdate. fold (route_division (region_to_div_of region_div) rt).
  split; [exact Hdiv|].
  intros Hclosed. apply Hopen. by apply closed_dates_lookup.
Qed.

(** C3: the stored margin percentage of every emitted booking lies
    between 0.30 and 0.50. *)
Theorem C3_margin_pct_bounds
    (routes : list Route) (guides : list Guide) (dates : list DimDate)
    (bh : list BankHoliday) (region_div : list RegionDivision) (rng : G)
    (rows : list Booking) :
  generate_fact_bookings routes guides dates bh region_div rng = Some rows ->
  Forall (fun b => (0.30 <= margin_pct b)%Q /\ (margin_pct b <= 0.50)%Q) rows.
Proof.
  intros Hrun. apply generated_rows in Hrun.
  eapply Forall_impl; [exact Hrun|]. clear Hrun.
  intros b (rt & d & _ & _ & Hb & _).
  destruct Hb as (_ & _ & _ & _ & _ & [m ->] & _).
  apply round_nd_4_margin, clip_bounds. lra.
Qed.

(** C4: the stored VAT fields of every emitted booking agree within 0.03:
    [vat_amount] with 0.20 times [sales_ex_vat], and [sales_inc_vat] with
    the sum of [sales_ex_vat] and [vat_amount]. *)
Theorem C4_vat_identity
    (routes : list Route) (guides : list Guide) (dates : list DimDate)
    (bh : list BankHoliday) (region_div : list RegionDivision) (rng : G)
    (rows : list Booking) :
  generate_fact_bookings routes guides dates bh region_div rng = Some rows ->
  Forall
    (fun b =>
       (Qabs (vat_amount b - sales_ex_vat b * 0.20) <= 0.03)%Q
       /\ (Qabs (sales_inc_vat b - (sales_ex_vat b + vat_amount b)) <= 0.03)%Q)
    rows.
Proof.
  intros Hrun. apply generated_rows in Hrun.
  eapply Forall_impl; [exact Hrun|]. clear Hrun.
  intros b (rt & d & _ & _ & Hb & _).
  destruct Hb as (_ & _ & _ & _ & _ & _ & s & -> & -> & ->).
  pose proof (round_nd_2_close s) as Hs.
  pose proof (round_nd_2_close (s * VAT_RATE)) as Hv.
  pose proof (round_nd_2_close (s + s * VAT_RATE)) as Hi.
  unfold VAT_RATE in *.
  split; apply Qabs_Qle_condition; lra.
Qed.

(** C6, as the code has it: with an empty guide table a run never emits a
    row. It either stops with the error [rng.choice] raises on the empty
    roster or completes with an empty fact table, and it completes
    exactly when none of the Poisson counts the run draws is positive;
    it stops exactly when one is. Route-day by route-day: a closed day
    and a count that is not positive leave the table as it is, a
    positive count on an open day stops the run. *)
Theorem C6_empty_guides
    (routes : list Route) (dates : list DimDate)
    (bh : list BankHoliday) (region_div : list RegionDivision) (rng : G) :
  (generate_fact_bookings routes [] dates bh region_div rng = None
   \/ generate_fact_bookings routes [] dates bh region_div rng = Some [])
  /\ (generate_fact_bookings routes [] dates bh region_div rng = Some []
      <-> Forall (fun n => n <= 0) (poisson_counts routes dates bh region_div rng))
  /\ (generate_fact_bookings routes [] dates bh region_div rng = None
      <-> Exists (fun n => 0 < n) (poisson_counts routes dates bh region_div rng))
  /\ (forall rt division closed_dates st d g,
        let is_bh :=
          if String.eqb division "scotland" then dd_is_bank_holiday_scotland d
          else if String.eqb division "northern-ireland"
               then dd_is_bank_holiday_northern_ireland d
          else dd_is_bank_holiday_england_wales d in
        let mu := _expected_bookings_per_route_day
                    (rt_region rt) (dd_season d) (rt_difficulty rt) (dd_is_weekend d) is_bh in
        route_day_body [] rt division closed_dates st d g
        = if decide (dd_date d ∈ closed_dates) then Some (st, g)
          else if fst (rng_poisson mu g) <=? 0 then Some (st, snd (rng_poisson mu g))
          else None).
Proof.
  rewrite run_no_guides.
  split; [|split; [|split; [|apply route_day_body_no_guides]]].
  - destruct (decide _); [by right | by left].
  - destruct (decide _) as [Hall|Hnot]; split; done.
  - destruct (decide _) as [Hall|Hnot]; split; try done.
    + intros Hex. apply Exists_exists in Hex as (n & Hn & Hpos).
      rewrite Forall_forall in Hall. specialize (Hall n Hn). lia.
    + intros _. apply not_Forall_Exists in Hnot; [|intros n; apply Z.le_dec].
      eapply Exists_impl; [exact Hnot|]. intros n Hn. simpl in Hn. lia.
Qed.

End EngineProperties.

(** The specification's scenario: Scafell Pike on Christmas Day 2024
    contributes no row, whatever the generator would draw. *)
Example scenario_christmas_day {G : Type} `{Generator G} (guides : list Guide) (rng : G) :
  generate_fact_bookings [ Sample.scafell ] guides
    [ Sample.day 2024 12 25 52 "Wednesday" "winter" true true true ]
    Sample.dim_bank_holiday build_dim_region_division rng
  = Some [].
Proof. vm_compute. reflexivity. Qed.

(** Every discount flag a run stores is 0 or 1. *)
Lemma generated_flags {G : Type} `{Generator G}
    (routes : list Route) (guides : list Guide) (dates : list DimDate)
    (bh : list BankHoliday) (region_div : list RegionDivision) (rng : G)
    (rows : list Booking) :
  generate_fact_bookings routes guides dates bh region_div rng = Some rows ->
  Forall (fun b => discount_flag b = 0 \/ discount_flag b = 1) rows.
Proof.
  intros Hrun. apply generated_rows in Hrun.
  eapply Forall_impl; [exact Hrun|].
  intros b (rt & d & _ & _ & Hb & _). apply Hb.
Qed.

(** The engine runs on the sample warehouse and yields rows. *)
Lemma sample_run :
  generate_fact_bookings Sample.dim_route Sample.dim_guide Sample.dim_date
    Sample.dim_bank_holiday build_dim_region_division Sample.tape
  = Some Sample.fact_bookings
  /\ length Sample.fact_bookings = 3%nat.
Proof. split; vm_compute; reflexivity. Qed.

(** C1, on the sample warehouse. *)
Lemma C1_no_booking_on_closed_day_sample :
  Forall
    (fun b =>
       let division :=
         default "england-and-wales"%string
                 (region_to_div_of build_dim_region_division !! region b) in
       holiday_division b = division
       /\ ~ closed_day Sample.dim_bank_holiday division (booking_date b))
    Sample.fact_bookings.
Proof.
  apply (C1_no_booking_on_closed_day Sample.dim_route Sample.dim_guide Sample.dim_date
           Sample.dim_bank_holiday build_dim_region_division Sample.tape).
  vm_compute. reflexivity.
Defined.

(** C3, on the sample warehouse. *)
Lemma C3_margin_pct_bounds_sample :
  Forall (fun b => (0.30 <= margin_pct b)%Q /\ (margin_pct b <= 0.50)%Q)
         Sample.fact_bookings.
Proof.
  apply (C3_margin_pct_bounds Sample.dim_route Sample.dim_guide Sample.dim_date
           Sample.dim_bank_holiday build_dim_region_division Sample.tape).
  vm_compute. reflexivity.
Defined.

(** C4, on the sample warehouse. *)
Lemma C4_vat_identity_sample :
  Forall
    (fun b =>
       (Qabs (vat_amount b - sales_ex_vat b * 0.20) <= 0.03)%Q
       /\ (Qabs (sales_inc_vat b - (sales_ex_vat b + vat_amount b)) <= 0.03)%Q)
    Sample.fact_bookings.
Proof.
  apply (C4_vat_identity Sample.dim_route Sample.dim_guide Sample.dim_date
           Sample.dim_bank_holiday build_dim_region_division Sample.tape).
  vm_compute. reflexivity.
Defined.

(** C6, on the sample warehouse without guides: the run whose four
    Poisson counts are 0 completes with an empty fact table. *)
Lemma C6_empty_guides_quiet_run :
  poisson_counts Sample.dim_route Sample.dim_date Sample.dim_bank_holiday
    build_dim_region_division [ 0; 0; 0; 0 ]%Q
  = [ 0; 0; 0; 0 ]
  /\ generate_fact_bookings Sample.dim_route [] Sample.dim_date
       Sample.dim_bank_holiday build_dim_region_division [ 0; 0; 0; 0 ]%Q
     = Some [].
Proof.
  split; [vm_compute; reflexivity|].
  apply (proj2 (proj1 (proj2 (C6_empty_guides Sample.dim_route Sample.dim_date
                                Sample.dim_bank_holiday build_dim_region_division
                                [ 0; 0; 0; 0 ]%Q)))).
  repeat constructor; discriminate.
Defined.

(** C6 fails as stated: with two routes, five days and no guide, the run
    whose first Poisson count is 2 does not complete. *)
Lemma C6_empty_guides_run_fails :
  (0 < length Sample.dim_route)%nat
  /\ (0 < length Sample.dim_date)%nat
  /\ generate_fact_bookings Sample.dim_route [] Sample.dim_date
       Sample.dim_bank_holiday build_dim_region_division Sample.tape = None.
Proof. repeat split; vm_compute; reflexivity || lia. Qed.

(** ** Merges and sorts *)

Section TableFacts.

Lemma sort_by_elem {A} (leb : A -> A -> bool) (l : list A) (x : A) :
  x ∈ sort_by leb l <-> x ∈ l.
Proof. unfold sort_by. by rewrite merge_sort_Permutation. Qed.

Lemma sort_by_length {A} (leb : A -> A -> bool) (l : list A) :
  length (sort_by leb l) = length l.
Proof. unfold sort_by. by rewrite merge_sort_Permutation. Qed.

Lemma merge_left_elem {A B K} `{EqDecision K} (kl : A -> K) (kr : B -> K)
    (left : list A) (right : list B) (p : A * option B) :
  p ∈ merge_left kl kr left right -> fst p ∈ left.
Proof.
  unfold merge_left. rewrite list_elem_of_In, in_flat_map.
  intros (a & Ha & Hp). apply list_elem_of_In in Ha.
  destruct (filter _ right) as [|b ms].
  - destruct Hp as [<-|[]]. exact Ha.
  - apply in_map_iff in Hp as (b' & <- & _). exact Ha.
Qed.

Lemma merge_left_covers {A B K} `{EqDecision K} (kl : A -> K) (kr : B -> K)
    (left : list A) (right : list B) (a : A) :
  a ∈ left -> exists p, p ∈ merge_left kl kr left right /\ fst p = a.
Proof.
  intros Ha. unfold merge_left.
  destruct (filter (fun b => kr b = kl a) right) as [|b ms] eqn:Hm.
  - exists (a, None). split; [|done].
    apply list_elem_of_In, in_flat_map. exists a. split; [by apply list_elem_of_In|].
    rewrite Hm. by left.
  - exists (a, Some b). split; [|done].
    apply list_elem_of_In, in_flat_map. exists a. split; [by apply list_elem_of_In|].
    rewrite Hm. by left.
Qed.

Lemma filter_key_absent {B K} `{EqDecision K} (kr : B -> K) (right : list B) (k : K) :
  k ∉ map kr right -> filter (fun b => kr b = k) right = [].
Proof.
  induction right as [|b right IH]; [done|]. simpl. intros Hk.
  rewrite filter_cons. destruct (decide _) as [E|E].
  - exfalso. apply Hk. rewrite <- E. by left.
  - apply IH. intros Hin. apply Hk. by right.
Qed.

(** With unique keys on the right, a left merge keeps the number of
    rows. *)
Lemma merge_cross_elem {A B} (left : list A) (right : list B) (a : A) (b : B) :
  (a, b) ∈ merge_cross left right <-> a ∈ left /\ b ∈ right.
Proof.
  unfold merge_cross. rewrite list_elem_of_In, in_flat_map. split.
  - intros (a' & Ha & Hp). apply in_map_iff in Hp as (b' & [= <- <-] & Hb).
    by rewrite !list_elem_of_In.
  - intros [Ha Hb]. exists a. rewrite <- list_elem_of_In. split; [done|].
    apply in_map_iff. exists b. by rewrite <- list_elem_of_In.
Qed.

Lemma merge_left_spec {A B K} `{EqDecision K} (kl : A -> K) (kr : B -> K)
    (left : list A) (right : list B) (a : A) (ob : option B) :
  (a, ob) ∈ merge_left kl kr left right
  <-> a ∈ left
      /\ match ob with
         | Some b => b ∈ right /\ kr b = kl a
         | None => forall b, b ∈ right -> kr b <> kl a
         end.
Proof.
  unfold merge_left. rewrite list_elem_of_In, in_flat_map. split.
  - intros (a' & Ha' & Hp). apply list_elem_of_In in Ha'.
    destruct (filter (fun b => kr b = kl a') right) as [|b0 ms] eqn:Hm.
    + destruct Hp as [[= <- <-]|[]]. split; [exact Ha'|].
      intros b Hb Hk. eapply (filter_nil_not_elem_of _ _ b Hm); done.
    + apply in_map_iff in Hp as (b & [= <- <-] & Hb). split; [exact Ha'|].
      rewrite <- Hm in Hb. apply list_elem_of_In, list_elem_of_filter in Hb. tauto.
  - intros [Ha Hob]. exists a. split; [by apply list_elem_of_In|].
    destruct ob as [b|].
    + destruct Hob as [Hb Hk].
      assert (Hin : b ∈ filter (fun b => kr b = kl a) right)
        by (apply list_elem_of_filter; tauto).
      destruct (filter _ right) as [|b0 ms]; [by apply elem_of_nil in Hin|].
      apply in_map_iff. exists b. split; [reflexivity | by apply list_elem_of_In].
    + destruct (filter (fun b => kr b = kl a) right) as [|b0 ms] eqn:Hm; [by left|].
      exfalso. assert (Hin : b0 ∈ filter (fun b => kr b = kl a) right) by (rewrite Hm; left).
      apply list_elem_of_filter in Hin as [Hk Hb]. by apply (Hob b0).
Qed.

End TableFacts.

(** ** The route-day aggregate *)

Section RouteDayFacts.

Lemma sumZ_flags (l : list Z) :
  Forall (fun f => f = 0 \/ f = 1) l -> 0 <= sumZ l <= Z.of_nat (length l).
Proof.
  induction 1 as [|f l Hf _ IH]; simpl; [lia|].
  destruct Hf as [->| ->]; lia.
Qed.

Lemma series_div_count (s n : Z) :
  1 <= n -> 0 <= s <= n ->
  exists q, series_div (inject_Z s) (inject_Z n) = Some q /\ (0 <= q)%Q /\ (q <= 1)%Q.
Proof.
  intros Hn Hs. unfold series_div.
  assert (Hne : Qeq_bool (inject_Z n) 0 = false).
  { apply not_true_is_false. intros E. apply Qeq_bool_iff in E.
    unfold Qeq, inject_Z in E. simpl in E. lia. }
  rewrite Hne. eexists. split; [reflexivity|].
  unfold Qdiv, Qmult, Qinv, Qle, inject_Z. simpl.
  destruct n as [|p|p]; try lia. simpl. split; nia.
Qed.

Lemma groupby_agg_rows (fact : list Booking) (a : RouteDayAgg) :
  a ∈ groupby_agg fact ->
  exists k g, a = aggregate_group k g /\ g <> [] /\ (forall b, b ∈ g -> b ∈ fact).
Proof.
  unfold groupby_agg. cbv zeta. rewrite list_elem_of_In, in_map_iff.
  intros (k & <- & Hk).
  rewrite <- list_elem_of_In, sort_by_elem, elem_of_remove_dups, list_elem_of_In, in_map_iff in Hk.
  destruct Hk as (b & Hb & Hin). apply list_elem_of_In in Hin.
  eexists _, _. split; [reflexivity|]. split.
  - intros Hnil. eapply (filter_nil_not_elem_of _ _ b Hnil); done.
  - intros b'. rewrite list_elem_of_filter. tauto.
Qed.

Lemma build_route_day_rows (fact : list Booking) (dim_date : list DimDate)
    (dim_route : list Route) (r : RouteDay) :
  r ∈ build_route_day fact dim_date dim_route -> rday_agg r ∈ groupby_agg fact.
Proof.
  unfold build_route_day. cbv zeta. rewrite sort_by_elem, list_elem_of_In, in_map_iff.
  intros (m & <- & Hm). simpl. apply list_elem_of_In, merge_left_elem in Hm.
  by apply merge_left_elem in Hm.
Qed.

End RouteDayFacts.

(** C10: every row of the route-day aggregate counts at least one
    booking, so the division that yields [discount_rate] has a non-zero
    denominator; on a fact table whose discount flags are 0 or 1 the rate
    lies between 0 and 1. *)
Theorem C10_route_day_counts
    (fact : list Booking) (dim_date : list DimDate) (dim_route : list Route) :
  Forall (fun r => 1 <= bookings_count (rday_agg r)
                   /\ is_Some (discount_rate (rday_agg r)))
         (build_route_day fact dim_date dim_route)
  /\ (Forall (fun b => discount_flag b = 0 \/ discount_flag b = 1) fact ->
      Forall (fun r => exists q, discount_rate (rday_agg r) = Some q
                                 /\ (0 <= q)%Q /\ (q <= 1)%Q)
             (build_route_day fact dim_date dim_route)).
Proof.
  assert (Hcount : forall k g, g <> [] -> 1 <= bookings_count (aggregate_group k g)).
  { intros k g Hg. simpl. rewrite length_map. destruct g; [done|]. simpl. lia. }
  split.
  - apply Forall_forall. intros r Hr.
    apply build_route_day_rows, groupby_agg_rows in Hr as (k & g & -> & Hg & _).
    split; [by apply Hcount|].
    specialize (Hcount k g Hg). simpl in *. unfold series_div.
    destruct (Qeq_bool _ _) eqn:E; [|by eexists].
    apply Qeq_bool_iff in E. unfold Qeq, inject_Z in E. simpl in E. lia.
  - intros Hflags. apply Forall_forall. intros r Hr.
    apply build_route_day_rows, groupby_agg_rows in Hr as (k & g & -> & Hg & Hsub).
    specialize (Hcount k g Hg). simpl in *.
    apply series_div_count; [exact Hcount|].
    rewrite length_map. rewrite <- (length_map discount_flag). apply sumZ_flags.
    apply Forall_forall. intros f Hf. apply list_elem_of_In, in_map_iff in Hf as (b & <- & Hb).
    rewrite Forall_forall in Hflags. apply Hflags, Hsub. by apply list_elem_of_In.
Qed.

(** C10 fails as stated: a fact table may hold any integer in
    [discount_flag]; with one booking whose flag is 2 the route-day row
    counts one booking and its [discount_rate] is 2. *)
Lemma C10_rate_above_one :
  map (fun r => (bookings_count (rday_agg r), discount_bookings (rday_agg r),
                 discount_rate (rday_agg r)))
      (build_route_day
         [ {| booking_id := 1; booking_date := mkDate 2024 12 27; date_key := 20241227;
              route_id := 1; region := "lake_district"; guide_id := 5; party_size := 2;
              difficulty := "moderate"; duration_hours := 6; discount_flag := 2;
              discount_pct := 0.1; price_per_person_ex_vat := 100; sales_ex_vat := 180;
              vat_amount := 36; sales_inc_vat := 216; staff_cost := 60;
              margin_amount := 72; margin_pct := 0.4; season := "winter";
              is_weekend := 0; is_bank_holiday := 0;
              holiday_division := "england-and-wales" |} ]
         Sample.dim_date Sample.dim_route)
  = [ (1, 2, Some 2%Q) ]
  /\ Qle_bool 2 1 = false.
Proof. split; vm_compute; reflexivity. Qed.

(** ** The 2026 scoring frame *)

Section ScoringFacts.






Lemma Forall2_elem_r {A B} (R : A -> B -> Prop) (l : list A) (k : list B) (y : B) :
  Forall2 R l k -> y ∈ k -> exists x, x ∈ l /\ R x y.
Proof.
  induction 1 as [|x y' l k Hxy _ IH]; intros Hy; [by apply elem_of_nil in Hy|].
  apply elem_of_cons in Hy as [->|Hy].
  - exists x. split; [left | done].
  - destruct (IH Hy) as (x' & Hx' & HR). exists x'. split; [by right | done].
Qed.

Lemma Forall2_elem_l {A B} (R : A -> B -> Prop) (l : list A) (k : list B) (x : A) :
  Forall2 R l k -> x ∈ l -> exists y, y ∈ k /\ R x y.
Proof.
  induction 1 as [|x' y l k Hxy _ IH]; intros Hx; [by apply elem_of_nil in Hx|].
  apply elem_of_cons in Hx as [->|Hx].
  - exists y. split; [left | done].
  - destruct (IH Hx) as (y' & Hy' & HR). exists y'. split; [by right | done].
Qed.

(** The rows of the outer merge that have calendar cells. *)
Lemma merge_outer_dated {A B} (left : list A) (right : list B) (a : A) (ob : option B) :
  (Some a, ob) ∈ merge_outer left right
  <-> a ∈ left /\ match ob with
                  | Some b => b ∈ right
                  | None => right = []
                  end.
Proof.
  unfold merge_outer. destruct left as [|a0 left].
  - rewrite list_elem_of_In, in_map_iff. split.
    + intros (b & [=] & _).
    + intros [Ha _]. by apply elem_of_nil in Ha.
  - destruct right as [|b0 right].
    + rewrite list_elem_of_In, in_map_iff. split.
      * intros (a' & [= <- <-] & Ha). split; [by apply list_elem_of_In | reflexivity].
      * intros [Ha Hob]. destruct ob as [b|]; [by apply elem_of_nil in Hob|].
        exists a. split; [reflexivity | by apply list_elem_of_In].
    + rewrite list_elem_of_In, in_map_iff. split.
      * intros ([a' b'] & [= <- <-] & Hp). cbn [fst snd].
        apply list_elem_of_In, merge_cross_elem in Hp. exact Hp.
      * intros [Ha Hob]. destruct ob as [b|]; [|discriminate].
        exists (a, b). split; [reflexivity|].
        apply list_elem_of_In, merge_cross_elem. done.
Qed.



Lemma score_row_Some (closed_by_div : gmap string (gset date))
    (p : option DimDate * option Route * option RegionDivision) (r : ScoreRow) :
  score_row closed_by_div p = Some r ->
  fst (fst p) = Some (sr_date r)
  /\ sr_route r = snd (fst p)
  /\ sr_division r = match snd p with
                     | Some rd => rd_division rd
                     | None => "england-and-wales"%string
                     end
  /\ sr_is_bank_holiday_division r = div_bh (sr_division r) (sr_date r)
  /\ sr_is_closed_day r
     = Z.b2z (bool_decide (dd_date (sr_date r) ∈ default ∅ (closed_by_div !! sr_division r))).
Proof.
  unfold score_row. cbv zeta. destruct (fst (fst p)) as [d|]; [|discriminate].
  intros [= <-]. cbn. done.
Qed.


Lemma scoring_base_Some (dim_date : list DimDate) (dim_route : list Route)
    (region_div : list RegionDivision) (bh : list BankHoliday) (base : list ScoreRow) :
  scoring_base dim_date dim_route region_div bh = Some base ->
  Forall2 (fun p r => score_row (_build_closed_dates_by_division bh) p = Some r)
    (merge_left (fun p => rt_region <$> snd p) (fun r => Some (rd_region r))
       (merge_outer (dates_2026 dim_date) dim_route) region_div)
    base.
Proof.
  unfold scoring_base. cbv zeta. destruct (merge_left _ _ _ _) as [|p0 merged] eqn:Hm.
  - discriminate.
  - intros Hbase. by apply mapM_Some.
Qed.

(** What a row of [base] holds. *)
Lemma scoring_base_rows (dim_date : list DimDate) (dim_route : list Route)
    (region_div : list RegionDivision) (bh : list BankHoliday)
    (base : list ScoreRow) (r : ScoreRow) :
  scoring_base dim_date dim_route region_div bh = Some base ->
  r ∈ base ->
  sr_date r ∈ dates_2026 dim_date
  /\ match sr_route r with
     | Some rt =>
         rt ∈ dim_route
         /\ ((exists rd, rd ∈ region_div /\ rd_region rd = rt_region rt
                         /\ sr_division r = rd_division rd)
             \/ ((forall rd, rd ∈ region_div -> rd_region rd <> rt_region rt)
                 /\ sr_division r = "england-and-wales"%string))
     | None => dim_route = [] /\ sr_division r = "england-and-wales"%string
     end
  /\ sr_is_bank_holiday_division r = div_bh (sr_division r) (sr_date r)
  /\ sr_is_closed_day r
     = Z.b2z (bool_decide (dd_date (sr_date r)
                           ∈ default ∅ (_build_closed_dates_by_division bh !! sr_division r))).
Proof.
  intros Hbase Hr. apply scoring_base_Some in Hbase.
  destruct (Forall2_elem_r _ _ _ _ Hbase Hr) as ([[od ort] ord] & Hp & Hrow).
  apply score_row_Some in Hrow as (Hd & Hrt & Hdiv & Hbh & Hclosed). cbn [fst snd] in *.
  subst od. apply merge_left_spec in Hp as [Hpair Hord]. cbn [fst snd] in *.
  apply merge_outer_dated in Hpair as [Hd Hroute].
  split; [exact Hd|]. split; [|split; [exact Hbh | exact Hclosed]].
  rewrite Hrt. destruct ort as [rt|].
  - split; [exact Hroute|]. destruct ord as [rd|].
    + left. exists rd. destruct Hord as [Hrd [= E]]. done.
    + right. split; [|exact Hdiv]. intros rd Hrd E. apply (Hord rd Hrd). cbn. by rewrite E.
  - split; [exact Hroute|]. destruct ord as [rd|]; [|exact Hdiv].
    by destruct Hord as [_ [=]].
Qed.



Lemma encoded_rows (columns : list string) (rows : list ScoreRow) :
  map er_row (fr_rows (fst (_encode_categoricals columns rows))) = rows.
Proof.
  unfold _encode_categoricals. cbv zeta. simpl.
  rewrite map_map. simpl. apply map_id.
Qed.



(** The frame that is returned, in terms of the rows of [base]. *)
Lemma build_scoring_frame_Some (dim_date : list DimDate) (dim_route : list Route)
    (region_div : list RegionDivision) (bh : list BankHoliday)
    (frame : Frame) (feature_cols : list string) :
  build_scoring_frame_2026 dim_date dim_route region_div bh = Some (frame, feature_cols)
  <-> exists base,
        scoring_base dim_date dim_route region_div bh = Some base
        /\ frame = drop_columns [ "date"; "division" ]%string
                     (fst (_encode_categoricals keep base))
        /\ feature_cols
           = List.filter (fun c => negb (String.eqb c "bookings_count")) (fr_columns frame).
Proof.
  unfold build_scoring_frame_2026. cbv zeta.
  destruct (scoring_base _ _ _ _) as [base|]; split.
  - intros [= <- <-]. by exists base.
  - intros (base' & [= <-] & -> & ->). reflexivity.
  - discriminate.
  - intros (base' & [=] & _).
Qed.

Lemma frame_rows (dim_date : list DimDate) (dim_route : list Route)
    (region_div : list RegionDivision) (bh : list BankHoliday)
    (frame : Frame) (feature_cols : list string) :
  build_scoring_frame_2026 dim_date dim_route region_div bh = Some (frame, feature_cols) ->
  scoring_base dim_date dim_route region_div bh = Some (map er_row (fr_rows frame)).
Proof.
  intros Hframe. apply build_scoring_frame_Some in Hframe as (base & Hbase & -> & _).
  cbn [drop_columns fr_rows]. by rewrite encoded_rows.
Qed.

End ScoringFacts.


(** ** The forecast *)

Section ForecastFacts.

Lemma zip_exact_Some {A B} (l : list A) (m : list B) (out : list (A * B)) :
  zip_exact l m = Some out -> map fst out = l /\ map snd out = m.
Proof.
  revert m out. induction l as [|a l IH]; intros [|b m] out; simpl; try discriminate.
  - intros [= <-]. done.
  - destruct (zip_exact l m) as [out'|] eqn:Hz; simpl; [|discriminate].
    intros [= <-]. destruct (IH _ _ Hz) as [Hl Hm]. simpl. by rewrite Hl, Hm.
Qed.

Lemma zip_exact_total {A B} (l : list A) (m : list B) :
  length m = length l -> is_Some (zip_exact l m).
Proof.
  revert m. induction l as [|a l IH]; intros [|b m]; simpl; try discriminate.
  - by eexists.
  - intros [= Hlen]. destruct (IH _ Hlen) as [out ->]. by eexists.
Qed.

Lemma scoring_frame_has_closed_day (dim_date : list DimDate) (dim_route : list Route)
    (region_div : list RegionDivision) (bh : list BankHoliday)
    (frame : Frame) (feature_cols : list string) :
  build_scoring_frame_2026 dim_date dim_route region_div bh = Some (frame, feature_cols) ->
  mem_string "is_closed_day" (fr_columns frame) = true.
Proof.
  intros Hframe. apply build_scoring_frame_Some in Hframe as (base & _ & -> & _).
  unfold drop_columns, _encode_categoricals. cbv zeta.
  cbn [fst fr_columns]. unfold mem_string at 1.
  apply existsb_exists. exists "is_closed_day"%string. split; [|reflexivity].
  apply filter_In. split; [|reflexivity].
  apply in_or_app. left. apply filter_In. split; [|reflexivity].
  cbn. tauto.
Qed.

(** A stored prediction is a clipped and rounded output, or the 0.0 of a
    closed day. *)
Lemma clipped_nonneg (x : Float) : x <> NaN -> float_nonneg (np_round (np_clip_lo x 0) 3).
Proof.
  destruct x as [q| | |]; intros Hx; cbn; [| done | | done].
  - apply round_nd_3_nonneg. unfold Num.clip_lo. apply Q.le_max_r.
  - apply round_nd_3_nonneg. apply Qle_refl.
Qed.

(** The forecast, row by row, next to the raw output of the row. *)
Lemma predict_rows (df26 : Frame) (raw : list Float) (out : list Forecast) :
  predict df26 raw = Some out ->
  map fc_row out = fr_rows df26
  /\ Forall2
       (fun f x =>
          predicted_bookings_count f
          = if mem_string "is_closed_day" (fr_columns df26)
               && (sr_is_closed_day (er_row (fc_row f)) =? 1)
            then Finite 0.0 else np_round (np_clip_lo x 0) 3)
       out raw.
Proof.
  unfold predict. cbv zeta.
  destruct (zip_exact _ _) as [zipped|] eqn:Hz; [|discriminate].
  intros [= <-]. apply zip_exact_Some in Hz as [Hrows Hpreds]. split.
  - rewrite map_map. simpl. exact Hrows.
  - rewrite map_map in Hpreds. clear Hrows. revert raw Hpreds.
    induction zipped as [|[r p] zipped IH]; intros [|x raw]; simpl; try discriminate.
    + constructor.
    + intros [= -> Hrest]. constructor; [reflexivity | by apply IH].
Qed.

End ForecastFacts.

(** C8, as the code has it: whatever the model returns for the rows of a
    scoring frame, the forecast is written, row for row; it is exactly
    0.0 on the rows flagged [is_closed_day = 1]; on every row whose raw
    output is not NaN it is not negative; and a NaN output on a row that
    is not flagged is stored as NaN. So the forecast has no negative
    value, and it is non-negative throughout when no output is NaN. *)
Theorem C8_predictions_clamped (df26 : Frame) (raw : list Float) :
  mem_string "is_closed_day" (fr_columns df26) = true ->
  (length raw = length (fr_rows df26) -> is_Some (predict df26 raw))
  /\ (forall out,
        predict df26 raw = Some out ->
        map fc_row out = fr_rows df26
        /\ Forall2
             (fun f x =>
                (sr_is_closed_day (er_row (fc_row f)) = 1 ->
                 predicted_bookings_count f = Finite 0.0)
                /\ (x <> NaN -> float_nonneg (predicted_bookings_count f))
                /\ (x = NaN -> sr_is_closed_day (er_row (fc_row f)) <> 1 ->
                    predicted_bookings_count f = NaN)
                /\ (predicted_bookings_count f = NaN
                    \/ float_nonneg (predicted_bookings_count f)))
             out raw
        /\ (Forall (fun x => x <> NaN) raw ->
            Forall (fun f => float_nonneg (predicted_bookings_count f)) out)).
Proof.
  intros Hcol. split.
  - intros Hlen. unfold predict. cbv zeta.
    destruct (zip_exact_total (fr_rows df26)
                (map (fun p => np_round p 3) (map (fun p => np_clip_lo p 0) raw)))
      as [out ->]; [by rewrite !length_map | by eexists].
  - intros out Hout. apply predict_rows in Hout as [Hrows Hpreds].
    rewrite Hcol in Hpreds. cbn [andb] in Hpreds.
    assert (Hzero : float_nonneg (Finite 0.0)) by (by vm_compute).
    split; [exact Hrows|]. split.
    + eapply Forall2_impl; [exact Hpreds|]. intros f x Hf. cbv beta in Hf.
      destruct (sr_is_closed_day (er_row (fc_row f)) =? 1) eqn:Hclosed.
      * apply Z.eqb_eq in Hclosed. rewrite Hf.
        split; [done|]. split; [done|]. split; [done | by right].
      * apply Z.eqb_neq in Hclosed. rewrite Hf.
        split; [done|]. split; [apply clipped_nonneg|]. split; [by intros ->|].
        destruct x as [q| | |]; [right; by apply clipped_nonneg..| by left].
    + intros Hraw. clear Hrows. induction Hpreds as [|f x out raw Hf _ IH]; [constructor|].
      apply Forall_cons in Hraw as [Hx Hraw]. constructor; [|by apply IH].
      rewrite Hf. destruct (_ =? 1); [exact Hzero | by apply clipped_nonneg].
Qed.



(** C8, on the sample warehouse: the scoring frame has the
    [is_closed_day] column, and the forecast for four raw outputs. *)
Lemma C8_predictions_clamped_sample :
  exists frame feature_cols,
    build_scoring_frame_2026 Sample.dim_date Sample.dim_route build_dim_region_division
      Sample.dim_bank_holiday = Some (frame, feature_cols)
    /\ is_Some (predict frame [ Finite 2.5; Finite (-1); NegInf; PosInf ])
    /\ forall out,
         predict frame [ Finite 2.5; Finite (-1); NegInf; PosInf ] = Some out ->
         Forall (fun f => float_nonneg (predicted_bookings_count f)) out.
Proof.
  eexists _, _. split; [vm_compute; reflexivity|].
  match goal with
  | |- is_Some (predict ?frame ?raw) /\ _ =>
      destruct (C8_predictions_clamped frame raw) as [Htotal Hout]
  end.
  - vm_compute. reflexivity.
  - split; [apply Htotal; reflexivity|].
    intros out Hrun. apply (Hout out Hrun). repeat constructor; discriminate.
Defined.

(** C8 fails as stated: a NaN among the raw outputs, on a row that is not
    a closed day, is stored as it is, and NaN is not a non-negative
    number. *)
Lemma C8_nan_output_stored :
  (result ← build_scoring_frame_2026 Sample.dim_date Sample.dim_route
              build_dim_region_division Sample.dim_bank_holiday;
   out ← predict (fst result) [ Finite 2.5; NaN; NaN; Finite 1.23456 ];
   Some (map (fun f => (sr_is_closed_day (er_row (fc_row f)), predicted_bookings_count f))
             out))
  = Some [ (1, Finite 0.0); (1, Finite 0.0); (0, NaN); (0, Finite 1.235) ]
  /\ (float_nonneg NaN <-> False).
Proof. split; [vm_compute; reflexivity | done]. Qed.

Example scoring_frame_sample :
  option_map
    (fun result =>
       (map (fun r => (dd_date_key (sr_date (er_row r)),
                       rt_route_id <$> sr_route (er_row r),
                       sr_division (er_row r), sr_is_closed_day (er_row r)))
            (fr_rows (fst result)),
        snd result))
    (build_scoring_frame_2026 Sample.dim_date Sample.dim_route build_dim_region_division
       Sample.dim_bank_holiday)
  = Some
      ([ (20260101, Some 1, "england-and-wales"%string, 1);
         (20260101, Some 2, "scotland"%string, 1);
         (20260102, Some 1, "england-and-wales"%string, 0);
         (20260102, Some 2, "scotland"%string, 0) ],
       [ "date_key"; "year"; "quarter"; "month"; "iso_week"; "is_weekend"; "route_id";
         "distance_km"; "duration_hours"; "is_bank_holiday_england_wales";
         "is_bank_holiday_scotland"; "is_bank_holiday_northern_ireland";
         "is_bank_holiday_any"; "is_bank_holiday_division"; "is_closed_day";
         "region_lake_district"; "region_scotland"; "difficulty_hard";
         "difficulty_moderate"; "season_winter"; "day_name_Friday";
         "day_name_Thursday" ]%string).
Proof. vm_compute. reflexivity. Qed.

(** Without a route the frame has one row per day of 2026, with empty
    route cells; without a day of 2026 and with routes no frame is
    built. *)
Example scoring_frame_one_side_empty :
  option_map
    (fun result =>
       map (fun r => (dd_date_key (sr_date (er_row r)), rt_route_id <$> sr_route (er_row r)))
           (fr_rows (fst result)))
    (build_scoring_frame_2026 Sample.dim_date [] build_dim_region_division
       Sample.dim_bank_holiday)
  = Some [ (20260101, None); (20260102, None) ]
  /\ build_scoring_frame_2026 [] Sample.dim_route build_dim_region_division
       Sample.dim_bank_holiday = None.
Proof. split; vm_compute; reflexivity. Qed.

Example predict_sample :
  (result ← build_scoring_frame_2026 Sample.dim_date Sample.dim_route
              build_dim_region_division Sample.dim_bank_holiday;
   out ← predict (fst result) [ Finite 2.5; Finite (-1); Finite (-0.25); Finite 1.23456 ];
   Some (map predicted_bookings_count out))
  = Some [ Finite 0.0; Finite 0.0; Finite 0.000; Finite 1.235 ].
Proof. vm_compute. reflexivity. Qed.

Example route_day_sample :
  map (fun r => (ra_date_key (rday_agg r), ra_route_id (rday_agg r),
                 bookings_count (rday_agg r), discount_rate (rday_agg r)))
      (build_route_day Sample.fact_bookings Sample.dim_date Sample.dim_route)
  = [ (20241227, 1, 2, Some (0 # 2)); (20241228, 2, 1, Some (0 # 1)) ].
Proof. vm_compute. reflexivity. Qed.

(** ** The bank-holiday dimension *)

Section BankHolidayFacts.

Lemma drop_duplicates_elem {A} `{EqDecision A} (l : list A) (x : A) :
  x ∈ drop_duplicates l <-> x ∈ l.
Proof. unfold drop_duplicates. by rewrite elem_of_reverse, elem_of_remove_dups, elem_of_reverse. Qed.

End BankHolidayFacts.

(** The table built from a single dated event. *)
Lemma build_dim_bank_holiday_single (h : string -> Z) (division : string) (d : date)
    (ev : RawEvent) :
  ev_date ev = Some d ->
  build_dim_bank_holiday h [ (division, [ ev ]) ]
  = [ {| bank_holiday_id := surrogate_key h (bank_holiday_key division d (ev_title ev));
         dbh_date := d;
         dbh_division := division;
         dbh_title := ev_title ev;
         dbh_notes := ev_notes ev;
         dbh_bunting := ev_bunting ev |} ].
Proof.
  intros Hd. unfold build_dim_bank_holiday. cbv zeta.
  cbn [flat_map map fst snd app omap list_omap]. rewrite Hd.
  reflexivity.
Qed.

(** Two interpreters whose string hashes disagree on an event's key give
    that event different identifiers. *)
Lemma bank_holiday_id_follows_hash (h1 h2 : string -> Z) (division : string) (d : date)
    (ev : RawEvent) :
  ev_date ev = Some d ->
  surrogate_key h1 (bank_holiday_key division d (ev_title ev))
  <> surrogate_key h2 (bank_holiday_key division d (ev_title ev)) ->
  build_dim_bank_holiday h1 [ (division, [ ev ]) ]
  <> build_dim_bank_holiday h2 [ (division, [ ev ]) ].
Proof.
  intros Hd Hne Heq. apply Hne.
  rewrite !(build_dim_bank_holiday_single _ _ _ _ Hd) in Heq.
  by injection Heq.
Qed.

(** C5, what the code computes: the [bank_holiday_id] of every row is the
    interpreter's [hash] of the row's "division|date|title" string, reduced
    to twelve digits. It is a function of (division, date, title) only
    within one interpreter process: it changes with [py_hash], the
    per-process string hash. *)
Theorem C5_bank_holiday_id_is_interpreter_hash (py_hash : string -> Z) :
  (forall data,
      Forall
        (fun r =>
           bank_holiday_id r
           = Z.abs (py_hash (bank_holiday_key (dbh_division r) (dbh_date r) (dbh_title r)))
             mod 10 ^ 12)
        (build_dim_bank_holiday py_hash data))
  /\ build_dim_bank_holiday py_hash
       [ ("england-and-wales"%string,
          [ {| ev_date := Some (mkDate 2024 12 25); ev_title := Some "Christmas Day"%string;
               ev_notes := Some ""%string; ev_bunting := Some true |} ]) ]
     = [ {| bank_holiday_id :=
              Z.abs (py_hash "england-and-wales|2024-12-25|Christmas Day") mod 10 ^ 12;
            dbh_date := mkDate 2024 12 25;
            dbh_division := "england-and-wales";
            dbh_title := Some "Christmas Day"%string;
            dbh_notes := Some ""%string;
            dbh_bunting := Some true |} ].
Proof.
  split.
  - intros data. apply Forall_forall. intros r Hr.
    unfold build_dim_bank_holiday in Hr. cbv zeta in Hr.
    apply drop_duplicates_elem, list_elem_of_In, in_map_iff in Hr as (x & <- & _).
    reflexivity.
  - reflexivity.
Qed.

(** * Further properties *)

(** ** Rounding is monotone *)

Section RoundingOrder.

Lemma round_half_even_comp (x y : Q) :
  (x == y)%Q -> Num.round_half_even x = Num.round_half_even y.
Proof.
  intros E. unfold Num.round_half_even. cbv zeta.
  rewrite (Qfloor_comp _ _ E).
  assert (Hc : ((x - inject_Z (Qfloor y) ?= 1 # 2) = (y - inject_Z (Qfloor y) ?= 1 # 2))%Q).
  { apply Qcompare_comp; [rewrite E|]; reflexivity. }
  rewrite Hc. reflexivity.
Qed.

Lemma round_half_even_mono (x y : Q) :
  (x <= y)%Q -> Num.round_half_even x <= Num.round_half_even y.
Proof.
  intros Hxy.
  pose proof (Qfloor_resp_le _ _ Hxy) as Hf.
  pose proof (Qfloor_le x) as Hx. pose proof (Qfloor_le y) as Hy.
  destruct (Z.eq_dec (Qfloor x) (Qfloor y)) as [E|E].
  - unfold Num.round_half_even. cbv zeta. rewrite E.
    destruct (Qcompare (x - _) _) eqn:Cx; destruct (Qcompare (y - _) _) eqn:Cy;
      try (destruct (Z.even _)); try lia; exfalso;
      repeat match goal with
             | H : (_ ?= _)%Q = Eq |- _ => apply Qeq_alt in H
             | H : (_ ?= _)%Q = Lt |- _ => apply Qlt_alt in H
             | H : (_ ?= _)%Q = Gt |- _ => apply Qgt_alt in H
             end; lra.
  - assert (Hlt : Qfloor x + 1 <= Qfloor y) by lia.
    assert (Hrx : Num.round_half_even x <= Qfloor x + 1).
    { unfold Num.round_half_even. cbv zeta.
      destruct (Qcompare _ _); [destruct (Z.even _)|..]; lia. }
    assert (Hry : Qfloor y <= Num.round_half_even y).
    { unfold Num.round_half_even. cbv zeta.
      destruct (Qcompare _ _); [destruct (Z.even _)|..]; lia. }
    lia.
Qed.

Lemma scale_pos (nd : nat) : (0 < inject_Z (10 ^ Z.of_nat nd))%Q.
Proof.
  change 0%Q with (inject_Z 0). rewrite <- Zlt_Qlt. apply Z.pow_pos_nonneg; lia.
Qed.

(** [round] is monotone. *)
Lemma round_nd_mono (nd : nat) (x y : Q) :
  (x <= y)%Q -> (Num.round_nd x nd <= Num.round_nd y nd)%Q.
Proof.
  intros Hxy. unfold Num.round_nd. cbv zeta.
  pose proof (scale_pos nd) as Hs.
  set (s := inject_Z (10 ^ Z.of_nat nd)) in *.
  apply Qmult_le_compat_r.
  - rewrite <- Zle_Qle. apply round_half_even_mono.
    apply Qmult_le_compat_r; [exact Hxy | apply Qlt_le_weak, Hs].
  - apply Qlt_le_weak, Qinv_lt_0_compat, Hs.
Qed.

(** A value that already has [nd] decimals is kept. *)
Lemma round_nd_exact (nd : nat) (k : Z) :
  (Num.round_nd (inject_Z k / inject_Z (10 ^ Z.of_nat nd)) nd
   == inject_Z k / inject_Z (10 ^ Z.of_nat nd))%Q.
Proof.
  unfold Num.round_nd. cbv zeta.
  pose proof (scale_pos nd) as Hs.
  set (s := inject_Z (10 ^ Z.of_nat nd)) in *.
  assert (E : (inject_Z k / s * s == inject_Z k)%Q).
  { field. intros E. rewrite E in Hs. inversion Hs. }
  rewrite (round_half_even_comp _ _ E).
  assert (Hk : Num.round_half_even (inject_Z k) = k).
  { unfold Num.round_half_even. cbv zeta. rewrite Qfloor_Z.
    assert (Hc : (inject_Z k - inject_Z k ?= 1 # 2)%Q = Lt)
      by (apply (proj1 (Qlt_alt _ _)); lra).
    by rewrite Hc. }
  rewrite Hk. reflexivity.
Qed.

(** [round] keeps a value inside an interval whose ends have [nd]
    decimals. *)
Lemma round_nd_between (nd : nat) (a b : Z) (x : Q) :
  (inject_Z a / inject_Z (10 ^ Z.of_nat nd) <= x)%Q ->
  (x <= inject_Z b / inject_Z (10 ^ Z.of_nat nd))%Q ->
  (inject_Z a / inject_Z (10 ^ Z.of_nat nd) <= Num.round_nd x nd)%Q
  /\ (Num.round_nd x nd <= inject_Z b / inject_Z (10 ^ Z.of_nat nd))%Q.
Proof.
  intros Ha Hb. split.
  - rewrite <- (round_nd_exact nd a). by apply round_nd_mono.
  - rewrite <- (round_nd_exact nd b). by apply round_nd_mono.
Qed.

Lemma round_nd_nonneg (nd : nat) (x : Q) : (0 <= x)%Q -> (0 <= Num.round_nd x nd)%Q.
Proof.
  intros Hx.
  assert (E : (inject_Z 0 / inject_Z (10 ^ Z.of_nat nd) == 0)%Q)
    by (unfold Qdiv; change (inject_Z 0) with 0%Q; apply Qmult_0_l).
  rewrite <- E at 1. rewrite <- (round_nd_exact nd 0).
  apply round_nd_mono. by rewrite E.
Qed.

End RoundingOrder.

(** ** The rows of a run *)

Section EngineRows.

Context {G : Type} `{Generator G}.

Lemma rng_choice_elem {A} (a : list A) (g : G) (x : A) (g' : G) :
  rng_choice a g = Some (x, g') -> x ∈ a.
Proof.
  destruct a as [|x0 a]; [discriminate|].
  unfold rng_choice. intros Hrun.
  apply bind_Some in Hrun as (i & g1 & _ & Hret). unfold ret in Hret.
  assert (Hx : x = nth (i mod length (x0 :: a)) (x0 :: a) x0) by congruence.
  rewrite Hx. apply list_elem_of_In, nth_In.
  apply Nat.mod_upper_bound. simpl. lia.
Qed.

Lemma _party_size_range (difficulty : string) (g : G) (p : Z) (g' : G) :
  _party_size difficulty g = Some (p, g') -> 1 <= p <= 6.
Proof.
  unfold _party_size. intros Hrun.
  apply bind_Some in Hrun as (i & g1 & _ & Hret). unfold ret in Hret.
  assert (Hp : p = nth (i mod 6) [1; 2; 3; 4; 5; 6] 1) by congruence.
  rewrite Hp. clear Hp Hret.
  pose proof (Nat.mod_upper_bound i 6 ltac:(lia)) as Hi.
  destruct (i mod 6)%nat as [|[|[|[|[|[|n]]]]]]; simpl; lia.
Qed.

Lemma _discount_flag_and_pct_off (party_size : Z) (season : string) (is_weekend : bool)
    (g : G) (flag : bool) (pct : Q) (g' : G) :
  _discount_flag_and_pct party_size season is_weekend g = Some (flag, pct, g') ->
  flag = false -> pct = 0.0%Q.
Proof.
  unfold _discount_flag_and_pct. intros Hrun Hflag.
  apply bind_Some in Hrun as (u & g1 & _ & Hrun).
  destruct (negb _) eqn:Hn.
  - by injection Hrun as _ <- _.
  - apply bind_Some in Hrun as (p & g2 & _ & Hret). injection Hret as <- _ _. discriminate.
Qed.

Lemma _price_per_person_ex_vat_range (duration_hours : Q) (difficulty : string)
    (g : G) (p : Q) (g' : G) :
  _price_per_person_ex_vat duration_hours difficulty g = Some (p, g') ->
  (60 <= p)%Q /\ (p <= 190)%Q.
Proof.
  unfold _price_per_person_ex_vat. intros Hrun.
  apply bind_Some in Hrun as (noise & g1 & _ & Hret). injection Hret as <- _.
  match goal with
  | |- (_ <= Num.clip ?v ?a ?b)%Q /\ _ => pose proof (clip_bounds v a b ltac:(lra)) as [? ?]
  end.
  split; lra.
Qed.

Lemma costs_within_sales (sales margin share : Q) :
  (0 <= sales)%Q -> (0.30 <= margin)%Q -> (margin <= 0.50)%Q ->
  (0.50 <= share)%Q -> (share <= 0.75)%Q ->
  (0 <= sales * margin)%Q /\ (sales * margin <= sales)%Q
  /\ (0 <= Qmax (sales - sales * margin) 0.0 * share)%Q
  /\ (Qmax (sales - sales * margin) 0.0 * share <= sales)%Q.
Proof.
  intros Hs Hm1 Hm2 Hh1 Hh2.
  assert (Hsm : (0 <= sales * margin)%Q) by (apply Qmult_le_0_compat; lra).
  assert (Hsm2 : (sales * margin <= sales * 0.50)%Q).
  { rewrite !(Qmult_comm sales). apply Qmult_le_compat_r; lra. }
  assert (Ht : (Qmax (sales - sales * margin) 0.0 == sales - sales * margin)%Q).
  { apply Q.max_l. lra. }
  rewrite Ht.
  assert (Hc : (0 <= sales - sales * margin)%Q) by lra.
  assert (Hcs : ((sales - sales * margin) * share <= (sales - sales * margin) * 0.75)%Q).
  { rewrite !(Qmult_comm (sales - sales * margin)). apply Qmult_le_compat_r; lra. }
  assert (Hcs0 : (0 <= (sales - sales * margin) * share)%Q) by (apply Qmult_le_0_compat; lra).
  repeat split; lra.
Qed.

Lemma booking_body_row (guide_ids : list Z) (rt : Route) (division : string)
    (d : DimDate) (is_bh : bool) (rows : list Booking) (id : Z) (g : G)
    (st' : list Booking * Z) (g' : G) :
  booking_body guide_ids rt division d is_bh (rows, id) g = Some (st', g') ->
  exists b, st' = (rows ++ [b], id + 1) /\ row_facts guide_ids rt d id b.
Proof.
  unfold booking_body. intros Hrun.
  apply bind_Some in Hrun as (party & g1 & Hparty & Hrun).
  apply bind_Some in Hrun as ([flag pct] & g2 & Hdisc & Hrun).
  apply bind_Some in Hrun as (ppp & g3 & Hppp & Hrun).
  apply bind_Some in Hrun as (margin & g4 & Hmargin & Hrun).
  apply bind_Some in Hrun as (z & g5 & _ & Hrun).
  apply bind_Some in Hrun as (gid & g6 & Hguide & Hrun).
  injection Hrun as <- _.
  eexists. split; [reflexivity|].
  apply _party_size_range in Hparty.
  apply _price_per_person_ex_vat_range in Hppp as [Hp1 Hp2].
  apply _margin_pct_clipped in Hmargin as [m0 ->].
  pose proof (clip_bounds m0 0.30 0.50 ltac:(lra)) as [Hm1 Hm2].
  pose proof (clip_bounds z 0.50 0.75 ltac:(lra)) as [Hh1 Hh2].
  cbn [fst snd] in *.
  set (sales := Qmax _ 0.0).
  assert (Hs0 : (0.0 <= sales)%Q) by apply Q.le_max_r.
  assert (Hs : (0 <= sales)%Q) by lra.
  destruct (costs_within_sales sales _ _ Hs Hm1 Hm2 Hh1 Hh2) as (Hma0 & Hma1 & Hst0 & Hst1).
  unfold row_facts. cbn.
  split; [reflexivity|]. split; [eapply rng_choice_elem, Hguide|].
  split; [exact Hparty|]. split; [reflexivity|].
  split.
  { destruct (round_nd_between 2 6000 19000 ppp) as [Ha Hb].
    - change (inject_Z 6000 / inject_Z (10 ^ Z.of_nat 2))%Q with (6000 / 100)%Q.
      unfold Qdiv. change (/ 100)%Q with (1 # 100)%Q. lra.
    - change (inject_Z 19000 / inject_Z (10 ^ Z.of_nat 2))%Q with (19000 / 100)%Q.
      unfold Qdiv. change (/ 100)%Q with (1 # 100)%Q. lra.
    - change (inject_Z 6000 / inject_Z (10 ^ Z.of_nat 2))%Q with (6000 / 100)%Q in Ha.
      change (inject_Z 19000 / inject_Z (10 ^ Z.of_nat 2))%Q with (19000 / 100)%Q in Hb.
      unfold Qdiv in Ha, Hb. change (/ 100)%Q with (1 # 100)%Q in Ha, Hb. split; lra. }
  split.
  { split; [|split]; apply round_nd_nonneg; unfold VAT_RATE; lra. }
  split; [split; [by apply round_nd_nonneg | by apply round_nd_mono]|].
  split; [split; [by apply round_nd_nonneg | by apply round_nd_mono]|].
  intros Hflag. destruct flag; [discriminate|].
  rewrite (_discount_flag_and_pct_off _ _ _ _ _ _ _ Hdisc eq_refl). by vm_compute.
Qed.

End EngineRows.

Section EngineRuns.

Context {G : Type} `{Generator G}.

Lemma generated_rows_full
    (routes : list Route) (guides : list Guide) (dates : list DimDate)
    (bh : list BankHoliday) (region_div : list RegionDivision) (rng : G)
    (rows : list Booking) :
  generate_fact_bookings routes guides dates bh region_div rng = Some rows ->
  map booking_id rows = seqZ 1 (Z.of_nat (length rows))
  /\ Forall (stored_row routes guides dates) rows.
Proof.
  unfold generate_fact_bookings. cbv zeta.
  set (P := stored_row routes guides dates).
  set (I := fun st : list Booking * Z =>
              snd st = 1 + Z.of_nat (length (fst st))
              /\ map booking_id (fst st) = seqZ 1 (Z.of_nat (length (fst st)))
              /\ Forall P (fst st)).
  destruct (foldM _ _ _ _) as [[[rows' n] g']|] eqn:Hrun; [|discriminate].
  intros [= <-].
  enough (HI : I (rows', n)) by (destruct HI as (_ & Hids & Hall); by split).
  eapply (foldM_inv I); [| |exact Hrun]; [|by repeat split; try constructor].
  clear Hrun rows' n g'. intros st rt g st' g' Hrt Hst Hroute.
  unfold route_body in Hroute. cbv zeta in Hroute.
  eapply (foldM_inv I); [|exact Hst|exact Hroute].
  clear Hroute Hst st st' g g'. intros st d g st' g' Hd Hst Hday.
  unfold route_day_body in Hday. cbv zeta in Hday.
  destruct (decide _) as [Hclosed|Hopen]; [by injection Hday as <- _|].
  apply bind_Some in Hday as (n & g1 & _ & Hday).
  destruct (n <=? 0); [by injection Hday as <- _|].
  eapply (repeatM_inv I); [|exact Hst|exact Hday].
  clear Hday Hst st st' g g' g1. intros [rows0 id] g st' g' (Hid & Hids & Hall) Hbook.
  cbn [fst snd] in *.
  pose proof Hbook as Hbook2.
  apply booking_body_inv in Hbook as (b & -> & Hb & _).
  apply booking_body_row in Hbook2 as (b' & [= Hbb] & Hb').
  apply app_inj_tail in Hbb as [_ Hbb]. subst b'.
  unfold I. cbn [fst snd]. rewrite length_app, map_app. cbn [length map].
  replace (length rows0 + 1)%nat with (S (length rows0)) by lia.
  rewrite seqZ_S, Hids.
  destruct Hb as (Hdate & Hroute & Hregion & _).
  split; [lia|]. split.
  - f_equal. f_equal. destruct Hb' as [-> _]. exact Hid.
  - apply Forall_app. split; [exact Hall|]. constructor; [|constructor].
    exists rt, d. do 5 (split; [done|]).
    destruct Hb' as [Hbid Hrest]. rewrite Hbid. split; [exact Hbid | exact Hrest].
Qed.

End EngineRuns.

(** ** The warehouse validator *)

Section ValidateFacts.

Lemma Qltb_lt (x y : Q) : Qltb x y = true <-> (x < y)%Q.
Proof.
  unfold Qltb. rewrite negb_true_iff, <- not_true_iff_false, Qle_bool_iff.
  split; [apply Qnot_le_lt | apply Qlt_not_le].
Qed.

Lemma Qltb_ge (x y : Q) : Qltb x y = false <-> (y <= x)%Q.
Proof. unfold Qltb. by rewrite negb_false_iff, Qle_bool_iff. Qed.

Lemma fold_max_le (l : list Q) (x bound : Q) :
  (fold_left Qmax l x <= bound)%Q <-> (x <= bound)%Q /\ Forall (fun y => (y <= bound)%Q) l.
Proof.
  revert x. induction l as [|y l IH]; intros x; simpl.
  - split; [intros; split; [done | constructor] | tauto].
  - rewrite IH, Q.max_lub_iff, Forall_cons. tauto.
Qed.

Lemma max_exceeds_false (l : list Q) (bound : Q) :
  max_exceeds l bound = false <-> Forall (fun y => (y <= bound)%Q) l.
Proof.
  unfold max_exceeds, series_max. destruct l as [|x l].
  - split; [constructor | done].
  - rewrite Qltb_ge, fold_max_le, Forall_cons. tauto.
Qed.

Lemma existsb_false_Forall {A} (p : A -> bool) (l : list A) :
  existsb p l = false <-> Forall (fun x => p x = false) l.
Proof.
  induction l as [|x l IH]; simpl; [split; [constructor | done]|].
  rewrite orb_false_iff, IH, Forall_cons. tauto.
Qed.

Lemma filter_length_0 {A} (P : A -> Prop) `{forall x, Decision (P x)} (l : list A) :
  (0 <? Z.of_nat (length (filter P l))) = false <-> Forall (fun x => ~ P x) l.
Proof.
  rewrite Z.ltb_ge. induction l as [|x l IH]; [split; [constructor | simpl; lia]|].
  rewrite filter_cons, Forall_cons. destruct (decide (P x)); simpl.
  - split; [lia | tauto].
  - rewrite IH. tauto.
Qed.

End ValidateFacts.

Lemma validate_passes
    (routes : list Route) (guides : list Guide) (dates : list DimDate)
    (fact : list Booking) :
  ((exists warnings, validate routes guides dates fact = inr warnings)
   <-> warehouse_ok routes guides dates fact)
  /\ (validate routes guides dates fact = inr [] <->
      warehouse_ok routes guides dates fact /\ vat_within_tolerance fact).
Proof.
  assert (Hcore :
    forall w, validate routes guides dates fact = inr w <->
      warehouse_ok routes guides dates fact
      /\ w = (if max_exceeds (map (fun b => Qabs (vat_amount b - sales_ex_vat b * VAT_RATE)) fact) 0.03
              then [VatDrift] else [])
             ++ (if max_exceeds (map (fun b => Qabs (sales_inc_vat b - (sales_ex_vat b + vat_amount b))) fact) 0.03
                 then [IncVatDrift] else [])).
  { intros w. unfold validate, warehouse_ok. cbv zeta.
    repeat case_bool_decide; simpl;
      try (split; [discriminate | intros [(? & ? & ? & ? & ? & ?) _]; done]).
    rewrite Forall_forall.
    match goal with
    | |- context [if (0 <? ?t) then inl InvalidRouteId else _] => destruct (0 <? t) eqn:Hr
    end; [split; [discriminate|]|].
    { intros [(_ & _ & _ & _ & _ & Hall) _].
      enough (Hc : (0 <? Z.of_nat (length (filter (fun b => route_id b ∉ (list_to_set (map rt_route_id routes) : gset Z)) fact))) = false)
        by (rewrite Hc in Hr; discriminate).
      apply filter_length_0, Forall_forall. intros b Hb Hbad. apply Hbad.
      apply elem_of_list_to_set. by apply Hall. }
    match goal with
    | |- context [if (0 <? ?t) then inl InvalidGuideId else _] => destruct (0 <? t) eqn:Hg
    end; [split; [discriminate|]|].
    { intros [(_ & _ & _ & _ & _ & Hall) _].
      enough (Hc : (0 <? Z.of_nat (length (filter (fun b => guide_id b ∉ (list_to_set (map gd_guide_id guides) : gset Z)) fact))) = false)
        by (rewrite Hc in Hg; discriminate).
      apply filter_length_0, Forall_forall. intros b Hb Hbad. apply Hbad.
      apply elem_of_list_to_set. by apply Hall. }
    match goal with
    | |- context [if (0 <? ?t) then inl InvalidDateKey else _] => destruct (0 <? t) eqn:Hd
    end; [split; [discriminate|]|].
    { intros [(_ & _ & _ & _ & _ & Hall) _].
      enough (Hc : (0 <? Z.of_nat (length (filter (fun b => date_key b ∉ (list_to_set (map dd_date_key dates) : gset Z)) fact))) = false)
        by (rewrite Hc in Hd; discriminate).
      apply filter_length_0, Forall_forall. intros b Hb Hbad. apply Hbad.
      apply elem_of_list_to_set. by apply Hall. }
    apply filter_length_0 in Hr, Hg, Hd. rewrite Forall_forall in Hr, Hg, Hd.
    destruct (existsb (fun b => party_size b <=? 0) fact) eqn:Hp; [split; [discriminate|]|].
    { intros [(_ & _ & _ & _ & _ & Hall) _]. apply existsb_exists in Hp as (b & Hin & Hb).
      apply list_elem_of_In, Hall in Hin. apply Z.leb_le in Hb. lia. }
    destruct (existsb (fun b => Qltb (sales_ex_vat b) 0) fact) eqn:Hs; [split; [discriminate|]|].
    { intros [(_ & _ & _ & _ & _ & Hall) _]. apply existsb_exists in Hs as (b & Hin & Hb).
      apply list_elem_of_In, Hall in Hin. apply Qltb_lt in Hb. lra. }
    destruct (existsb (fun b => Qltb (sales_inc_vat b) 0) fact) eqn:Hi; [split; [discriminate|]|].
    { intros [(_ & _ & _ & _ & _ & Hall) _]. apply existsb_exists in Hi as (b & Hin & Hb).
      apply list_elem_of_In, Hall in Hin. apply Qltb_lt in Hb. lra. }
    destruct (existsb (fun b => Qltb (margin_pct b) 0.30) fact) eqn:Hm1; [split; [discriminate|]|].
    { intros [(_ & _ & _ & _ & _ & Hall) _]. apply existsb_exists in Hm1 as (b & Hin & Hb).
      apply list_elem_of_In, Hall in Hin. apply Qltb_lt in Hb. lra. }
    destruct (existsb (fun b => Qltb 0.50 (margin_pct b)) fact) eqn:Hm2; [split; [discriminate|]|].
    { intros [(_ & _ & _ & _ & _ & Hall) _]. apply existsb_exists in Hm2 as (b & Hin & Hb).
      apply list_elem_of_In, Hall in Hin. apply Qltb_lt in Hb. lra. }
    cbn [orb].
    apply existsb_false_Forall in Hp, Hs, Hi, Hm1, Hm2.
    rewrite Forall_forall in Hp, Hs, Hi, Hm1, Hm2.
    split.
    - intros [= <-]. split; [|reflexivity].
      do 4 (split; [done|]). split; [done|].
      intros b Hb. specialize (Hr b Hb). specialize (Hg b Hb). specialize (Hd b Hb).
      specialize (Hp b Hb). specialize (Hs b Hb). specialize (Hi b Hb).
      specialize (Hm1 b Hb). specialize (Hm2 b Hb). cbv beta in *.
      apply dec_stable in Hr, Hg, Hd. apply elem_of_list_to_set in Hr, Hg, Hd.
      apply Z.leb_gt in Hp. apply Qltb_ge in Hs, Hi, Hm1, Hm2.
      repeat split; done.
    - intros [_ ->]. reflexivity. }
  split.
  - split.
    + intros [w Hw]. by apply Hcore in Hw as [Hok _].
    + intros Hok. eexists. apply Hcore. split; [exact Hok | reflexivity].
  - rewrite Hcore. unfold vat_within_tolerance. rewrite Forall_and.
    rewrite <- (Forall_map (fun b => Qabs (vat_amount b - sales_ex_vat b * VAT_RATE))
                  (fun y => (y <= 0.03)%Q)).
    rewrite <- (Forall_map
                  (fun b => Qabs (sales_inc_vat b - (sales_ex_vat b + vat_amount b)))
                  (fun y => (y <= 0.03)%Q)).
    rewrite <- !max_exceeds_false.
    split.
    + intros [Hok Hw]. split; [exact Hok|].
      destruct (max_exceeds _ _); [discriminate|].
      destruct (max_exceeds _ _); [discriminate|]. done.
    + intros (Hok & -> & ->). done.
Qed.

(** ** What a run generates *)

Section EngineExtras.

Context {G : Type} `{Generator G}.

Lemma generated_margins
    (routes : list Route) (guides : list Guide) (dates : list DimDate)
    (bh : list BankHoliday) (region_div : list RegionDivision) (rng : G)
    (rows : list Booking) :
  generate_fact_bookings routes guides dates bh region_div rng = Some rows ->
  Forall (fun b => (0.30 <= margin_pct b)%Q /\ (margin_pct b <= 0.50)%Q) rows.
Proof.
  intros Hrun. apply generated_rows in Hrun.
  eapply Forall_impl; [exact Hrun|].
  intros b (rt & d & _ & _ & Hb & _).
  destruct Hb as (_ & _ & _ & _ & _ & [m ->] & _).
  apply round_nd_4_margin, clip_bounds. lra.
Qed.

Lemma generated_vat
    (routes : list Route) (guides : list Guide) (dates : list DimDate)
    (bh : list BankHoliday) (region_div : list RegionDivision) (rng : G)
    (rows : list Booking) :
  generate_fact_bookings routes guides dates bh region_div rng = Some rows ->
  Forall
    (fun b =>
       (Qabs (vat_amount b - sales_ex_vat b * VAT_RATE) <= 0.03)%Q
       /\ (Qabs (sales_inc_vat b - (sales_ex_vat b + vat_amount b)) <= 0.03)%Q)
    rows.
Proof.
  intros Hrun. apply generated_rows in Hrun.
  eapply Forall_impl; [exact Hrun|].
  intros b (rt & d & _ & _ & Hb & _).
  destruct Hb as (_ & _ & _ & _ & _ & _ & s & -> & -> & ->).
  pose proof (round_nd_2_close s) as Hs.
  pose proof (round_nd_2_close (s * VAT_RATE)) as Hv.
  pose proof (round_nd_2_close (s + s * VAT_RATE)) as Hi.
  unfold VAT_RATE in *.
  split; apply Qabs_Qle_condition; lra.
Qed.

(** X1: the booking ids of a run are 1, 2, ..., in row order, hence distinct. *)
Theorem generated_booking_ids
    (routes : list Route) (guides : list Guide) (dates : list DimDate)
    (bh : list BankHoliday) (region_div : list RegionDivision) (rng : G)
    (rows : list Booking) :
  generate_fact_bookings routes guides dates bh region_div rng = Some rows ->
  map booking_id rows = seqZ 1 (Z.of_nat (length rows))
  /\ NoDup (map booking_id rows).
Proof.
  intros Hrun. apply generated_rows_full in Hrun as [Hids _].
  split; [exact Hids|]. rewrite Hids. apply NoDup_seqZ.
Qed.

(** X2: every row refers to a route of the route table (and repeats its
    region), to a guide of the roster and to a day of the calendar that
    lies in 2024 or 2025; its [date_key] is that day's YYYYMMDD number. *)
Theorem generated_references
    (routes : list Route) (guides : list Guide) (dates : list DimDate)
    (bh : list BankHoliday) (region_div : list RegionDivision) (rng : G)
    (rows : list Booking) :
  generate_fact_bookings routes guides dates bh region_div rng = Some rows ->
  Forall
    (fun b =>
       (exists rt, rt ∈ routes /\ route_id b = rt_route_id rt /\ region b = rt_region rt)
       /\ guide_id b ∈ map gd_guide_id guides
       /\ (exists d, d ∈ dates /\ booking_date b = dd_date d)
       /\ date_key b = date_key_of (booking_date b)
       /\ date_leb (mkDate 2024 1 1) (booking_date b) = true
       /\ date_leb (booking_date b) (mkDate 2025 12 31) = true)
    rows.
Proof.
  intros Hrun. apply generated_rows_full in Hrun as [_ Hall].
  eapply Forall_impl; [exact Hall|]. clear Hall.
  intros b (rt & d & Hrt & Hd & Hroute & Hregion & Hdate & Hfacts).
  destruct Hfacts as (_ & Hguide & _ & Hkey & _).
  apply list_elem_of_filter in Hd as [[Hlo Hhi] Hd].
  rewrite Hdate. repeat split; eauto.
Qed.

(** X3: the stored values of every row: a party of 1 to 6, a price per person
    between 60 and 190, no negative amount, margin and staff cost within
    the sales, and no discount percentage without the discount flag. *)
Theorem generated_value_ranges
    (routes : list Route) (guides : list Guide) (dates : list DimDate)
    (bh : list BankHoliday) (region_div : list RegionDivision) (rng : G)
    (rows : list Booking) :
  generate_fact_bookings routes guides dates bh region_div rng = Some rows ->
  Forall
    (fun b =>
       1 <= party_size b <= 6
       /\ ((60 <= price_per_person_ex_vat b)%Q /\ (price_per_person_ex_vat b <= 190)%Q)
       /\ ((0 <= sales_ex_vat b)%Q /\ (0 <= vat_amount b)%Q /\ (0 <= sales_inc_vat b)%Q)
       /\ ((0 <= margin_amount b)%Q /\ (margin_amount b <= sales_ex_vat b)%Q)
       /\ ((0 <= staff_cost b)%Q /\ (staff_cost b <= sales_ex_vat b)%Q)
       /\ (discount_flag b = 0 -> (discount_pct b == 0)%Q))
    rows.
Proof.
  intros Hrun. apply generated_rows_full in Hrun as [_ Hall].
  eapply Forall_impl; [exact Hall|]. clear Hall.
  intros b (rt & d & _ & _ & _ & _ & _ & Hfacts).
  destruct Hfacts as (_ & _ & Hparty & _ & Hrest). tauto.
Qed.

(** X4: without routes, or without a calendar day in 2024-2025, a run
    completes with an empty fact table, whatever the other tables hold. *)
Theorem generate_nothing_to_iterate
    (routes : list Route) (guides : list Guide) (dates : list DimDate)
    (bh : list BankHoliday) (region_div : list RegionDivision) (rng : G) :
  generate_fact_bookings [] guides dates bh region_div rng = Some []
  /\ (Forall (fun d => date_leb (mkDate 2024 1 1) (dd_date d) = false
                       \/ date_leb (dd_date d) (mkDate 2025 12 31) = false) dates ->
      generate_fact_bookings routes guides dates bh region_div rng = Some []).
Proof.
  split; [reflexivity|].
  intros Hout. unfold generate_fact_bookings. cbv zeta.
  assert (Hnone : _load_inputs_dates dates = []).
  { unfold _load_inputs_dates. induction Hout as [|d l Hd _ IH]; [reflexivity|].
    rewrite filter_cons. destruct (decide _) as [[Hlo Hhi]|_]; [|exact IH].
    destruct Hd; congruence. }
  rewrite Hnone. clear Hnone Hout.
  assert (Hskip : forall st g,
             foldM (route_body (map gd_guide_id guides) [] (region_to_div_of region_div)
                      (_build_closed_dates_by_division bh)) st routes g = Some (st, g)).
  { induction routes as [|rt routes' IH]; intros st g; [reflexivity|].
    cbn [foldM]. unfold bind. unfold route_body at 1. cbn [foldM]. unfold ret at 1.
    apply IH. }
  by rewrite Hskip.
Qed.

(** X5: the validator accepts what the engine generates: on a run that emits
    at least one row, over a calendar whose [date_key] column is the
    YYYYMMDD number of its [date] column, [validate] neither fails nor
    warns. *)
Theorem generated_warehouse_validates
    (routes : list Route) (guides : list Guide) (dates : list DimDate)
    (bh : list BankHoliday) (region_div : list RegionDivision) (rng : G)
    (rows : list Booking) :
  generate_fact_bookings routes guides dates bh region_div rng = Some rows ->
  rows <> [] ->
  Forall (fun d => dd_date_key d = date_key_of (dd_date d)) dates ->
  validate routes guides dates rows = inr [].
Proof.
  intros Hrun Hne Hkeys.
  apply validate_passes. split.
  - pose proof (generated_rows_full _ _ _ _ _ _ _ Hrun) as [Hids Hall].
    pose proof (generated_margins _ _ _ _ _ _ _ Hrun) as Hmargin.
    assert (Hfirst : exists b, b ∈ rows) by (destruct rows as [|b ?]; [done | exists b; left]).
    destruct Hfirst as [b0 Hb0].
    rewrite Forall_forall in Hall. destruct (Hall b0 Hb0) as (rt0 & d0 & Hrt0 & Hd0 & _ & _ & _ & Hf0).
    apply list_elem_of_filter in Hd0 as [_ Hd0].
    destruct Hf0 as (_ & Hg0 & _).
    unfold warehouse_ok.
    split; [by intros ->; apply elem_of_nil in Hrt0|].
    split; [by intros ->; apply elem_of_nil in Hg0|].
    split; [by intros ->; apply elem_of_nil in Hd0|].
    split; [exact Hne|].
    split; [rewrite Hids; apply NoDup_seqZ|].
    rewrite Forall_forall in Hmargin. rewrite Forall_forall in Hkeys. apply Forall_forall. intros b Hb.
    destruct (Hall b Hb) as (rt & d & Hrt & Hd & Hroute & _ & Hdate & Hf).
    destruct Hf as (_ & Hg & Hparty & Hkey & _ & (Hs & _ & Hi) & _).
    apply list_elem_of_filter in Hd as [_ Hd].
    destruct (Hmargin b Hb) as [Hm1 Hm2].
    split; [rewrite Hroute; apply list_elem_of_In, in_map, list_elem_of_In, Hrt|].
    split; [exact Hg|].
    split; [rewrite Hkey, <- (Hkeys d Hd); apply list_elem_of_In, in_map, list_elem_of_In, Hd|].
    repeat split; try done. lia.
  - unfold vat_within_tolerance. apply (generated_vat _ _ _ _ _ _ _ Hrun).
Qed.

End EngineExtras.

(** The booking ids of the sample run. *)
Lemma generated_booking_ids_sample :
  map booking_id Sample.fact_bookings = seqZ 1 (Z.of_nat (length Sample.fact_bookings))
  /\ NoDup (map booking_id Sample.fact_bookings).
Proof.
  apply (generated_booking_ids Sample.dim_route Sample.dim_guide Sample.dim_date
           Sample.dim_bank_holiday build_dim_region_division Sample.tape).
  vm_compute. reflexivity.
Defined.

(** The references of the sample run. *)
Lemma generated_references_sample :
  Forall
    (fun b =>
       (exists rt, rt ∈ Sample.dim_route /\ route_id b = rt_route_id rt
                   /\ region b = rt_region rt)
       /\ guide_id b ∈ map gd_guide_id Sample.dim_guide
       /\ (exists d, d ∈ Sample.dim_date /\ booking_date b = dd_date d)
       /\ date_key b = date_key_of (booking_date b)
       /\ date_leb (mkDate 2024 1 1) (booking_date b) = true
       /\ date_leb (booking_date b) (mkDate 2025 12 31) = true)
    Sample.fact_bookings.
Proof.
  apply (generated_references Sample.dim_route Sample.dim_guide Sample.dim_date
           Sample.dim_bank_holiday build_dim_region_division Sample.tape).
  vm_compute. reflexivity.
Defined.

(** The value ranges of the sample run. *)
Lemma generated_value_ranges_sample :
  Forall
    (fun b =>
       1 <= party_size b <= 6
       /\ ((60 <= price_per_person_ex_vat b)%Q /\ (price_per_person_ex_vat b <= 190)%Q)
       /\ ((0 <= sales_ex_vat b)%Q /\ (0 <= vat_amount b)%Q /\ (0 <= sales_inc_vat b)%Q)
       /\ ((0 <= margin_amount b)%Q /\ (margin_amount b <= sales_ex_vat b)%Q)
       /\ ((0 <= staff_cost b)%Q /\ (staff_cost b <= sales_ex_vat b)%Q)
       /\ (discount_flag b = 0 -> (discount_pct b == 0)%Q))
    Sample.fact_bookings.
Proof.
  apply (generated_value_ranges Sample.dim_route Sample.dim_guide Sample.dim_date
           Sample.dim_bank_holiday build_dim_region_division Sample.tape).
  vm_compute. reflexivity.
Defined.

(** The sample warehouse validates. *)
Lemma generated_warehouse_validates_sample :
  validate Sample.dim_route Sample.dim_guide Sample.dim_date Sample.fact_bookings = inr [].
Proof.
  apply (generated_warehouse_validates Sample.dim_route Sample.dim_guide Sample.dim_date
           Sample.dim_bank_holiday build_dim_region_division Sample.tape).
  - vm_compute. reflexivity.
  - discriminate.
  - repeat constructor.
Defined.

(** ** The Poisson mean *)

Section MeanFacts.

Lemma Qmult_bounds (a x b c y d : Q) :
  (0 <= a)%Q -> (a <= x)%Q -> (x <= b)%Q ->
  (0 <= c)%Q -> (c <= y)%Q -> (y <= d)%Q ->
  (a * c <= x * y)%Q /\ (x * y <= b * d)%Q.
Proof.
  intros Ha Hax Hxb Hc Hcy Hyd. split.
  - apply Qle_trans with (x * c)%Q.
    + apply Qmult_le_compat_r; assumption.
    + rewrite !(Qmult_comm x). apply Qmult_le_compat_r; [assumption | lra].
  - apply Qle_trans with (x * d)%Q.
    + rewrite !(Qmult_comm x). apply Qmult_le_compat_r; [assumption | lra].
    + apply Qmult_le_compat_r; [assumption | lra].
Qed.

Lemma clip_inside (x lo hi : Q) :
  (lo <= x)%Q -> (x <= hi)%Q -> (Num.clip x lo hi == x)%Q.
Proof.
  intros Hlo Hhi. unfold Num.clip.
  rewrite (Q.max_l x lo Hlo). apply Q.min_l, Hhi.
Qed.

End MeanFacts.

(** X7: the clamp of the Poisson mean never binds: for every region, season
    and difficulty label, known or not, and both flags, the mean is the
    plain product of the base rate and the uplifts, and it lies between
    0.31 and 1.95. *)
Theorem expected_bookings_never_clamped
    (region season difficulty : string) (is_weekend is_bank_holiday_open : bool) :
  let raw :=
    (0.55 * dict_get REGION_UPLIFT region 1.0%Q * dict_get SEASON_UPLIFT season 1.0%Q
     * dict_get DIFFICULTY_UPLIFT difficulty 1.0%Q
     * (if is_weekend then WEEKEND_UPLIFT else 1)
     * (if is_bank_holiday_open then BANK_HOLIDAY_OPEN_UPLIFT else 1))%Q in
  (_expected_bookings_per_route_day region season difficulty is_weekend
     is_bank_holiday_open == raw)%Q
  /\ (0.31 <= raw)%Q /\ (raw <= 1.95)%Q.
Proof.
  cbv zeta.
  set (r := dict_get REGION_UPLIFT region 1.0%Q).
  set (s := dict_get SEASON_UPLIFT season 1.0%Q).
  set (f := dict_get DIFFICULTY_UPLIFT difficulty 1.0%Q).
  set (w := if is_weekend then WEEKEND_UPLIFT else 1%Q).
  set (h := if is_bank_holiday_open then BANK_HOLIDAY_OPEN_UPLIFT else 1%Q).
  assert (Hr : (0.90 <= r)%Q /\ (r <= 1.35)%Q).
  { unfold r, REGION_UPLIFT, dict_get. repeat destruct (String.eqb _ _); split; lra. }
  assert (Hs : (0.85 <= s)%Q /\ (s <= 1.30)%Q).
  { unfold s, SEASON_UPLIFT, dict_get. repeat destruct (String.eqb _ _); split; lra. }
  assert (Hf : (0.75 <= f)%Q /\ (f <= 1.20)%Q).
  { unfold f, DIFFICULTY_UPLIFT, dict_get. repeat destruct (String.eqb _ _); split; lra. }
  assert (Hw : (1 <= w)%Q /\ (w <= 1.20)%Q).
  { unfold w, WEEKEND_UPLIFT. destruct is_weekend; split; lra. }
  assert (Hh : (1 <= h)%Q /\ (h <= 1.40)%Q).
  { unfold h, BANK_HOLIDAY_OPEN_UPLIFT. destruct is_bank_holiday_open; split; lra. }
  destruct Hr as [Hr1 Hr2], Hs as [Hs1 Hs2], Hf as [Hf1 Hf2], Hw as [Hw1 Hw2], Hh as [Hh1 Hh2].
  destruct (Qmult_bounds (0.55 * 0.90) (0.55 * r) (0.55 * 1.35) 0.85 s 1.30) as [A1 A2]; try lra.
  destruct (Qmult_bounds (0.55 * 0.90 * 0.85) (0.55 * r * s) (0.55 * 1.35 * 1.30)
              0.75 f 1.20) as [B1 B2]; try lra.
  destruct (Qmult_bounds (0.55 * 0.90 * 0.85 * 0.75) (0.55 * r * s * f)
              (0.55 * 1.35 * 1.30 * 1.20) 1 w 1.20) as [C1 C2]; try lra.
  destruct (Qmult_bounds (0.55 * 0.90 * 0.85 * 0.75 * 1) (0.55 * r * s * f * w)
              (0.55 * 1.35 * 1.30 * 1.20 * 1.20) 1 h 1.40) as [D1 D2]; try lra.
  assert (Hraw : (0.31 <= 0.55 * r * s * f * w * h)%Q /\ (0.55 * r * s * f * w * h <= 1.95)%Q).
  { split; lra. }
  split; [|exact Hraw].
  unfold _expected_bookings_per_route_day. cbv zeta. fold r s f.
  assert (E : ((if is_bank_holiday_open
                then (if is_weekend then 0.55 * r * s * f * WEEKEND_UPLIFT else 0.55 * r * s * f)
                     * BANK_HOLIDAY_OPEN_UPLIFT
                else (if is_weekend then 0.55 * r * s * f * WEEKEND_UPLIFT else 0.55 * r * s * f))
               == 0.55 * r * s * f * w * h)%Q).
  { unfold w, h. destruct is_weekend, is_bank_holiday_open; ring. }
  rewrite <- E in Hraw. destruct Hraw as [H1 H2].
  rewrite clip_inside; [exact E | lra | lra].
Qed.

(** ** More on the closed-day resolver *)

Section ResolverFacts.

Lemma lower_byte_idem (c : ascii) : lower_byte (lower_byte c) = lower_byte c.
Proof. destruct c as [[] [] [] [] [] [] [] []]; reflexivity. Qed.

Lemma prefix_nocase_lower (kw s : string) :
  prefix_nocase kw (str_lower s) = prefix_nocase kw s.
Proof.
  revert s. induction kw as [|a kw IH]; intros [|b s]; simpl; try reflexivity.
  unfold byte_eq_nocase. by rewrite lower_byte_idem, IH.
Qed.

Lemma str_contains_nocase_lower (kw s : string) :
  str_contains_nocase kw (str_lower s) = str_contains_nocase kw s.
Proof.
  induction s as [|b s IH].
  - simpl. destruct kw; reflexivity.
  - cbn [str_lower str_contains_nocase]. rewrite <- IH.
    change (String (lower_byte b) (str_lower s)) with (str_lower (String b s)).
    by rewrite prefix_nocase_lower.
Qed.

Lemma closed_mask_lower (title : string) : closed_mask (str_lower title) = closed_mask title.
Proof.
  unfold closed_mask. generalize false.
  induction CLOSED_HOLIDAY_KEYWORDS as [|kw kws IH]; intros acc; simpl; [reflexivity|].
  by rewrite str_contains_nocase_lower, IH.
Qed.

End ResolverFacts.

(** X8: the closing test ignores the case of ASCII letters: two titles that
    are equal once lower-cased are both closing or both not. *)
Theorem closed_mask_ignores_case (s t : string) :
  str_lower s = str_lower t -> closed_mask s = closed_mask t.
Proof.
  intros E. rewrite <- (closed_mask_lower s), <- (closed_mask_lower t). by rewrite E.
Qed.

(** Two spellings of one title. *)
Lemma closed_mask_ignores_case_sample :
  closed_mask "BOXING DAY (substitute)" = closed_mask "Boxing Day (Substitute)".
Proof. apply closed_mask_ignores_case. reflexivity. Defined.

(** X9: the resolver's dict has an entry for every division that has a
    closing event, and the entry holds the date of every closing event of
    the division; no entry holds an empty set, and every date of an entry
    is the date of an event the holiday table lists for that division. An
    empty holiday table gives an empty dict. *)
Theorem closed_dates_by_division_entries (bh : list BankHoliday) (division : string) :
  (forall d, closed_day bh division d ->
             exists s, _build_closed_dates_by_division bh !! division = Some s /\ d ∈ s)
  /\ (forall s, _build_closed_dates_by_division bh !! division = Some s ->
                s <> ∅
                /\ forall d, d ∈ s ->
                             exists ev, ev ∈ bh /\ bh_division ev = division
                                        /\ bh_date ev = d)
  /\ _build_closed_dates_by_division [] = ∅.
Proof.
  assert (Hlook : forall d, d ∈ default ∅ (_build_closed_dates_by_division bh !! division)
                            <-> closed_day bh division d)
    by (intros d; apply closed_dates_lookup).
  assert (Hsome : forall s, _build_closed_dates_by_division bh !! division = Some s ->
                            exists d, d ∈ s).
  { intros s. unfold _build_closed_dates_by_division. cbv zeta.
    set (closed := filter _ bh).
    rewrite (foldl_insert_lookup
               (fun division => list_to_set
                  (map bh_date (filter (fun r => bh_division r = division) closed)))).
    destruct (decide _) as [Hin|Hnin]; [|by rewrite lookup_empty].
    intros [= <-].
    apply elem_of_remove_dups, list_elem_of_In, in_map_iff in Hin as (r & Hdiv & Hr).
    exists (bh_date r). apply elem_of_list_to_set, list_elem_of_In, in_map.
    apply list_elem_of_In, list_elem_of_filter. split; [exact Hdiv | by apply list_elem_of_In]. }
  split; [|split].
  - intros d Hd. apply Hlook in Hd.
    destruct (_ !! division) as [s|]; [by exists s|].
    by apply not_elem_of_empty in Hd.
  - intros s Hs. split.
    + destruct (Hsome s Hs) as [d Hd]. intros ->. by apply not_elem_of_empty in Hd.
    + intros d Hd. assert (Hc : closed_day bh division d) by (apply Hlook; by rewrite Hs).
      destruct Hc as (ev & Hev & Hdiv & Hdate & _). by exists ev.
  - reflexivity.
Qed.

(** ** The region-to-division dict *)

Lemma region_to_div_lookup (region_div : list RegionDivision) (region : string) :
  region_to_div_of region_div !! region
  = rd_division <$> last (filter (fun r => rd_region r = region) region_div).
Proof.
  unfold region_to_div_of.
  assert (Hgen : forall m : gmap string string, foldl (fun m r => <[rd_region r := rd_division r]> m) m region_div
                           !! region
                           = match last (filter (fun r => rd_region r = region) region_div) with
                             | Some r => Some (rd_division r)
                             | None => m !! region
                             end).
  { induction region_div as [|r l IH]; intros m; [reflexivity|].
    cbn [foldl]. rewrite IH, filter_cons.
    destruct (decide (rd_region r = region)) as [E|E].
    - destruct (filter _ l) as [|r' l'] eqn:Hf.
      + simpl. by rewrite <- E, lookup_insert_eq.
      + rewrite last_cons_cons.
        destruct (last (r' :: l')) eqn:Hl; [reflexivity | by apply last_None in Hl].
    - destruct (last _); [reflexivity|]. by rewrite lookup_insert_ne. }
  rewrite Hgen. destruct (last _); reflexivity.
Qed.

(** X10: in the dict built from the region table a region maps to the division
    of the last row that names it, and a region that no row names has no
    entry (the engine then falls back on england-and-wales). *)
Theorem region_to_div_last_row (region_div : list RegionDivision) (region : string) :
  region_to_div_of region_div !! region
  = rd_division <$> last (filter (fun r => rd_region r = region) region_div).
Proof. apply region_to_div_lookup. Qed.

(** ** More on the scoring frame *)

(** X11: every row of a scoring frame that is built is a day of 2026 of the
    calendar; its route cells are those of a route of the route table,
    or empty, which happens only when the route table is empty; its
    division is the one a row of the region table gives for the route's
    region, england-and-wales when no row names the region or the route
    cells are empty; [is_closed_day] is 0 or 1, it is 1 on every closed
    day of that division, and where it is 1 the holiday table lists an
    event of that division on that day. *)
Theorem scoring_rows_enriched
    (dim_date : list DimDate) (dim_route : list Route)
    (region_div : list RegionDivision) (bh : list BankHoliday)
    (frame : Frame) (feature_cols : list string) :
  build_scoring_frame_2026 dim_date dim_route region_div bh = Some (frame, feature_cols) ->
  Forall
    (fun row =>
       let r := er_row row in
       (sr_date r ∈ dim_date
        /\ date_leb (mkDate 2026 1 1) (dd_date (sr_date r)) = true
        /\ date_leb (dd_date (sr_date r)) (mkDate 2026 12 31) = true)
       /\ match sr_route r with
          | Some rt =>
              rt ∈ dim_route
              /\ ((exists rd, rd ∈ region_div /\ rd_region rd = rt_region rt
                              /\ sr_division r = rd_division rd)
                  \/ ((forall rd, rd ∈ region_div -> rd_region rd <> rt_region rt)
                      /\ sr_division r = "england-and-wales"%string))
          | None => dim_route = [] /\ sr_division r = "england-and-wales"%string
          end
       /\ (sr_is_closed_day r = 0 \/ sr_is_closed_day r = 1)
       /\ (closed_day bh (sr_division r) (dd_date (sr_date r)) -> sr_is_closed_day r = 1)
       /\ (sr_is_closed_day r = 1 ->
           exists ev, ev ∈ bh /\ bh_division ev = sr_division r
                      /\ bh_date ev = dd_date (sr_date r)))
    (fr_rows frame).
Proof.
  intros Hframe. apply frame_rows in Hframe.
  apply Forall_forall. intros row Hrow. cbv zeta.
  assert (Hr : er_row row ∈ map er_row (fr_rows frame))
    by (apply list_elem_of_In, in_map, list_elem_of_In, Hrow).
  apply (scoring_base_rows _ _ _ _ _ _ Hframe) in Hr as (Hd & Hrt & _ & Hclosed).
  apply list_elem_of_filter in Hd as [[Hlo Hhi] Hd].
  split; [tauto|]. split; [exact Hrt|].
  rewrite Hclosed. pose proof (closed_dates_lookup bh (sr_division (er_row row))
                                 (dd_date (sr_date (er_row row)))) as Hlook.
  case_bool_decide as Hin; simpl.
  - split; [by right|]. split; [done|]. intros _.
    apply Hlook in Hin as (ev & Hev & Hdiv & Hdate & _). by exists ev.
  - split; [by left|]. split; [|done]. intros Hday. by apply Hlook in Hday.
Qed.

(** The rows of the sample scoring frame. *)
Lemma scoring_rows_enriched_sample :
  exists frame feature_cols,
    build_scoring_frame_2026 Sample.dim_date Sample.dim_route build_dim_region_division
      Sample.dim_bank_holiday = Some (frame, feature_cols)
    /\ Forall
         (fun row =>
            let r := er_row row in
            (sr_date r ∈ Sample.dim_date
             /\ date_leb (mkDate 2026 1 1) (dd_date (sr_date r)) = true
             /\ date_leb (dd_date (sr_date r)) (mkDate 2026 12 31) = true)
            /\ match sr_route r with
               | Some rt =>
                   rt ∈ Sample.dim_route
                   /\ ((exists rd, rd ∈ build_dim_region_division
                                   /\ rd_region rd = rt_region rt
                                   /\ sr_division r = rd_division rd)
                       \/ ((forall rd, rd ∈ build_dim_region_division ->
                                       rd_region rd <> rt_region rt)
                           /\ sr_division r = "england-and-wales"%string))
               | None => Sample.dim_route = [] /\ sr_division r = "england-and-wales"%string
               end
            /\ (sr_is_closed_day r = 0 \/ sr_is_closed_day r = 1)
            /\ (closed_day Sample.dim_bank_holiday (sr_division r) (dd_date (sr_date r)) ->
                sr_is_closed_day r = 1)
            /\ (sr_is_closed_day r = 1 ->
                exists ev, ev ∈ Sample.dim_bank_holiday /\ bh_division ev = sr_division r
                           /\ bh_date ev = dd_date (sr_date r)))
         (fr_rows frame).
Proof.
  eexists _, _. split; [vm_compute; reflexivity|].
  eapply (scoring_rows_enriched Sample.dim_date Sample.dim_route build_dim_region_division
            Sample.dim_bank_holiday).
  vm_compute. reflexivity.
Defined.

(** X12: the forecast of a closed day is zero: whatever the model returns, a
    forecast row whose day is in the closed-day set of the row's division
    has a predicted booking count of exactly 0.0. *)
Theorem forecast_zero_on_closed_days
    (dim_date : list DimDate) (dim_route : list Route)
    (region_div : list RegionDivision) (bh : list BankHoliday)
    (frame : Frame) (feature_cols : list string)
    (raw : list Float) (out : list Forecast) :
  build_scoring_frame_2026 dim_date dim_route region_div bh = Some (frame, feature_cols) ->
  predict frame raw = Some out ->
  Forall
    (fun f =>
       let r := er_row (fc_row f) in
       closed_day bh (sr_division r) (dd_date (sr_date r)) ->
       predicted_bookings_count f = Finite 0.0)
    out.
Proof.
  intros Hframe Hrun.
  pose proof (scoring_frame_has_closed_day _ _ _ _ _ _ Hframe) as Hcol.
  apply frame_rows in Hframe.
  apply predict_rows in Hrun as [Hrows Hpreds]. rewrite Hcol in Hpreds. cbn [andb] in Hpreds.
  apply Forall_forall. intros f Hf. cbv zeta.
  destruct (Forall2_elem_l _ _ _ _ Hpreds Hf) as (x & _ & Hp). cbv beta in Hp.
  assert (Hrow : er_row (fc_row f) ∈ map er_row (fr_rows frame)).
  { rewrite <- Hrows, map_map. apply list_elem_of_In, in_map_iff.
    exists f. split; [reflexivity | by apply list_elem_of_In]. }
  apply (scoring_base_rows _ _ _ _ _ _ Hframe) in Hrow as (_ & _ & _ & Hclosed).
  intros Hday. apply closed_dates_lookup in Hday.
  rewrite Hp, Hclosed, bool_decide_eq_true_2 by exact Hday. reflexivity.
Qed.

(** The forecast of the sample warehouse for a raw model output. *)
Lemma forecast_zero_on_closed_days_sample :
  exists frame feature_cols out,
    build_scoring_frame_2026 Sample.dim_date Sample.dim_route build_dim_region_division
      Sample.dim_bank_holiday = Some (frame, feature_cols)
    /\ predict frame [ Finite 2.5; NaN; Finite (-0.25); Finite 1.23456 ] = Some out
    /\ Forall
         (fun f =>
            let r := er_row (fc_row f) in
            closed_day Sample.dim_bank_holiday (sr_division r) (dd_date (sr_date r)) ->
            predicted_bookings_count f = Finite 0.0)
         out.
Proof.
  eexists _, _, _. split; [vm_compute; reflexivity|]. split; [vm_compute; reflexivity|].
  eapply (forecast_zero_on_closed_days Sample.dim_date Sample.dim_route
            build_dim_region_division Sample.dim_bank_holiday _ _
            [ Finite 2.5; NaN; Finite (-0.25); Finite 1.23456 ]).
  - vm_compute. reflexivity.
  - vm_compute. reflexivity.
Defined.

(** ** One-hot encoding *)

Section DummyFacts.

Lemma categories_elem (values : list string) (v : string) :
  v ∈ categories values <-> v ∈ values.
Proof. unfold categories. by rewrite sort_by_elem, elem_of_remove_dups. Qed.

Lemma dummy_name_inj (c c' v v' : string) :
  c ∈ [ "region"; "difficulty"; "season"; "day_name" ]%string ->
  c' ∈ [ "region"; "difficulty"; "season"; "day_name" ]%string ->
  (c ++ "_" ++ v)%string = (c' ++ "_" ++ v')%string -> c = c' /\ v = v'.
Proof.
  intros Hc Hc' E.
  repeat match type of Hc with
         | _ ∈ _ :: _ => apply elem_of_cons in Hc; destruct Hc as [->|Hc]
         | _ ∈ [] => by apply elem_of_nil in Hc
         end;
  repeat match type of Hc' with
         | _ ∈ _ :: _ => apply elem_of_cons in Hc'; destruct Hc' as [->|Hc']
         | _ ∈ [] => by apply elem_of_nil in Hc'
         end;
  cbn in E; try discriminate; injection E as E; cbn in E; subst; done.
Qed.

End DummyFacts.

(** X13: the encoding is one-hot: in every row of the scoring frame, for each
    of the four categorical columns, the indicator column named
    [column_value] is set exactly when the row holds that value; so the
    column of the row's own value is present and set, and it is the only
    one of its group that is set; a row whose cell is empty sets none. *)
Theorem scoring_frame_one_hot
    (dim_date : list DimDate) (dim_route : list Route)
    (region_div : list RegionDivision) (bh : list BankHoliday)
    (frame : Frame) (feature_cols : list string) :
  build_scoring_frame_2026 dim_date dim_route region_div bh = Some (frame, feature_cols) ->
  Forall
    (fun row =>
       forall c v,
         c ∈ [ "region"; "difficulty"; "season"; "day_name" ]%string ->
         ((c ++ "_" ++ v)%string, true) ∈ er_dummies row
         <-> cat_value c (er_row row) = Some v)
    (fr_rows frame).
Proof.
  intros Hframe. apply build_scoring_frame_Some in Hframe as (base & _ & -> & _).
  apply Forall_forall. intros row Hrow c v Hc.
  cbn [drop_columns fr_rows] in Hrow.
  unfold _encode_categoricals in Hrow. cbv zeta in Hrow. cbn [fst fr_rows] in Hrow.
  change (List.filter (fun c => mem_string c keep)
            [ "region"; "difficulty"; "season"; "day_name" ]%string)
    with [ "region"; "difficulty"; "season"; "day_name" ]%string in Hrow.
  apply list_elem_of_In, in_map_iff in Hrow as (r & <- & Hr). apply list_elem_of_In in Hr.
  cbn [er_dummies er_row].
  rewrite list_elem_of_In, in_map_iff. split.
  - intros ([c' [name v']] & [= Hname Hval] & Hin). cbn [fst snd] in *.
    apply in_flat_map in Hin as (c'' & Hc'' & Hin).
    apply in_map_iff in Hin as ([name' v''] & [= -> -> ->] & Hin).
    unfold dummy_columns in Hin. apply in_map_iff in Hin as (v0 & [= <- ->] & _).
    apply list_elem_of_In in Hc''.
    destruct (dummy_name_inj _ _ _ _ Hc'' Hc Hname) as [-> ->].
    by apply bool_decide_eq_true in Hval.
  - intros Hv. exists (c, ((c ++ "_" ++ v)%string, v)).
    cbn [fst snd]. split; [by rewrite bool_decide_eq_true_2|].
    apply in_flat_map. exists c. split; [by apply list_elem_of_In|].
    apply in_map_iff. eexists (_, _). split; [reflexivity|].
    unfold dummy_columns. apply in_map_iff. eexists. split; [reflexivity|].
    apply list_elem_of_In, categories_elem, list_elem_of_omap. by exists r.
Qed.

(** The indicator columns of the sample scoring frame. *)
Lemma scoring_frame_one_hot_sample :
  exists frame feature_cols,
    build_scoring_frame_2026 Sample.dim_date Sample.dim_route build_dim_region_division
      Sample.dim_bank_holiday = Some (frame, feature_cols)
    /\ Forall
         (fun row =>
            forall c v,
              c ∈ [ "region"; "difficulty"; "season"; "day_name" ]%string ->
              ((c ++ "_" ++ v)%string, true) ∈ er_dummies row
              <-> cat_value c (er_row row) = Some v)
         (fr_rows frame).
Proof.
  eexists _, _. split; [vm_compute; reflexivity|].
  eapply (scoring_frame_one_hot Sample.dim_date Sample.dim_route build_dim_region_division
            Sample.dim_bank_holiday).
  vm_compute. reflexivity.
Defined.

(** ** More on the route-day aggregate *)

Section AggregateFacts.

Lemma count_by_key {A K} `{EqDecision K} (key : A -> K) (l : list A) (ks : list K) :
  NoDup ks -> (forall a, a ∈ l -> key a ∈ ks) ->
  sumZ (map (fun k => Z.of_nat (length (filter (fun a => key a = k) l))) ks)
  = Z.of_nat (length l).
Proof.
  intros Hnd. induction l as [|a l IH]; intros Hcov.
  - clear. induction ks as [|k ks IHk]; [reflexivity|].
    unfold sumZ in *. cbn [map foldr]. rewrite IHk. reflexivity.
  - assert (Hl : forall a0, a0 ∈ l -> key a0 ∈ ks) by (intros; apply Hcov; by right).
    specialize (IH Hl).
    assert (Ha : key a ∈ ks) by (apply Hcov; left).
    assert (Hstep : forall ks', NoDup ks' ->
              sumZ (map (fun k => Z.of_nat (length (filter (fun a0 => key a0 = k) (a :: l)))) ks')
              = sumZ (map (fun k => Z.of_nat (length (filter (fun a0 => key a0 = k) l))) ks')
                + (if decide (key a ∈ ks') then 1 else 0)).
    { clear. induction ks' as [|k ks' IHk]; intros Hnd; [reflexivity|].
      apply NoDup_cons in Hnd as [Hk Hnd]. cbn [map sumZ foldr].
      fold (sumZ (map (fun k => Z.of_nat (length (filter (fun a0 => key a0 = k) (a :: l)))) ks')).
      fold (sumZ (map (fun k => Z.of_nat (length (filter (fun a0 => key a0 = k) l))) ks')).
      rewrite (IHk Hnd), filter_cons.
      destruct (decide (key a = k)) as [E|E].
      - subst k. rewrite (decide_True (P := key a ∈ key a :: ks')) by left.
        rewrite (decide_False (P := key a ∈ ks')) by exact Hk. simpl length. lia.
      - destruct (decide (key a ∈ ks')) as [Hin|Hnin].
        + rewrite decide_True by (by right). lia.
        + rewrite decide_False; [lia|]. rewrite elem_of_cons. intros [?|?]; congruence. }
    rewrite (Hstep ks Hnd), IH, decide_True by exact Ha. simpl length. lia.
Qed.

Lemma sumZ_by_key {A K} `{EqDecision K} (key : A -> K) (val : A -> Z) (l : list A)
    (ks : list K) :
  NoDup ks -> (forall a, a ∈ l -> key a ∈ ks) ->
  sumZ (map (fun k => sumZ (map val (filter (fun a => key a = k) l))) ks)
  = sumZ (map val l).
Proof.
  intros Hnd. induction l as [|a l IH]; intros Hcov.
  - clear. induction ks as [|k ks IHk]; [reflexivity|].
    unfold sumZ in *. cbn [map foldr]. rewrite IHk. reflexivity.
  - assert (Hl : forall a0, a0 ∈ l -> key a0 ∈ ks) by (intros; apply Hcov; by right).
    specialize (IH Hl).
    assert (Ha : key a ∈ ks) by (apply Hcov; left).
    assert (Hstep : forall ks', NoDup ks' ->
              sumZ (map (fun k => sumZ (map val (filter (fun a0 => key a0 = k) (a :: l)))) ks')
              = sumZ (map (fun k => sumZ (map val (filter (fun a0 => key a0 = k) l))) ks')
                + (if decide (key a ∈ ks') then val a else 0)).
    { clear. induction ks' as [|k ks' IHk]; intros Hnd; [reflexivity|].
      apply NoDup_cons in Hnd as [Hk Hnd]. cbn [map sumZ foldr].
      fold (sumZ (map (fun k => sumZ (map val (filter (fun a0 => key a0 = k) (a :: l)))) ks')).
      fold (sumZ (map (fun k => sumZ (map val (filter (fun a0 => key a0 = k) l))) ks')).
      rewrite (IHk Hnd), filter_cons.
      destruct (decide (key a = k)) as [E|E].
      - subst k. rewrite (decide_True (P := key a ∈ key a :: ks')) by left.
        rewrite (decide_False (P := key a ∈ ks')) by exact Hk. simpl. lia.
      - destruct (decide (key a ∈ ks')) as [Hin|Hnin].
        + rewrite decide_True by (by right). lia.
        + rewrite decide_False; [lia|]. rewrite elem_of_cons. intros [?|?]; congruence. }
    rewrite (Hstep ks Hnd), IH, decide_True by exact Ha. simpl. lia.
Qed.

Lemma group_keys_NoDup (fact : list Booking) :
  NoDup (sort_by group_key_leb (remove_dups (map group_key fact))).
Proof.
  unfold sort_by. rewrite merge_sort_Permutation. apply NoDup_remove_dups.
Qed.

Lemma group_keys_cover (fact : list Booking) (b : Booking) :
  b ∈ fact -> group_key b ∈ sort_by group_key_leb (remove_dups (map group_key fact)).
Proof.
  intros Hb. apply sort_by_elem, elem_of_remove_dups, list_elem_of_In, in_map,
    list_elem_of_In, Hb.
Qed.

End AggregateFacts.

(** X14: the aggregation loses and doubles nothing: over the rows of [grp] the
    booking counts add up to the number of fact rows, and the party sizes
    and the discounted bookings add up to their totals over the fact
    table; no two rows of [grp] share a key. *)
Theorem groupby_agg_conserves (fact : list Booking) :
  sumZ (map bookings_count (groupby_agg fact)) = Z.of_nat (length fact)
  /\ sumZ (map party_size_total (groupby_agg fact)) = sumZ (map party_size fact)
  /\ sumZ (map discount_bookings (groupby_agg fact)) = sumZ (map discount_flag fact)
  /\ NoDup (map (fun a => (ra_date_key a, ra_route_id a, ra_region a)) (groupby_agg fact)).
Proof.
  unfold groupby_agg. cbv zeta. rewrite !map_map. cbn [bookings_count party_size_total
    discount_bookings aggregate_group ra_date_key ra_route_id ra_region].
  pose proof (group_keys_NoDup fact) as Hnd.
  pose proof (group_keys_cover fact) as Hcov.
  split; [|split; [|split]].
  - erewrite map_ext; [apply (count_by_key group_key fact _ Hnd Hcov)|].
    intros k. cbn. by rewrite length_map.
  - apply (sumZ_by_key group_key party_size fact _ Hnd Hcov).
  - apply (sumZ_by_key group_key discount_flag fact _ Hnd Hcov).
  - erewrite map_ext; [rewrite map_id; exact Hnd|]. by intros [[? ?] ?].
Qed.

Section RouteDayJoin.

Lemma merge_left_fst {A B K} `{EqDecision K} (kl : A -> K) (kr : B -> K)
    (left : list A) (right : list B) :
  NoDup (map kr right) -> map fst (merge_left kl kr left right) = left.
Proof.
  intros Hnd. unfold merge_left. induction left as [|a left IH]; [reflexivity|].
  cbn [flat_map]. rewrite map_app, IH.
  assert (Hle : (length (filter (fun b => kr b = kl a) right) <= 1)%nat).
  { clear -Hnd. induction right as [|b right IH]; [simpl; lia|].
    simpl in Hnd. apply NoDup_cons in Hnd as [Hb Hnd]. rewrite filter_cons.
    destruct (decide _) as [E|E]; [|by apply IH].
    rewrite filter_key_absent; [simpl; lia | by rewrite <- E]. }
  destruct (filter _ right) as [|b [|b' ms]]; simpl in *; try reflexivity. lia.
Qed.

Lemma Sorted_weaken {A} (R R' : A -> A -> Prop) (l : list A) :
  (forall x y, R x y -> R' x y) -> Sorted R l -> Sorted R' l.
Proof.
  intros Himp. induction 1 as [|x l Hs IH Hhd]; constructor; [exact IH|].
  destruct Hhd; constructor. by apply Himp.
Qed.

Lemma route_day_leb_total : Total (fun x y => Is_true (route_day_leb x y)).
Proof.
  intros x y. unfold route_day_leb.
  destruct (ra_date_key (rday_agg x) <? ra_date_key (rday_agg y)) eqn:E1;
  destruct (ra_date_key (rday_agg y) <? ra_date_key (rday_agg x)) eqn:E2;
  destruct (ra_date_key (rday_agg x) =? ra_date_key (rday_agg y)) eqn:E3;
  destruct (ra_date_key (rday_agg y) =? ra_date_key (rday_agg x)) eqn:E4;
  destruct (ra_route_id (rday_agg x) <=? ra_route_id (rday_agg y)) eqn:E5;
  destruct (ra_route_id (rday_agg y) <=? ra_route_id (rday_agg x)) eqn:E6;
  simpl; auto; exfalso; lia.
Qed.

End RouteDayJoin.

(** X15: the route-day table is written in (date_key, route_id) order. Each of
    its rows carries the calendar row and the route row that have its
    keys, or nothing when no such row exists: an aggregate with an
    unknown key is kept, never dropped. *)
Theorem build_route_day_sorted_joined
    (fact : list Booking) (dim_date : list DimDate) (dim_route : list Route) :
  Sorted (fun x y => ra_date_key (rday_agg x) < ra_date_key (rday_agg y)
                     \/ (ra_date_key (rday_agg x) = ra_date_key (rday_agg y)
                         /\ ra_route_id (rday_agg x) <= ra_route_id (rday_agg y)))
         (build_route_day fact dim_date dim_route)
  /\ Forall
       (fun r =>
          match rday_date r with
          | Some d => d ∈ dim_date /\ dd_date_key d = ra_date_key (rday_agg r)
          | None => forall d, d ∈ dim_date -> dd_date_key d <> ra_date_key (rday_agg r)
          end
          /\ match rday_route r with
             | Some rt => rt ∈ dim_route /\ rt_route_id rt = ra_route_id (rday_agg r)
             | None => forall rt, rt ∈ dim_route -> rt_route_id rt <> ra_route_id (rday_agg r)
             end)
       (build_route_day fact dim_date dim_route)
  /\ (forall a, a ∈ groupby_agg fact ->
                exists r, r ∈ build_route_day fact dim_date dim_route /\ rday_agg r = a).
Proof.
  split; [|split].
  - unfold build_route_day. cbv zeta. unfold sort_by.
    eapply Sorted_weaken; [|apply (Sorted_merge_sort _ (Total0 := route_day_leb_total))].
    intros x y Hxy. unfold route_day_leb in Hxy.
    apply Is_true_true in Hxy. rewrite orb_true_iff, andb_true_iff in Hxy. lia.
  - apply Forall_forall. intros r Hr.
    unfold build_route_day in Hr. cbv zeta in Hr.
    rewrite sort_by_elem, list_elem_of_In, in_map_iff in Hr.
    destruct Hr as ([[a od] ort] & <- & Hm). cbn [rday_agg rday_date rday_route fst snd].
    apply list_elem_of_In, merge_left_spec in Hm as [Hm Hrt]. cbn [fst snd] in *.
    apply merge_left_spec in Hm as [_ Hd].
    split; [destruct od; tauto | destruct ort; tauto].
  - intros a Ha. unfold build_route_day. cbv zeta.
    destruct (merge_left_covers ra_date_key dd_date_key (groupby_agg fact) dim_date a Ha)
      as (p & Hp & Hfst).
    destruct (merge_left_covers (fun m : RouteDayAgg * option DimDate => ra_route_id (fst m))
                rt_route_id _ dim_route p Hp) as (q & Hq & Hfst2).
    eexists. split.
    + apply sort_by_elem, list_elem_of_In, in_map_iff. exists q.
      split; [reflexivity | by apply list_elem_of_In].
    + cbn. by rewrite Hfst2, Hfst.
Qed.

(** X16: over a calendar and a route table with unique keys the joins multiply
    nothing: the rows of the route-day table are the rows of the
    aggregate, one for one, so the table has one row per (date_key,
    route_id, region) of the fact table. *)
Theorem build_route_day_one_row_per_group
    (fact : list Booking) (dim_date : list DimDate) (dim_route : list Route) :
  NoDup (map dd_date_key dim_date) ->
  NoDup (map rt_route_id dim_route) ->
  map rday_agg (build_route_day fact dim_date dim_route) ≡ₚ groupby_agg fact
  /\ length (build_route_day fact dim_date dim_route)
     = length (remove_dups (map group_key fact)).
Proof.
  intros Hd Hr.
  assert (Hperm : map rday_agg (build_route_day fact dim_date dim_route) ≡ₚ groupby_agg fact).
  { unfold build_route_day. cbv zeta. unfold sort_by.
    rewrite merge_sort_Permutation, map_map. cbn [rday_agg].
    rewrite <- (map_map fst fst), (merge_left_fst _ _ _ _ Hr), (merge_left_fst _ _ _ _ Hd).
    reflexivity. }
  split; [exact Hperm|].
  rewrite <- (length_map rday_agg), Hperm. unfold groupby_agg. cbv zeta.
  by rewrite length_map, sort_by_length.
Qed.

(** The route-day table of the sample warehouse. *)
Lemma build_route_day_one_row_per_group_sample :
  map rday_agg (build_route_day Sample.fact_bookings Sample.dim_date Sample.dim_route)
  ≡ₚ groupby_agg Sample.fact_bookings
  /\ length (build_route_day Sample.fact_bookings Sample.dim_date Sample.dim_route)
     = length (remove_dups (map group_key Sample.fact_bookings)).
Proof.
  apply build_route_day_one_row_per_group.
  - apply (bool_decide_unpack _). vm_compute. reflexivity.
  - apply (bool_decide_unpack _). vm_compute. reflexivity.
Defined.

(** ** Route coordinates *)

Section LatLonFacts.

Lemma stable_hash_unit (x : string) :
  (0 <= _stable_hash_to_unit x)%Q /\ (_stable_hash_to_unit x <= 1)%Q.
Proof.
  unfold _stable_hash_to_unit.
  destruct (unit_quotient_bounds
              (fold_left
                 (fun h ch => let h := Z.lxor h ch in let h := h * 16777619 in
                              let h := Z.land h 0xFFFFFFFF in h)
                 (encode_utf8 x) 2166136261)) as [Hlo Hhi].
  split; [exact Hlo | apply Qlt_le_weak, Hhi].
Qed.

(** Rounding to five decimals keeps a point inside a box whose sides have
    at most five decimals. *)
Lemma round_5_in_box (a b : Z) (lo hi x : Q) :
  (lo == inject_Z a / inject_Z (10 ^ Z.of_nat 5))%Q ->
  (hi == inject_Z b / inject_Z (10 ^ Z.of_nat 5))%Q ->
  (lo <= x)%Q -> (x <= hi)%Q ->
  (lo <= Num.round_nd x 5)%Q /\ (Num.round_nd x 5 <= hi)%Q.
Proof.
  intros Ea Eb Hlo Hhi. rewrite Ea, Eb in *. by apply round_nd_between.
Qed.

End LatLonFacts.

(** X18: [_make_lat_lon] fails exactly for a region that has no bounding box;
    for the four regions that have one it returns, whatever the key, a
    point inside the region's box, sides included. *)
Theorem make_lat_lon_in_box (region key : string) :
  match dict_lookup REGION_BOUNDS region with
  | None => _make_lat_lon region key = None
  | Some bounds =>
      exists lat lon,
        _make_lat_lon region key = Some (lat, lon)
        /\ ((lat_min bounds <= lat)%Q /\ (lat <= lat_max bounds)%Q)
        /\ ((lon_min bounds <= lon)%Q /\ (lon <= lon_max bounds)%Q)
  end.
Proof.
  unfold _make_lat_lon.
  destruct (stable_hash_unit key) as [Hu0 Hu1].
  destruct (stable_hash_unit (str_reverse key)) as [Hv0 Hv1].
  set (u := _stable_hash_to_unit key) in *.
  set (v := _stable_hash_to_unit (str_reverse key)) in *.
  unfold REGION_BOUNDS, dict_lookup.
  repeat destruct (String.eqb _ region); try reflexivity;
    cbv zeta; cbn [lat_min lat_max lon_min lon_max];
    eexists _, _; (split; [reflexivity|]); split.
  - apply (round_5_in_box 5435000 5470000); [reflexivity | reflexivity | lra | lra].
  - apply (round_5_in_box (-335000) (-280000)); [reflexivity | reflexivity | lra | lra].
  - apply (round_5_in_box 5155000 5335000); [reflexivity | reflexivity | lra | lra].
  - apply (round_5_in_box (-440000) (-270000)); [reflexivity | reflexivity | lra | lra].
  - apply (round_5_in_box 5660000 5860000); [reflexivity | reflexivity | lra | lra].
  - apply (round_5_in_box (-630000) (-310000)); [reflexivity | reflexivity | lra | lra].
  - apply (round_5_in_box 5320000 5415000); [reflexivity | reflexivity | lra | lra].
  - apply (round_5_in_box (-255000) (-155000)); [reflexivity | reflexivity | lra | lra].
Qed.

(** The specification's scenario, and a key with a two-byte character. *)
Example make_lat_lon_scafell :
  _make_lat_lon "lake_district" "1-Scafell Pike-lake_district"
  = Some (54.59675%Q, (-2.81640)%Q)
  /\ _make_lat_lon "dartmoor" "9-High Willhays-dartmoor" = None
  /\ str_reverse ("Cr" ++ String "195" (String "177" "o"))
     = ("o" ++ String "195" (String "177" "rC"))%string.
Proof. repeat split; vm_compute; reflexivity. Qed.

(** ** The synthetic weather *)

Section WeatherFacts.

Lemma stable_unit_range (x : string) :
  (0 <= _stable_unit x)%Q /\ (_stable_unit x <= 1)%Q.
Proof.
  unfold _stable_unit.
  destruct (unit_quotient_bounds
              (fold_left (fun h b => let h := Z.lxor h b in Z.land (h * 16777619) 0xFFFFFFFF)
                 (encode_utf8 x) 2166136261)) as [Hlo Hhi].
  split; [exact Hlo | apply Qlt_le_weak, Hhi].
Qed.

Lemma round_2_in (a b : Z) (lo hi x : Q) :
  (lo == inject_Z a / inject_Z (10 ^ Z.of_nat 2))%Q ->
  (hi == inject_Z b / inject_Z (10 ^ Z.of_nat 2))%Q ->
  (lo <= x)%Q -> (x <= hi)%Q ->
  (lo <= Num.round_nd x 2)%Q /\ (Num.round_nd x 2 <= hi)%Q.
Proof.
  intros Ea Eb Hlo Hhi. rewrite Ea, Eb in *. by apply round_nd_between.
Qed.

(** An upper bound of a product whose first factor may be negative. *)
Lemma Qmult_upper (x y bx by' : Q) :
  (x <= bx)%Q -> (0 <= bx)%Q -> (0 <= y)%Q -> (y <= by')%Q -> (x * y <= bx * by')%Q.
Proof.
  intros Hx Hbx Hy Hby.
  destruct (Qlt_le_dec x 0) as [Hneg|Hpos].
  - apply Qle_trans with 0%Q.
    + assert (H0 : (0 <= (- x) * y)%Q) by (apply Qmult_le_0_compat; lra).
      assert (E : (- x * y == - (x * y))%Q) by ring. lra.
    + apply Qmult_le_0_compat; lra.
  - apply (Qmult_bounds 0 x bx 0 y by'); lra.
Qed.

End WeatherFacts.

Example str_of_int_sample :
  str_of_int 12 = "12"%string /\ str_of_int 0 = "0"%string
  /\ str_of_int (-7) = "-7"%string /\ str_of_int 20260101 = "20260101"%string.
Proof. repeat split; vm_compute; reflexivity. Qed.

(** X19: a row that has a temperature is left alone. A row that has none gets
    all eight cells, within fixed ranges whatever the route, the date and
    the season label: the mean temperature within 3 degrees of the
    season's baseline, between the minimum and the maximum; precipitation
    in [0, 7.5] and snowfall in [0, 2.1]; mean wind in [6, 18.5] and gusts
    not below it; and a severity index in [14.4, 97.2], so the clamp of
    the index to [0, 120] never binds. *)
Theorem fill_row_ranges (season : string) (route_id date_key : Z) (r : Weather) :
  (forall t, temp_mean r = Some t -> fill_row season route_id date_key r = r)
  /\ (temp_mean r = None ->
      exists tm tn tx p s ws wg sev,
        fill_row season route_id date_key r
        = {| temp_mean := Some tm; temp_min := Some tn; temp_max := Some tx;
             precip_sum := Some p; snowfall_sum := Some s;
             windspeed_mean := Some ws; windgusts_max := Some wg;
             severity_index := Some sev |}
        /\ ((_seasonal_temp_baseline season - 3 <= tm)%Q
            /\ (tm <= _seasonal_temp_baseline season + 3)%Q)
        /\ ((tn <= tm)%Q /\ (tm <= tx)%Q)
        /\ ((0 <= p)%Q /\ (p <= 7.5)%Q)
        /\ ((0 <= s)%Q /\ (s <= 2.1)%Q)
        /\ ((6 <= ws)%Q /\ (ws <= 18.5)%Q)
        /\ (ws <= wg)%Q
        /\ ((14.4 <= sev)%Q /\ (sev <= 97.2)%Q)).
Proof.
  split.
  - intros t Ht. unfold fill_row. by rewrite Ht.
  - intros Hnone. unfold fill_row. rewrite Hnone. cbv zeta.
    set (stem := (str_of_int route_id ++ "-" ++ str_of_int date_key)%string).
    destruct (stable_unit_range (stem ++ "-u")) as [Hu0 Hu1].
    destruct (stable_unit_range (stem ++ "-v")) as [Hv0 Hv1].
    destruct (stable_unit_range (stem ++ "-w")) as [Hw0 Hw1].
    set (u := _stable_unit (stem ++ "-u")) in *.
    set (v := _stable_unit (stem ++ "-v")) in *.
    set (w := _stable_unit (stem ++ "-w")) in *.
    do 8 eexists. split; [reflexivity|].
    set (sev := dict_get _ season 1.0%Q).
    set (snow := if String.eqb season "winter" then 1.4%Q else 0.3%Q).
    assert (Hsev : (0.85 <= sev)%Q /\ (sev <= 1.25)%Q).
    { unfold sev, dict_get. repeat destruct (String.eqb _ season); split; lra. }
    assert (Hsnow : (0.3 <= snow)%Q /\ (snow <= 1.4)%Q).
    { unfold snow. destruct (String.eqb season "winter"); split; lra. }
    destruct Hsev as [Hs1 Hs2], Hsnow as [Hn1 Hn2].
    (* products with the season factor *)
    assert (Hvs : (0 <= v * sev)%Q /\ (v * sev <= 1.25)%Q).
    { pose proof (Qmult_bounds 0 v 1 0.85 sev 1.25 ltac:(lra) ltac:(lra) ltac:(lra) ltac:(lra) ltac:(lra) ltac:(lra)) as [A1 A2]. split; lra. }
    assert (Hws : (0 <= w * sev)%Q /\ (w * sev <= 1.25)%Q).
    { pose proof (Qmult_bounds 0 w 1 0.85 sev 1.25 ltac:(lra) ltac:(lra) ltac:(lra) ltac:(lra) ltac:(lra) ltac:(lra)) as [A1 A2]. split; lra. }
    assert (Hus : (0 <= u * sev)%Q /\ (u * sev <= 1.25)%Q).
    { pose proof (Qmult_bounds 0 u 1 0.85 sev 1.25 ltac:(lra) ltac:(lra) ltac:(lra) ltac:(lra) ltac:(lra) ltac:(lra)) as [A1 A2]. split; lra. }
    assert (Hun : (0 <= u * snow)%Q /\ (u * snow <= 1.4)%Q).
    { pose proof (Qmult_bounds 0 u 1 0.3 snow 1.4 ltac:(lra) ltac:(lra) ltac:(lra) ltac:(lra) ltac:(lra) ltac:(lra)) as [A1 A2]. split; lra. }
    destruct Hvs as [Hvs1 Hvs2], Hws as [Hws1 Hws2], Hus as [Hus1 Hus2], Hun as [Hun1 Hun2].
    set (precip := Qmax 0.0 ((v * 8.0 - 2.0) * sev)).
    set (snowfall := Qmax 0.0 ((u * 4.0 - 2.5) * snow)).
    assert (Hp : (0 <= precip)%Q /\ (precip <= 7.5)%Q).
    { unfold precip. split.
      - pose proof (Q.le_max_l 0.0 ((v * 8.0 - 2.0) * sev)). lra.
      - apply Q.max_lub; [lra|].
        pose proof (Qmult_upper (v * 8.0 - 2.0) sev 6 1.25
                      ltac:(lra) ltac:(lra) ltac:(lra) ltac:(lra)). lra. }
    assert (Hf : (0 <= snowfall)%Q /\ (snowfall <= 2.1)%Q).
    { unfold snowfall. split.
      - pose proof (Q.le_max_l 0.0 ((u * 4.0 - 2.5) * snow)). lra.
      - apply Q.max_lub; [lra|].
        pose proof (Qmult_upper (u * 4.0 - 2.5) snow 1.5 1.4
                      ltac:(lra) ltac:(lra) ltac:(lra) ltac:(lra)). lra. }
    destruct Hp as [Hp1 Hp2], Hf as [Hf1 Hf2].
    assert (Ewind : (6.0 + w * 10.0 * sev == 6 + 10 * (w * sev))%Q) by ring.
    assert (Egust : (6.0 + w * 10.0 * sev + 6.0 + u * 14.0 * sev
                     == 12 + 10 * (w * sev) + 14 * (u * sev))%Q) by ring.
    split; [|split; [|split; [|split; [|split; [|split]]]]].
    + unfold _seasonal_temp_baseline, dict_get.
      repeat destruct (String.eqb _ season).
      * apply (round_2_in (-50) 550); [reflexivity | reflexivity | lra | lra].
      * apply (round_2_in 500 1100); [reflexivity | reflexivity | lra | lra].
      * apply (round_2_in 1000 1600); [reflexivity | reflexivity | lra | lra].
      * apply (round_2_in 450 1050); [reflexivity | reflexivity | lra | lra].
      * apply (round_2_in 500 1100); [reflexivity | reflexivity | lra | lra].
    + split; apply round_nd_mono; lra.
    + apply (round_2_in 0 750); [reflexivity | reflexivity | lra | lra].
    + apply (round_2_in 0 210); [reflexivity | reflexivity | lra | lra].
    + apply (round_2_in 600 1850); [reflexivity | reflexivity | lra | lra].
    + apply round_nd_mono. lra.
    + apply (round_2_in 1440 9720); [reflexivity | reflexivity | |].
      * pose proof (clip_inside (precip * 4.0 + snowfall * 8.0
                      + (6.0 + w * 10.0 * sev + 6.0 + u * 14.0 * sev) * 1.2) 0 120
                      ltac:(lra) ltac:(lra)) as E.
        rewrite E. lra.
      * pose proof (clip_inside (precip * 4.0 + snowfall * 8.0
                      + (6.0 + w * 10.0 * sev + 6.0 + u * 14.0 * sev) * 1.2) 0 120
                      ltac:(lra) ltac:(lra)) as E.
        rewrite E. lra.
Qed.

(** A row of the scoring frame without weather, filled. *)
Lemma fill_row_ranges_sample :
  exists tm tn tx p s ws wg sev,
    fill_row "winter" 1 20260101
      {| temp_mean := None; temp_min := None; temp_max := None; precip_sum := None;
         snowfall_sum := None; windspeed_mean := None; windgusts_max := None;
         severity_index := None |}
    = {| temp_mean := Some tm; temp_min := Some tn; temp_max := Some tx;
         precip_sum := Some p; snowfall_sum := Some s;
         windspeed_mean := Some ws; windgusts_max := Some wg;
         severity_index := Some sev |}
    /\ ((_seasonal_temp_baseline "winter" - 3 <= tm)%Q
        /\ (tm <= _seasonal_temp_baseline "winter" + 3)%Q)
    /\ ((tn <= tm)%Q /\ (tm <= tx)%Q)
    /\ ((0 <= p)%Q /\ (p <= 7.5)%Q)
    /\ ((0 <= s)%Q /\ (s <= 2.1)%Q)
    /\ ((6 <= ws)%Q /\ (ws <= 18.5)%Q)
    /\ (ws <= wg)%Q
    /\ ((14.4 <= sev)%Q /\ (sev <= 97.2)%Q).
Proof.
  apply (proj2 (fill_row_ranges "winter" 1 20260101 _)). reflexivity.
Defined.

(** ** From the engine to the training frame *)

Section TrainingFacts.

Lemma groupby_agg_groups (fact : list Booking) (a : RouteDayAgg) :
  a ∈ groupby_agg fact ->
  exists b, b ∈ fact
            /\ ra_date_key a = date_key b /\ ra_region a = region b
            /\ 1 <= bookings_count a.
Proof.
  unfold groupby_agg. cbv zeta. rewrite list_elem_of_In, in_map_iff.
  intros (k & <- & Hk).
  rewrite <- list_elem_of_In, sort_by_elem, elem_of_remove_dups, list_elem_of_In, in_map_iff in Hk.
  destruct Hk as (b & <- & Hin). apply list_elem_of_In in Hin.
  exists b. split; [exact Hin|]. split; [reflexivity|]. split; [reflexivity|].
  cbn [bookings_count aggregate_group]. rewrite length_map.
  assert (Hb : b ∈ filter (fun b0 => group_key b0 = group_key b) fact)
    by (apply list_elem_of_filter; split; [reflexivity | exact Hin]).
  destruct (filter _ fact); [by apply elem_of_nil in Hb | simpl; lia].
Qed.

Lemma build_route_day_joined
    (fact : list Booking) (dim_date : list DimDate) (dim_route : list Route) (r : RouteDay) :
  r ∈ build_route_day fact dim_date dim_route ->
  rday_agg r ∈ groupby_agg fact
  /\ match rday_date r with
     | Some d => d ∈ dim_date /\ dd_date_key d = ra_date_key (rday_agg r)
     | None => forall d, d ∈ dim_date -> dd_date_key d <> ra_date_key (rday_agg r)
     end.
Proof.
  intros Hr. split; [by eapply build_route_day_rows|].
  unfold build_route_day in Hr. cbv zeta in Hr.
  rewrite sort_by_elem, list_elem_of_In, in_map_iff in Hr.
  destruct Hr as ([[a od] ort] & <- & Hm). cbn [rday_agg rday_date fst snd].
  apply list_elem_of_In, merge_left_spec in Hm as [Hm _]. cbn [fst snd] in *.
  apply merge_left_spec in Hm as [_ Hd]. destruct od; tauto.
Qed.

Lemma NoDup_key_inj {A K} (key : A -> K) (l : list A) (x y : A) :
  NoDup (map key l) -> x ∈ l -> y ∈ l -> key x = key y -> x = y.
Proof.
  induction l as [|a l IH]; intros Hnd Hx Hy E; [by apply elem_of_nil in Hx|].
  simpl in Hnd. apply NoDup_cons in Hnd as [Ha Hnd].
  apply elem_of_cons in Hx as [->|Hx]; apply elem_of_cons in Hy as [->|Hy].
  - reflexivity.
  - exfalso. apply Ha. rewrite E. apply list_elem_of_In, in_map, list_elem_of_In, Hy.
  - exfalso. apply Ha. rewrite <- E. apply list_elem_of_In, in_map, list_elem_of_In, Hx.
  - by apply IH.
Qed.

Lemma region_to_div_unique (region_div : list RegionDivision) (rd : RegionDivision) :
  NoDup (map rd_region region_div) -> rd ∈ region_div ->
  region_to_div_of region_div !! rd_region rd = Some (rd_division rd).
Proof.
  intros Hnd Hrd. rewrite region_to_div_lookup.
  assert (Hf : filter (fun r => rd_region r = rd_region rd) region_div = [rd]).
  { induction region_div as [|r l IH]; [by apply elem_of_nil in Hrd|].
    simpl in Hnd. apply NoDup_cons in Hnd as [Hr Hnd]. rewrite filter_cons.
    apply elem_of_cons in Hrd as [->|Hrd].
    - rewrite decide_True by reflexivity. f_equal. by apply filter_key_absent.
    - rewrite decide_False; [by apply IH|].
      intros E. apply Hr. rewrite E. apply list_elem_of_In, in_map, list_elem_of_In, Hrd. }
  by rewrite Hf.
Qed.

Lemma region_to_div_unmapped (region_div : list RegionDivision) (region : string) :
  (forall rd, rd ∈ region_div -> rd_region rd <> region) ->
  region_to_div_of region_div !! region = None.
Proof.
  intros Hno. rewrite region_to_div_lookup.
  destruct (filter _ region_div) as [|r l] eqn:Hf; [reflexivity|].
  assert (Hr : r ∈ filter (fun r => rd_region r = region) region_div) by (rewrite Hf; left).
  apply list_elem_of_filter in Hr as [E Hr]. by destruct (Hno r Hr).
Qed.

End TrainingFacts.

(** X20: the training frame of a generated warehouse. Over a calendar with one
    row per [date_key], that key being the YYYYMMDD number of the date,
    and a region table with one row per region, the route-day table of
    a non-empty engine output always yields a training frame ([div_bh]
    never meets a missing flag): one row per route-day row, in the same
    order, none of them a closed day, each counting at least one
    booking. *)
Theorem training_rows_of_generated {G : Type} `{Generator G}
    (routes : list Route) (guides : list Guide) (dim_date : list DimDate)
    (bh : list BankHoliday) (region_div : list RegionDivision) (rng : G)
    (fact : list Booking) :
  generate_fact_bookings routes guides dim_date bh region_div rng = Some fact ->
  fact <> [] ->
  NoDup (map dd_date_key dim_date) ->
  Forall (fun d => dd_date_key d = date_key_of (dd_date d)) dim_date ->
  NoDup (map rd_region region_div) ->
  exists rows,
    training_rows (build_route_day fact dim_date routes) region_div bh = Some rows
    /\ map tr_day rows = build_route_day fact dim_date routes
    /\ Forall (fun t => tr_is_closed_day t = 0
                        /\ 1 <= bookings_count (rday_agg (tr_day t)))
              rows.
Proof.
  intros Hrun _ Hkeys Hcons Hregions.
  pose proof (generated_rows _ _ _ _ _ _ _ Hrun) as Hopen.
  pose proof (generated_rows_full _ _ _ _ _ _ _ Hrun) as [_ Hstored].
  rewrite Forall_forall in Hopen. rewrite Forall_forall in Hstored.
  rewrite Forall_forall in Hcons.
  unfold training_rows. cbv zeta.
  set (P := fun t : TrainRow => tr_is_closed_day t = 0
                                /\ 1 <= bookings_count (rday_agg (tr_day t))).
  pose proof (merge_left_fst (fun r => ra_region (rday_agg r)) rd_region
                (build_route_day fact dim_date routes) region_div Hregions) as Hfst.
  set (df := merge_left _ _ _ _) in *.
  set (f := fun p : RouteDay * option RegionDivision => _).
  cut (exists rows, mapM f df = Some rows /\ map tr_day rows = map fst df /\ Forall P rows).
  { intros (rows & ? & ? & ?). exists rows. rewrite <- Hfst. done. }
  clear Hfst.
  assert (Hdf : forall p, p ∈ df -> exists t, P t /\ tr_day t = fst p /\ f p = Some t).
  { intros [r ord] Hp. subst f. cbn [fst snd].
    apply merge_left_spec in Hp as [Hr Hord].
    apply build_route_day_joined in Hr as [Hagg Hjoin].
    apply groupby_agg_groups in Hagg as (b & Hb & Hkey & Hregion & Hcount).
    destruct (Hopen b Hb) as (rt & d & _ & Hd & Hem & Hnotclosed & _).
    destruct Hem as (Hdate & _ & Hbregion & _).
    destruct (Hstored b Hb) as (rt2 & d2 & _ & _ & _ & _ & Hdate2 & Hfacts).
    destruct Hfacts as (_ & _ & _ & Hdk & _).
    assert (Hdkey : dd_date_key d = ra_date_key (rday_agg r)).
    { rewrite (Hcons d Hd), Hkey, Hdk, <- Hdate2, Hdate. reflexivity. }
    destruct (rday_date r) as [d'|].
    - destruct Hjoin as [Hd' Hk'].
      assert (d' = d) as -> by (eapply (NoDup_key_inj dd_date_key); eauto; congruence).
      eexists. split; [|split; [|reflexivity]]; [|reflexivity]. split; [|exact Hcount].
      cbn [tr_is_closed_day].
      assert (Hdiv : match ord with
                     | Some rd => rd_division rd
                     | None => "england-and-wales"%string
                     end = route_division (region_to_div_of region_div) rt).
      { unfold route_division. rewrite <- Hbregion, <- Hregion.
        destruct ord as [rd|].
        - destruct Hord as [Hrd E]. rewrite <- E.
          by rewrite (region_to_div_unique _ _ Hregions Hrd).
        - by rewrite (region_to_div_unmapped _ _ Hord). }
      rewrite Hdiv, bool_decide_eq_false_2 by exact Hnotclosed. reflexivity.
    - exfalso. by apply (Hjoin d Hd). }
  clearbody df f. induction df as [|p df IH].
  - exists []. split; [reflexivity|]. split; [reflexivity | constructor].
  - destruct (Hdf p ltac:(left)) as (t & Ht & Hday & Hp).
    destruct IH as (rows & Hrows & Hdays & Hall); [intros q Hq; apply Hdf; by right|].
    exists (t :: rows). split; [|split; [|by constructor]].
    + cbn [mapM]. rewrite Hp. simpl. rewrite Hrows. reflexivity.
    + cbn [map]. by rewrite Hday, Hdays.
Qed.

(** The training frame of the sample warehouse. *)
Lemma training_rows_of_generated_sample :
  exists rows,
    training_rows (build_route_day Sample.fact_bookings Sample.dim_date Sample.dim_route)
      build_dim_region_division Sample.dim_bank_holiday = Some rows
    /\ map tr_day rows
       = build_route_day Sample.fact_bookings Sample.dim_date Sample.dim_route
    /\ Forall (fun t => tr_is_closed_day t = 0
                        /\ 1 <= bookings_count (rday_agg (tr_day t)))
              rows.
Proof.
  apply (training_rows_of_generated Sample.dim_route Sample.dim_guide Sample.dim_date
           Sample.dim_bank_holiday build_dim_region_division Sample.tape).
  - vm_compute. reflexivity.
  - discriminate.
  - apply (bool_decide_unpack _). vm_compute. reflexivity.
  - repeat constructor.
  - apply (bool_decide_unpack _). vm_compute. reflexivity.
Defined.

(** A route-day row without calendar columns stops the training frame. *)
Example training_rows_missing_calendar :
  training_rows (build_route_day Sample.fact_bookings [] Sample.dim_route)
    build_dim_region_division Sample.dim_bank_holiday = None.
Proof. vm_compute. reflexivity. Qed.
